(** * Insurance agent core: premium rule engine, tool dispatcher and
      payment-confirmation handler

    A shallow embedding of
    - [src/services/premium.service.ts]  ([calculatePremium]),
    - [src/services/agent.service.ts]    ([processMessage] and its helpers),
    - [src/services/payment.service.ts]  ([handleStripeWebhook]),
    - [src/controllers/stripe.controller.ts] ([stripeWebhookHandler]),
    - [src/services/document.service.ts] ([generateAndUploadCertificate]),
    - [src/services/whatsapp.service.ts] ([sendMessage], [sendDocument]),
    - [src/controllers/whatsapp.controller.ts] ([verifyWebhook],
      [handleIncomingMessage]),
    - [src/services/auth.service.ts], [src/controllers/auth.controller.ts]
      and [src/middleware/requireAuth.ts] (registration, login and the
      role guard of the administrator routes).

    JavaScript numbers are IEEE-754 binary64 values and are modelled by Rocq's
    primitive floats.  The Prisma store is a record of tables (rows in
    insertion order, found through their unique columns); the
    external collaborators (storage faults, the dialogue model, the payment
    gateway, the PDF and upload services, the messaging API) answer through
    an explicit environment of outcomes, and every call that leaves the
    process is recorded in a trace. *)

From Stdlib Require Import ZArith Floats Uint63 Ascii String List Bool.
From stdpp Require Import base option list gmap strings.

Local Open Scope string_scope.

(** ** JavaScript values and operators used by the rule engine *)

Module JS.

(** [number | string | boolean]: the kinds a pricing factor's [value] may
    have, and the kinds of the facts collected during the dialogue. *)
Inductive Prim : Type :=
| Number (n : float)
| Str (s : string)
| Boolean (b : bool).

(** What a property read can yield besides a primitive: one of the builtin
    functions that every plain object inherits from [Object.prototype], or
    [Object.prototype] itself (through the accessor [__proto__]). *)
Inductive Value : Type :=
| Primitive (p : Prim)
| BuiltinFunction (name : string)
| ObjectPrototype.

(** The function-valued members of [Object.prototype], each with the name
    of the function it holds ([Object.prototype.constructor] is [Object]). *)
Definition prototypeFunctions : list (string * string) :=
  [ ("constructor", "Object");
    ("hasOwnProperty", "hasOwnProperty");
    ("isPrototypeOf", "isPrototypeOf");
    ("propertyIsEnumerable", "propertyIsEnumerable");
    ("toLocaleString", "toLocaleString");
    ("toString", "toString");
    ("valueOf", "valueOf");
    ("__defineGetter__", "__defineGetter__");
    ("__defineSetter__", "__defineSetter__");
    ("__lookupGetter__", "__lookupGetter__");
    ("__lookupSetter__", "__lookupSetter__") ].

(** The member found on the prototype chain of a plain object. *)
Definition inherited (key : string) : option Value :=
  if String.eqb key "__proto__" then Some ObjectPrototype
  else
    match find (fun member => String.eqb (fst member) key) prototypeFunctions with
    | Some member => Some (BuiltinFunction (snd member))
    | None => None
    end.

(** [o[key]] on a plain object with the own properties [o]: the own
    property when there is one, else the inherited member, else
    [undefined]. *)
Definition Get (o : gmap string Prim) (key : string) : option Value :=
  match o !! key with
  | Some p => Some (Primitive p)
  | None => inherited key
  end.

(** ToPrimitive, which the operators [<], [>] and [==] apply to an operand
    that is an object: [valueOf] of these objects returns the object, so
    the result is that of [toString]. *)
Definition ToPrimitive (v : Value) : Prim :=
  match v with
  | Primitive p => p
  | BuiltinFunction name => Str ("function " ++ name ++ "() { [native code] }")
  | ObjectPrototype => Str "[object Object]"
  end.

(** Strings are held as UTF-8 bytes and JavaScript compares them by UTF-16
    code units.  The two orders agree except where a character beyond the
    BMP (lead byte 0xF0..0xF4, a surrogate pair in UTF-16) meets one of
    U+E000..U+FFFF (lead byte 0xEE or 0xEF), which the rank of the first
    differing byte puts right. *)
Definition unitRank (b : ascii) : N :=
  let n := N_of_ascii b in
  if (240 <=? n)%N then (n - 2)%N
  else if (238 <=? n)%N then (n + 16)%N
  else n.

Fixpoint codeUnitLtb (s t : string) : bool :=
  match s, t with
  | _, EmptyString => false
  | EmptyString, String _ _ => true
  | String a s', String b t' =>
      if Ascii.eqb a b then codeUnitLtb s' t'
      else (unitRank a <? unitRank b)%N
  end.

Section Coercions.

(** The runtime's StringToNumber ([Number("25") = 25], [Number("abc") = NaN]);
    it is a builtin of the language and not code of the repository. *)
Variable StringToNumber : string -> float.

Definition ToNumber (v : Prim) : float :=
  match v with
  | Number n => n
  | Str s => StringToNumber s
  | Boolean true => 1%float
  | Boolean false => 0%float
  end.

(** [a < b]: two strings compare by code units, any other pair compares
    as numbers, and a comparison with NaN is false. *)
Definition lt (a b : Prim) : bool :=
  match a, b with
  | Str s, Str t => codeUnitLtb s t
  | _, _ => PrimFloat.ltb (ToNumber a) (ToNumber b)
  end.

(** [a > b] is [b < a] on primitive operands. *)
Definition gt (a b : Prim) : bool := lt b a.

(** [a == b] (loose equality). *)
Definition looseEq (a b : Prim) : bool :=
  match a, b with
  | Str s, Str t => String.eqb s t
  | Boolean x, Boolean y => Bool.eqb x y
  | _, _ => PrimFloat.eqb (ToNumber a) (ToNumber b)
  end.

End Coercions.

(** [Math.round]: the integer nearest to [x], ties toward +infinity; NaN,
    the infinities and the zeros are returned unchanged, and a result of
    zero keeps the sign of [x]. *)
Definition Math_round (x : float) : float :=
  match Prim2SF x with
  | S754_finite s m e =>
      if (0 <=? e)%Z then x
      else
        let d := (2 ^ (- e))%Z in
        let n := if s then Z.neg m else Z.pos m in
        let r := ((2 * n + d) / (2 * d))%Z in
        if (r =? 0)%Z then (if s then (-0)%float else 0%float)
        else if (r <? 0)%Z
             then PrimFloat.opp (PrimFloat.of_uint63 (Uint63.of_Z (- r)))
             else PrimFloat.of_uint63 (Uint63.of_Z r)
  | _ => x
  end.

End JS.

(** ** premium.service.ts *)

(** ['lt' | 'gt' | 'eq'] *)
Module Condition.
Inductive t : Type := lt | gt | eq.
End Condition.

(** ['multiply' | 'add'] *)
Module FactorType.
Inductive t : Type := multiply | add.
End FactorType.

Record PricingFactor : Type := {
  key : string;
  condition : Condition.t;
  value : JS.Prim;
  modifier : float;
  type : FactorType.t;
}.

(** What the stored [pricingRules] JSON shows to the structural check
    [!rules || typeof rules.baseRate !== 'number' || !Array.isArray(rules.factors)]. *)
Inductive BaseRateField : Type :=
| BaseRateMissing
| BaseRateNotNumber
| BaseRateNumber (n : float).

Inductive FactorsField : Type :=
| FactorsMissing
| FactorsNotArray
| FactorsArray (fs : list PricingFactor).

Inductive PricingRulesJson : Type :=
| RulesFalsy
| RulesObject (baseRate : BaseRateField) (factors : FactorsField).

Record RequiredInput : Type := {
  input_key : string;
  question : string;
  input_type : string;
  required : bool;
}.

Record InsuranceProduct : Type := {
  product_id : string;
  product_type : string;
  product_name : string;
  isActive : bool;
  requiredInputs : list RequiredInput;
  pricingRules : PricingRulesJson;
}.

(** The fact map [details: Record<string, any>] is a plain object, given
    by its own properties; the values are of the kinds the dialogue
    collects.  It is read through [JS.Get]. *)
Record PremiumInput : Type := {
  insuranceType : string;
  details : gmap string JS.Prim;
}.

(** [{ premium: number } | { error: string }] *)
Inductive PremiumResult : Type :=
| Premium (premium : float)
| PremiumError (error : string).

Section RuleEngine.

Variable StringToNumber : string -> float.

(** One turn of the [for (const factor of rules.factors)] loop. *)
Definition applyFactor (details : gmap string JS.Prim)
    (finalPremium : float) (factor : PricingFactor) : float :=
  match JS.Get details (key factor) with
  | None => finalPremium
  | Some userValue =>
      let operand := JS.ToPrimitive userValue in
      let conditionMet :=
        match condition factor with
        | Condition.lt => JS.lt StringToNumber operand (value factor)
        | Condition.gt => JS.gt StringToNumber operand (value factor)
        | Condition.eq => JS.looseEq StringToNumber operand (value factor)
        end in
      if conditionMet then
        match type factor with
        | FactorType.multiply => (finalPremium * modifier factor)%float
        | FactorType.add => (finalPremium + modifier factor)%float
        end
      else finalPremium
  end.

(** The loop and the final [Math.round]. *)
Definition evaluate (baseRate : float) (factors : list PricingFactor)
    (details : gmap string JS.Prim) : float :=
  JS.Math_round (fold_left (applyFactor details) factors baseRate).

End RuleEngine.

(** The motor product as seeded by [prisma/seed.ts]; the second factor's
    threshold is [new Date().getFullYear() - 15] there and is a parameter
    here. *)
Definition youngDriver : PricingFactor :=
  {| key := "driverAge"; condition := Condition.lt;
     value := JS.Number 25%float;
     modifier := 0x1.6666666666666p+0%float; (* 1.4 *)
     type := FactorType.multiply |}.

Definition oldCarBefore (carYearThreshold : float) : PricingFactor :=
  {| key := "carYear"; condition := Condition.lt;
     value := JS.Number carYearThreshold;
     modifier := 10000%float; type := FactorType.add |}.

Definition motorRules (carYearThreshold : float) : PricingRulesJson :=
  RulesObject (BaseRateNumber 60000%float)
    (FactorsArray [youngDriver; oldCarBefore carYearThreshold]).

Definition motorProduct (carYearThreshold : float) : InsuranceProduct :=
  {| product_id := "prod-motor"; product_type := "motor";
     product_name := "Comprehensive Motor Insurance"; isActive := true;
     requiredInputs :=
       [ {| input_key := "driverFullName";
            question := "What is the full name of the primary driver?";
            input_type := "string"; required := true |};
         {| input_key := "driverAge";
            question := "What is the driver's age?";
            input_type := "number"; required := true |};
         {| input_key := "carMake";
            question := "What is the make of the car (e.g., Toyota, VW)?";
            input_type := "string"; required := true |};
         {| input_key := "carModel";
            question := "And the model (e.g., Camry, Golf)?";
            input_type := "string"; required := true |};
         {| input_key := "carYear";
            question := "What year was the car manufactured?";
            input_type := "number"; required := true |} ];
     pricingRules := motorRules carYearThreshold |}.

(** ** The store, the environment and the trace *)

Record User : Type := {
  user_id : string;
  whatsappId : option string;
  email : option string;
  fullName : option string;
  isAdmin : bool;
}.

(** Storage operations; each may reject during a request. *)
Inductive StorageOp : Type :=
| ProductFindUnique
| UserFindUnique | UserCreate | UserUpdate
| ConversationFindUnique | ConversationCreate | ConversationUpdate
| QuoteFindUnique | QuoteCreate | QuoteUpdate.

(** A structured tool invocation emitted by the dialogue model; [call.args]
    is read through [CalculatePremiumArgs] or [GeneratePaymentLinkArgs]. *)
Record FunctionCall : Type := {
  call_name : string;
  args_insuranceType : string;
  args_premium : float;
  args_customerName : string;
  args_details : gmap string JS.Prim;
}.

Inductive ToolResult : Type :=
| PremiumTool (r : PremiumResult)
| CheckoutTool (url : option string)
| ErrorTool (error : string).

Inductive Part : Type :=
| TextPart (text : string)
| InstructionPart (inputs : list RequiredInput)
| FunctionCallPart (call : FunctionCall)
| FunctionResponsePart (name : string) (response : ToolResult).

Record Content : Type := {
  content_role : string;
  parts : list Part;
}.

(** [history] is a JSON array; the entry that [injectDynamicInstructions]
    copies from an empty array is [undefined], here [None]. *)
Record Conversation : Type := {
  conversation_id : string;
  conversation_userId : string;
  history : list (option Content);
}.

Record Quote : Type := {
  quote_id : string;
  quote_userId : string;
  insuranceProductId : string;
  quote_type : string;
  status : string;
  quote_premium : float;
  quote_details : gmap string JS.Prim;
}.

(** Bodies of the text messages posted to the messaging API. *)
Inductive TextBody : Type :=
| PaymentSuccessText (customerName : string) (premium : float)
    (quoteIdPrefix : string)
| PlainText (text : string).

(** Observable events, in the order they happen:
    - [WhatsAppTextPost]: the POST of [sendMessage] (attempted; a failure is
      swallowed there);
    - [WhatsAppDocumentPost]: the POST of [sendDocument] (attempted);
    - [QuoteMarkedPaid]: [prisma.quote.update] to paid went through (the
      handler logs "successfully marked as 'paid'");
    - [CertificateGenerationStarted]: [generateAndUploadCertificate] was
      entered (its first log line);
    - [CheckoutSessionCreate]: [stripe.checkout.sessions.create] was called;
    - [ModelMessage], [ModelFunctionResponse]: the two [chat.sendMessage]
      calls of a turn. *)
Inductive Event : Type :=
| WhatsAppTextPost (to : string) (body : TextBody)
| WhatsAppDocumentPost (to link caption filename : string)
| QuoteMarkedPaid (quoteId : string)
| CertificateGenerationStarted (quoteId : string)
| CheckoutSessionCreate (quoteId : string) (premium : float)
    (customerName : string)
| ModelMessage (sent : list (option Content)) (message : string)
| ModelFunctionResponse (name : string) (response : ToolResult).

(** The Prisma tables (rows in insertion order) and the trace. *)
Record World : Type := {
  users : list User;
  conversations : list Conversation;
  insuranceProducts : list InsuranceProduct;
  quotes : list Quote;
  trace : list Event;
}.

Inductive UploadOutcome : Type :=
| DownloadFailed
| UploadRejected
| Uploaded (secure_url : string).

Record ModelResponse : Type := {
  response_text : string;
  functionCalls : list FunctionCall;
}.

(** What the collaborators answer during one request:
    - [dbThrows op]: the Prisma call [op] rejects;
    - [newId op]: the identifier the store gives to the row created by [op];
    - [pdfApi]: the temporary URL returned by the PDF service, [None] when
      the request fails or the reply carries an error;
    - [cloudinary]: the download of the PDF and its upload;
    - [documentPostFails]: the POST of [sendDocument] fails;
    - [stripeCheckout]: [session.url] ([string | null]), [None] when the
      gateway call throws;
    - [firstTurn], [secondTurn]: the replies of the dialogue model, [None]
      when the call throws. *)
Record Env : Type := {
  dbThrows : StorageOp -> bool;
  newId : StorageOp -> string;
  pdfApi : option string;
  cloudinary : UploadOutcome;
  documentPostFails : bool;
  stripeCheckout : option (option string);
  firstTurn : option ModelResponse;
  secondTurn : option string;
}.

Definition setUsers (w : World) (us : list User) : World :=
  {| users := us; conversations := conversations w;
     insuranceProducts := insuranceProducts w; quotes := quotes w;
     trace := trace w |}.

Definition setConversations (w : World) (cs : list Conversation) : World :=
  {| users := users w; conversations := cs;
     insuranceProducts := insuranceProducts w; quotes := quotes w;
     trace := trace w |}.

Definition setQuotes (w : World) (qs : list Quote) : World :=
  {| users := users w; conversations := conversations w;
     insuranceProducts := insuranceProducts w; quotes := qs;
     trace := trace w |}.

(** The world with further events at the end of its trace. *)
Definition extend (w : World) (es : list Event) : World :=
  {| users := users w; conversations := conversations w;
     insuranceProducts := insuranceProducts w; quotes := quotes w;
     trace := trace w ++ es |}.

(** One more event at the end of the trace. *)
Definition record (w : World) (e : Event) : World := extend w [e].

(** ** Promises: a state and exception monad over the world *)

Inductive Outcome (A : Type) : Type :=
| Returned (a : A)
| Thrown (message : string).
Arguments Returned {A} a.
Arguments Thrown {A} message.

Definition Async (A : Type) : Type := World -> Outcome A * World.

Definition resolve {A} (a : A) : Async A := fun w => (Returned a, w).
Definition throw {A} (message : string) : Async A :=
  fun w => (Thrown message, w).
Definition await {A B} (m : Async A) (k : A -> Async B) : Async B :=
  fun w =>
    match m w with
    | (Returned a, w') => k a w'
    | (Thrown message, w') => (Thrown message, w')
    end.
Definition tryCatch {A} (m : Async A) (handler : string -> Async A)
    : Async A :=
  fun w =>
    match m w with
    | (Returned a, w') => (Returned a, w')
    | (Thrown message, w') => handler message w'
    end.
Definition modify (f : World -> World) : Async unit :=
  fun w => (Returned tt, f w).
Definition reads {A} (f : World -> A) : Async A :=
  fun w => (Returned (f w), w).

Notation "'let*' x ':=' m 'in' k" := (await m (fun x => k))
  (at level 10, x pattern, m at level 100, k at level 200).
Notation "m ';;' k" := (await m (fun _ => k))
  (at level 100, k at level 200, right associativity).

(** A Prisma call that may reject before touching the table. *)
Definition prisma {A} (env : Env) (op : StorageOp) (m : Async A) : Async A :=
  if dbThrows env op then throw "PrismaClientKnownRequestError" else m.

(** Update of the first row selected by a unique key. *)
Fixpoint updateFirst {A} (p : A -> bool) (f : A -> A) (rows : list A)
    : list A :=
  match rows with
  | [] => []
  | r :: rest => if p r then f r :: rest else r :: updateFirst p f rest
  end.

(** The [where] clauses of the unique lookups. *)
Definition hasId (i : string) (q : Quote) : bool :=
  bool_decide (quote_id q = i).
Definition isUser (i : string) (u : User) : bool :=
  bool_decide (user_id u = i).
Definition hasWhatsappId (wid : string) (u : User) : bool :=
  bool_decide (whatsappId u = Some wid).
Definition ofUser (uid : string) (c : Conversation) : bool :=
  bool_decide (conversation_userId c = uid).
Definition isConversation (i : string) (c : Conversation) : bool :=
  bool_decide (conversation_id c = i).
Definition ofType (t : string) (p : InsuranceProduct) : bool :=
  bool_decide (product_type p = t).

(** [prisma.quote.findUnique({ where: { id }, include: { user } })]: the
    quote and, through [userId], its user. *)
Definition quoteWithUser (quoteId : string) (w : World)
    : option (Quote * option User) :=
  match find (hasId quoteId) (quotes w) with
  | Some q => Some (q, find (isUser (quote_userId q)) (users w))
  | None => None
  end.

(** ** whatsapp.service.ts *)

(** [sendMessage]: the POST is attempted and a failure is only logged. *)
Definition sendMessage (to : string) (body : TextBody) : Async unit :=
  modify (fun w => record w (WhatsAppTextPost to body)).

(** [sendDocument]: a failed POST is rethrown. *)
Definition sendDocument (env : Env) (to documentUrl caption filename : string)
    : Async unit :=
  modify (fun w =>
    record w (WhatsAppDocumentPost to documentUrl caption filename)) ;;
  if documentPostFails env
  then throw "Failed to send WhatsApp document"
  else resolve tt.

(** ** String helpers of the runtime *)

Definition lowerAscii (c : ascii) : ascii :=
  let n := Ascii.nat_of_ascii c in
  if (65 <=? n)%nat && (n <=? 90)%nat then Ascii.ascii_of_nat (n + 32) else c.

Fixpoint toLowerCase (s : string) : string :=
  match s with
  | EmptyString => EmptyString
  | String c rest => String (lowerAscii c) (toLowerCase rest)
  end.

Definition includes (s sub : string) : bool :=
  match String.index 0 sub s with Some _ => true | None => false end.

(** A value used as a condition: [null], [undefined] and [""] are falsy. *)
Definition truthy (s : option string) : option string :=
  match s with
  | Some "" => None
  | other => other
  end.

(** The part of a [Stripe.Event] the handler reads: [event.type] and
    [event.data.object.metadata?.quoteId]. *)
Record StripeEvent : Type := {
  event_type : string;
  metadata_quoteId : option string;
}.

(** What a controller sends back: [res.status(n).send(text)] or
    [res.status(n).json({ received: true })]. *)
Inductive ResponseBody : Type :=
| Text (text : string)
| JsonReceived.

Record HttpResponse : Type := {
  statusCode : nat;
  sent : ResponseBody;
}.

(** ** premium.service.ts: [calculatePremium] *)

Section Services.

Variable StringToNumber : string -> float.

(** [stripe.webhooks.constructEvent(rawBody, sig, secret)]: the event when the
    signature verifies, [None] when the library throws. *)
Variable constructEvent : string -> string -> option StripeEvent.

Definition calculatePremium (env : Env) (input : PremiumInput)
    : Async PremiumResult :=
  tryCatch
    (let* product := prisma env ProductFindUnique
        (reads (fun w => find (ofType (insuranceType input))
                           (insuranceProducts w))) in
     match product with
     | None => resolve (PremiumError "Invalid insurance type specified.")
     | Some product =>
         if negb (isActive product) then
           resolve (PremiumError "Invalid insurance type specified.")
         else
           match pricingRules product with
           | RulesObject (BaseRateNumber baseRate) (FactorsArray factors) =>
               resolve (Premium (evaluate StringToNumber baseRate factors
                                   (details input)))
           | _ =>
               resolve (PremiumError
                 "Pricing rules are not configured correctly for this product.")
           end
     end)
    (fun _ => resolve (PremiumError
       "An unexpected error occurred during premium calculation.")).

(** ** agent.service.ts: conversation store *)

Definition findOrCreateUserAndConversation (env : Env) (wid : string)
    : Async (User * Conversation) :=
  let* found := prisma env UserFindUnique
      (reads (fun w => find (hasWhatsappId wid) (users w))) in
  let* user :=
    match found with
    | Some u => resolve u
    | None =>
        prisma env UserCreate (fun w =>
          let u := {| user_id := newId env UserCreate; whatsappId := Some wid;
                      email := None; fullName := None; isAdmin := false |} in
          (Returned u, setUsers w (users w ++ [u])))
    end in
  let* existing := prisma env ConversationFindUnique
      (reads (fun w => find (ofUser (user_id user)) (conversations w))) in
  let* conversation :=
    match existing with
    | Some c => resolve c
    | None =>
        prisma env ConversationCreate (fun w =>
          let c := {| conversation_id := newId env ConversationCreate;
                      conversation_userId := user_id user; history := [] |} in
          (Returned c, setConversations w (conversations w ++ [c])))
    end in
  resolve (user, conversation).

(** [prisma.conversation.update({ where: { id }, data: { history } })]. *)
Definition updateConversationHistory (env : Env) (cid : string)
    (h : list (option Content)) : Async unit :=
  prisma env ConversationUpdate (fun w =>
    if existsb (isConversation cid) (conversations w) then
      (Returned tt,
       setConversations w
         (updateFirst (isConversation cid)
            (fun c => {| conversation_id := conversation_id c;
                         conversation_userId := conversation_userId c;
                         history := h |})
            (conversations w)))
    else (Thrown "Record to update not found.", w)).

Definition addSystemMessageToConversation (env : Env) (wid systemText : string)
    : Async unit :=
  tryCatch
    (let* (_, conversation) := findOrCreateUserAndConversation env wid in
     let currentHistory := history conversation in
     let systemMessage :=
       {| content_role := "model";
          parts := [TextPart ("(System Note: " ++ systemText ++ ")")] |} in
     let updatedHistory := (currentHistory ++ [Some systemMessage])%list in
     updateConversationHistory env (conversation_id conversation)
       updatedHistory)
    (fun _ => resolve tt).

(** ** document.service.ts *)

Definition generateAndUploadCertificate (env : Env) (quoteId : string)
    : Async string :=
  modify (fun w => record w (CertificateGenerationStarted quoteId)) ;;
  let* quote := prisma env QuoteFindUnique
      (reads (quoteWithUser quoteId)) in
  match quote with
  | Some (_, Some _) =>
      match pdfApi env with
      | None => throw "Failed to generate PDF via external API."
      | Some pdfUrlFromApi =>
          match cloudinary env with
          | Uploaded secure_url => resolve secure_url
          | UploadRejected =>
              throw "Failed to upload PDF to permanent storage."
          | DownloadFailed => resolve pdfUrlFromApi
          end
      end
  | _ => throw "Quote or user not found for certificate generation."
  end.

(** ** payment.service.ts *)

Definition createStripeCheckoutSession (env : Env) (quoteId : string)
    (premium : float) (customerName : string) : Async (option string) :=
  modify (fun w =>
    record w (CheckoutSessionCreate quoteId premium customerName)) ;;
  match stripeCheckout env with
  | Some url => resolve url
  | None => throw "Could not create payment session."
  end.

Definition withStatus (newStatus : string) (q : Quote) : Quote :=
  {| quote_id := quote_id q; quote_userId := quote_userId q;
     insuranceProductId := insuranceProductId q;
     quote_type := quote_type q; status := newStatus;
     quote_premium := quote_premium q; quote_details := quote_details q |}.

(** [prisma.quote.update({ where: { id }, data: { status } })]. *)
Definition updateQuoteStatus (env : Env) (quoteId newStatus : string)
    : Async unit :=
  prisma env QuoteUpdate (fun w =>
    if existsb (hasId quoteId) (quotes w) then
      (Returned tt,
       setQuotes w
         (updateFirst (hasId quoteId) (withStatus newStatus) (quotes w)))
    else (Thrown "Record to update not found.", w)).

(** The text sent when the certificate could not be delivered. *)
Definition certificateIssueText : string :=
  "We've confirmed your payment, but there was an issue generating your certificate. Our team has been notified and will send it to you manually shortly.".

(** Step 2 of the handler, its inner [try { ... } catch (certError) { ... }]:
    certificate generation and direct document delivery. *)
Definition deliverCertificate (env : Env) (userWhatsappId : string)
    (quote : Quote) : Async unit :=
  tryCatch
    (let* certificateUrl :=
       generateAndUploadCertificate env (quote_id quote) in
     sendDocument env userWhatsappId certificateUrl
       "Here is your official Insurance Certificate."
       ("Insurance-Certificate-" ++ String.substring 0 8 (quote_id quote) ++
        ".pdf"))
    (fun _ => sendMessage userWhatsappId (PlainText certificateIssueText)).

Definition handleStripeWebhook (env : Env) (rawBody sig : string)
    : Async unit :=
  match constructEvent rawBody sig with
  | None => throw "Webhook signature verification failed."
  | Some event =>
      if decide (event_type event = "checkout.session.completed") then
        match truthy (metadata_quoteId event) with
        | None => resolve tt
        | Some quoteId =>
            tryCatch
              (let* quote := prisma env QuoteFindUnique
                  (reads (quoteWithUser quoteId)) in
               match quote with
               | Some (quote, Some user) =>
                   if decide (status quote = "paid") then resolve tt
                   else
                     updateQuoteStatus env quoteId "paid" ;;
                     modify (fun w => record w (QuoteMarkedPaid quoteId)) ;;
                     match truthy (whatsappId user) with
                     | Some userWhatsappId =>
                         let customerName :=
                           match truthy (fullName user) with
                           | Some n => n
                           | None => "there"
                           end in
                         sendMessage userWhatsappId
                           (PaymentSuccessText customerName
                              (quote_premium quote)
                              (String.substring 0 8 (quote_id quote))) ;;
                         addSystemMessageToConversation env userWhatsappId
                           ("Payment for quote " ++ quote_id quote ++
                            " was successfully processed. Certificate generation initiated.") ;;
                         deliverCertificate env userWhatsappId quote
                     | None => resolve tt
                     end
               | _ => resolve tt
               end)
              (fun _ =>
                 throw ("Processing error for quote " ++ quoteId ++ "."))
        end
      else resolve tt
  end.

(** ** stripe.controller.ts *)

(** [stripeWebhookHandler]: the header [stripe-signature] may be absent and
    the raw body (a [Buffer]) may be missing; a thrown error becomes a 400
    response that carries its message. *)
Definition stripeWebhookHandler (env : Env) (sig body : option string)
    (w : World) : HttpResponse * World :=
  match truthy sig, body with
  | Some sig, Some body =>
      match handleStripeWebhook env body sig w with
      | (Returned _, w') =>
          ({| statusCode := 200; sent := JsonReceived |}, w')
      | (Thrown message, w') =>
          ({| statusCode := 400; sent := Text ("Webhook Error: " ++ message) |},
           w')
      end
  | _, _ =>
      ({| statusCode := 400;
          sent := Text "Webhook Error: Missing stripe-signature header or request body." |},
       w)
  end.

(** ** agent.service.ts: the orchestrator *)

(** [prisma.user.update({ where: { id }, data: { fullName } })]. *)
Definition updateUserFullName (env : Env) (uid name : string) : Async unit :=
  prisma env UserUpdate (fun w =>
    if existsb (isUser uid) (users w) then
      (Returned tt,
       setUsers w
         (updateFirst (isUser uid)
            (fun u => {| user_id := user_id u; whatsappId := whatsappId u;
                         email := email u; fullName := Some name;
                         isAdmin := isAdmin u |})
            (users w)))
    else (Thrown "Record to update not found.", w)).

Definition injectDynamicInstructions (env : Env)
    (history : list (option Content)) (userMessage : string)
    : Async (list (option Content)) :=
  let lowerCaseMessage := toLowerCase userMessage in
  if (length history <=? 2)%nat &&
     (includes lowerCaseMessage "motor" || includes lowerCaseMessage "car")
  then
    let* motorProduct := prisma env ProductFindUnique
        (reads (fun w => find (ofType "motor") (insuranceProducts w))) in
    match motorProduct with
    | Some motorProduct =>
        let instruction :=
          {| content_role := "model";
             parts := [InstructionPart (requiredInputs motorProduct)] |} in
        resolve (match history with [] => None | first :: _ => first end
                 :: Some instruction :: tail history)
    | None => resolve history
    end
  else resolve history.

Definition disclaimer : string :=
  String "010" (String "010"
    "*Note: This quote is based on the details you provided and our standard underwriting rules.*").

Definition trustAndSafetyPrompt : string :=
  "I can only assist with inquiries related to insurance products offered by Ishimwe Insurance, including motor, travel, and health policies. Please let me know how I can help you with one of those today!".

Definition applyBusinessLogic (responseText : string) : string :=
  let finalMessage :=
    if includes (toLowerCase responseText) "premium is"
    then responseText ++ disclaimer else responseText in
  if includes (toLowerCase responseText) "i cannot help"
  then trustAndSafetyPrompt else finalMessage.

(** [model.startChat({ history })] and [chat.sendMessage(userMessage)] on
    that chat; the SDK's answer, or its error, is the collaborator's
    [firstTurn]. *)
Definition chatSendMessage (env : Env) (history : list (option Content))
    (userMessage : string) : Async ModelResponse :=
  modify (fun w => record w (ModelMessage history userMessage)) ;;
  match firstTurn env with
  | Some response => resolve response
  | None => throw "GoogleGenerativeAIError"
  end.

(** [chat.sendMessage([{ functionResponse: { name, response } }])]. *)
Definition chatSendFunctionResponse (env : Env) (name : string)
    (response : ToolResult) : Async string :=
  modify (fun w => record w (ModelFunctionResponse name response)) ;;
  match secondTurn env with
  | Some text => resolve text
  | None => throw "GoogleGenerativeAIError"
  end.

(** The tool branch of [processMessage]:
    [if (call.name === 'calculate_premium') ... else if
    (call.name === 'generate_payment_link') ... else ...]. *)
Definition dispatchTool (env : Env) (user : User) (call : FunctionCall)
    : Async ToolResult :=
  if decide (call_name call = "calculate_premium") then
    let* r := calculatePremium env
        {| insuranceType := args_insuranceType call;
           details := args_details call |} in
    resolve (PremiumTool r)
  else if decide (call_name call = "generate_payment_link") then
    updateUserFullName env (user_id user) (args_customerName call) ;;
    let* product := prisma env ProductFindUnique
        (reads (fun w => find (ofType (args_insuranceType call))
                           (insuranceProducts w))) in
    match product with
    | None =>
        throw ("Product type " ++ args_insuranceType call ++ " not found.")
    | Some product =>
        let* newQuote := prisma env QuoteCreate (fun w =>
            let q := {| quote_id := newId env QuoteCreate;
                        quote_userId := user_id user;
                        insuranceProductId := product_id product;
                        quote_type := args_insuranceType call;
                        status := "quoted";
                        quote_premium := args_premium call;
                        quote_details := args_details call |} in
            (Returned q, setQuotes w (quotes w ++ [q]))) in
        let* session := createStripeCheckoutSession env (quote_id newQuote)
            (quote_premium newQuote) (args_customerName call) in
        resolve (CheckoutTool session)
    end
  else resolve (ErrorTool "Unknown function").

(** The parts of the model's turn as [chat.getHistory()] returns them: the
    text, when the reply has one, and the function calls. *)
Definition modelParts (response : ModelResponse) : list Part :=
  ((if String.eqb (response_text response) "" then []
    else [TextPart (response_text response)])
   ++ map FunctionCallPart (functionCalls response))%list.

Definition unexpectedErrorText : string :=
  "I'm sorry, I encountered an unexpected error. Could we please try that again?".

Definition processMessage (env : Env) (wid userMessage : string)
    : Async unit :=
  tryCatch
    (let* (user, conversation) := findOrCreateUserAndConversation env wid in
     let chatHistory := history conversation in
     let* dynamicHistory :=
       injectDynamicInstructions env chatHistory userMessage in
     let* response := chatSendMessage env dynamicHistory userMessage in
     let firstTurns :=
       [ Some {| content_role := "user"; parts := [TextPart userMessage] |};
         Some {| content_role := "model";
                 parts := modelParts response |} ] in
     let* (aiResponseText, toolTurns) :=
       match functionCalls response with
       | call :: _ =>
           let* toolResult := dispatchTool env user call in
           let* text :=
             chatSendFunctionResponse env (call_name call) toolResult in
           resolve
             (text,
              [ Some {| content_role := "function";
                        parts := [FunctionResponsePart (call_name call)
                                    toolResult] |};
                Some {| content_role := "model";
                        parts := [TextPart text] |} ])
       | [] => resolve (response_text response, [])
       end in
     let updatedHistory := (dynamicHistory ++ firstTurns ++ toolTurns)%list in
     updateConversationHistory env (conversation_id conversation)
       updatedHistory ;;
     sendMessage wid (PlainText (applyBusinessLogic aiResponseText)))
    (fun _ => sendMessage wid (PlainText unexpectedErrorText)).

End Services.

Definition noFault : StorageOp -> bool := fun _ => false.

(** ** Concrete data used by the scenarios *)

Definition healthyEnv : Env :=
  {| dbThrows := noFault;
     newId := fun op =>
       match op with
       | UserCreate => "user-new"
       | ConversationCreate => "conv-new"
       | _ => "quote-new"
       end;
     pdfApi := Some "https://pdf.example/tmp.pdf";
     cloudinary := Uploaded "https://res.example/certificates/POL.pdf";
     documentPostFails := false;
     stripeCheckout := Some (Some "https://checkout.example/session");
     firstTurn := None;
     secondTurn := Some "Here is your payment link." |}.

Definition catalogWorld : World :=
  {| users := []; conversations := [];
     insuranceProducts := [motorProduct 2010%float];
     quotes := []; trace := [] |}.

Definition scenarioAFacts : gmap string JS.Prim :=
  {[ "driverAge" := JS.Number 22%float; "carYear" := JS.Number 2008%float ]}.

(** The second factor of scenario A: carYear lt 2010, add 10000. *)
Definition oldCar : PricingFactor := oldCarBefore 2010%float.

(** A rule set whose only factor is keyed by the name of a member that
    every plain object inherits. *)
Definition constructorFactor : PricingFactor :=
  {| key := "constructor"; condition := Condition.lt; value := JS.Str "g";
     modifier := 10000%float; type := FactorType.add |}.

Definition constructorProduct : InsuranceProduct :=
  {| product_id := "prod-motor"; product_type := "motor";
     product_name := "Comprehensive Motor Insurance"; isActive := true;
     requiredInputs := [];
     pricingRules :=
       RulesObject (BaseRateNumber 60000%float)
         (FactorsArray [constructorFactor]) |}.

Definition constructorWorld : World :=
  {| users := []; conversations := [];
     insuranceProducts := [constructorProduct]; quotes := []; trace := [] |}.

(** A gateway that accepts one signature; the payload of a confirmation is
    read as the quote identifier of its metadata. *)
Definition stripeSignedBy (rawBody sig : string) : option StripeEvent :=
  if decide (sig = "t=1,v1=5257a869") then
    Some {| event_type := "checkout.session.completed";
            metadata_quoteId := Some rawBody |}
  else None.

Definition alice : User :=
  {| user_id := "user-1"; whatsappId := Some "250788000001";
     email := None; fullName := Some "Alice"; isAdmin := false |}.

Definition quoteInStatus (st : string) : Quote :=
  {| quote_id := "quote-1-abcdef"; quote_userId := "user-1";
     insuranceProductId := "prod-motor"; quote_type := "motor";
     status := st; quote_premium := 94000%float;
     quote_details := scenarioAFacts |}.

Definition worldWithQuote (st : string) : World :=
  {| users := [alice]; conversations := [];
     insuranceProducts := [motorProduct 2010%float];
     quotes := [quoteInStatus st]; trace := [] |}.

(** The PDF service is down. *)
Definition pdfDownEnv : Env :=
  {| dbThrows := noFault; newId := newId healthyEnv;
     pdfApi := None; cloudinary := cloudinary healthyEnv;
     documentPostFails := false;
     stripeCheckout := stripeCheckout healthyEnv;
     firstTurn := None; secondTurn := None |}.

(** The world after the first handling of the confirmation for the quoted
    quote. *)
Definition paidWorld : World :=
  snd (handleStripeWebhook stripeSignedBy healthyEnv "quote-1-abcdef"
         "t=1,v1=5257a869" (worldWithQuote "quoted")).

(** A first model turn that asks for a payment link for a product type
    that is not in the catalog. *)
Definition travelLinkCall : FunctionCall :=
  {| call_name := "generate_payment_link"; args_insuranceType := "travel";
     args_premium := 94000%float; args_customerName := "Alice Uwase";
     args_details := scenarioAFacts |}.

Definition travelLinkEnv : Env :=
  {| dbThrows := noFault; newId := newId healthyEnv;
     pdfApi := pdfApi healthyEnv; cloudinary := cloudinary healthyEnv;
     documentPostFails := false;
     stripeCheckout := stripeCheckout healthyEnv;
     firstTurn := Some {| response_text := "";
                          functionCalls := [travelLinkCall] |};
     secondTurn := Some "Here is your payment link." |}.

(** The user on whose behalf [processMessage] runs: the row found through
    the messaging address, or the row created for it. *)
Definition sessionUser (env : Env) (wid : string) (w : World) : User :=
  match find (hasWhatsappId wid) (users w) with
  | Some u => u
  | None => {| user_id := newId env UserCreate; whatsappId := Some wid;
               email := None; fullName := None; isAdmin := false |}
  end.


(** The store performs the listed operations. *)
Definition serves (env : Env) (ops : list StorageOp) : Prop :=
  Forall (fun op => dbThrows env op = false) ops.

(** A string-to-number coercion that is enough for the scenarios (no
    scenario coerces a string). *)
Definition nanOnStrings : string -> float := fun _ => nan.

(** ** Observations on worlds and traces *)

Definition isPaidMark (quoteId : string) (e : Event) : bool :=
  match e with
  | QuoteMarkedPaid i => bool_decide (i = quoteId)
  | _ => false
  end.

Definition isCertificateStart (quoteId : string) (e : Event) : bool :=
  match e with
  | CertificateGenerationStarted i => bool_decide (i = quoteId)
  | _ => false
  end.

Definition isConfirmation (e : Event) : bool :=
  match e with
  | WhatsAppTextPost _ (PaymentSuccessText _ _ _) => true
  | _ => false
  end.

Definition isFunctionResponse (e : Event) : bool :=
  match e with
  | ModelFunctionResponse _ _ => true
  | _ => false
  end.

Definition countEvents (p : Event -> bool) (es : list Event) : nat :=
  length (List.filter p es).

(** The payload and signature verify as a payment confirmation that carries
    the quote identifier [qid]. *)
Definition confirms (constructEvent : string -> string -> option StripeEvent)
    (rawBody sig qid : string) : Prop :=
  exists event,
    constructEvent rawBody sig = Some event /\
    event_type event = "checkout.session.completed" /\
    truthy (metadata_quoteId event) = Some qid.

(** The status of the quote stored under an identifier. *)
Definition statusOf (quoteId : string) (w : World) : option string :=
  status <$> find (hasId quoteId) (quotes w).

(** The events after the payment is recorded: nothing for a user without a
    messaging address, else the confirmation, the start of the certificate
    generation and the deliveries in [deliveries]. *)
Definition paidNotifications (q : Quote) (u : User) (deliveries : list Event)
    : list Event :=
  match truthy (whatsappId u) with
  | None => []
  | Some wid =>
      WhatsAppTextPost wid
        (PaymentSuccessText
           (match truthy (fullName u) with Some n => n | None => "there" end)
           (quote_premium q) (String.substring 0 8 (quote_id q)))
      :: CertificateGenerationStarted (quote_id q) :: deliveries
  end.

(** The ways the certificate step can end for the address [wid]: the
    document was posted; its post failed and the apology followed; or no
    document was produced and the apology was sent. *)
Definition deliveryShape (wid : string) (q : Quote) (es : list Event) : Prop :=
  (exists url,
     es = [WhatsAppDocumentPost wid url
             "Here is your official Insurance Certificate."
             ("Insurance-Certificate-" ++ String.substring 0 8 (quote_id q) ++
              ".pdf")]) \/
  (exists url,
     es = [WhatsAppDocumentPost wid url
             "Here is your official Insurance Certificate."
             ("Insurance-Certificate-" ++ String.substring 0 8 (quote_id q) ++
              ".pdf");
           WhatsAppTextPost wid (PlainText certificateIssueText)]) \/
  es = [WhatsAppTextPost wid (PlainText certificateIssueText)].

(** Certificate generation or delivery fails: the PDF service fails, the
    upload is rejected, or the document post fails. *)
Definition fulfillmentFails (env : Env) : Prop :=
  pdfApi env = None \/ cloudinary env = UploadRejected \/
  documentPostFails env = true.

(** The structural check of [calculatePremium], in the words of the
    specification: the base amount is missing or not a number, or the
    factors are not a sequence. *)
Definition structurallyInvalid (rules : PricingRulesJson) : Prop :=
  rules = RulesFalsy \/
  exists b fs, rules = RulesObject b fs /\
    (b = BaseRateMissing \/ b = BaseRateNotNumber \/
     fs = FactorsMissing \/ fs = FactorsNotArray).

(** ** whatsapp.controller.ts *)

(** The answer of [verifyWebhook]: [res.status(200).send(challenge)] or
    [res.sendStatus(403 | 400)]. *)
Record VerifyResponse : Type := {
  verify_status : nat;
  echoed : option string;
}.

(** [verifyWebhook]: [verifyToken] is [config.WHATSAPP_VERIFY_TOKEN]
    ([undefined] when the variable is not set); the three query values are
    read as strings. *)
Definition verifyWebhook (verifyToken mode token challenge : option string)
    : VerifyResponse :=
  match truthy mode, truthy token with
  | Some mode, Some token =>
      if bool_decide (mode = "subscribe") &&
         bool_decide (Some token = verifyToken)
      then {| verify_status := 200; echoed := challenge |}
      else {| verify_status := 403; echoed := None |}
  | _, _ => {| verify_status := 400; echoed := None |}
  end.

(** The inbound payload of the messaging webhook, as far as the handler
    reads it: [body.object], [body.entry[].changes[].value.messages[]] and
    for each message [type], [from] and [text.body]. *)
Record WhatsAppMessage : Type := {
  message_type : string;
  message_from : string;
  message_text : option string;
}.

Record WhatsAppChange : Type := {
  value_messages : option (list WhatsAppMessage);
}.

Record WhatsAppEntry : Type := {
  changes : list WhatsAppChange;
}.

Record WhatsAppPayload : Type := {
  payload_object : string;
  entry : list WhatsAppEntry;
}.

(** [for (const x of xs) { await body(x) }] *)
Fixpoint forEach {A} (xs : list A) (body : A -> Async unit) : Async unit :=
  match xs with
  | [] => resolve tt
  | x :: rest => body x ;; forEach rest body
  end.

Section WhatsAppController.

Variable StringToNumber : string -> float.

(** [handleIncomingMessage]: the 200 is sent before anything else; [envOf]
    gives what the collaborators answer while a message is processed.  A
    text message without [text] makes [message.text.body] throw, which the
    handler's [catch] only logs. *)
Definition handleIncomingMessage (envOf : WhatsAppMessage -> Env)
    (body : WhatsAppPayload) (w : World) : nat * World :=
  (200,
   snd (tryCatch
          (if decide (payload_object body = "whatsapp_business_account") then
             forEach (entry body) (fun entry =>
               forEach (changes entry) (fun change =>
                 match value_messages change with
                 | Some messages =>
                     forEach messages (fun message =>
                       if decide (message_type message = "text") then
                         match message_text message with
                         | Some userMessageText =>
                             processMessage StringToNumber (envOf message)
                               (message_from message) userMessageText
                         | None => throw "TypeError"
                         end
                       else resolve tt)
                 | None => resolve tt
                 end))
           else resolve tt)
          (fun _ => resolve tt) w)).

(** The body of the innermost loop of [handleIncomingMessage]. *)
Definition perMessage (envOf : WhatsAppMessage -> Env)
    (message : WhatsAppMessage) : Async unit :=
  if decide (message_type message = "text") then
    match message_text message with
    | Some userMessageText =>
        processMessage StringToNumber (envOf message)
          (message_from message) userMessageText
    | None => throw "TypeError"
    end
  else resolve tt.

End WhatsAppController.

(** ** document.service.ts: [formatDetailKey] *)

Definition isUpperAscii (c : ascii) : bool :=
  let n := Ascii.nat_of_ascii c in (65 <=? n)%nat && (n <=? 90)%nat.

(** A byte below 0x80 is a whole character, the same in UTF-8 and in
    UTF-16. *)
Definition isAsciiChar (c : ascii) : bool :=
  (Ascii.nat_of_ascii c <? 128)%nat.

(** [toUpperCase] on an ASCII character; the characters beyond ASCII, which
    [toUpperCase] maps as Unicode says, are outside this embedding. *)
Definition upperAscii (c : ascii) : ascii :=
  let n := Ascii.nat_of_ascii c in
  if (97 <=? n)%nat && (n <=? 122)%nat then Ascii.ascii_of_nat (n - 32) else c.

(** [key.replace(/([A-Z])/g, ' $1')] *)
Fixpoint spaceCapitals (key : string) : string :=
  match key with
  | EmptyString => EmptyString
  | String c rest =>
      if isUpperAscii c then String " " (String c (spaceCapitals rest))
      else String c (spaceCapitals rest)
  end.

(** [result.charAt(0).toUpperCase() + result.slice(1)] (letters of ASCII). *)
Definition formatDetailKey (key : string) : string :=
  match spaceCapitals key with
  | EmptyString => EmptyString
  | String c rest => String (upperAscii c) rest
  end.

(** ** auth.service.ts, auth.controller.ts, requireAuth.ts *)

(** [enum UserRole { USER, ADMIN }] *)
Inductive UserRole : Type := USER | ADMIN.

Global Instance UserRole_eq_dec : EqDecision UserRole.
Proof. solve_decision. Defined.

(** The rows of the User table with the columns the administrator
    services read and write. *)
Record Account : Type := {
  account_id : string;
  account_email : option string;
  account_password : option string;
  account_fullName : option string;
  account_role : UserRole;
}.

(** [const { password, ...userWithoutPassword } = user] *)
Record PublicAccount : Type := {
  public_id : string;
  public_email : option string;
  public_fullName : option string;
  public_role : UserRole;
}.

Definition withoutPassword (user : Account) : PublicAccount :=
  {| public_id := account_id user; public_email := account_email user;
     public_fullName := account_fullName user;
     public_role := account_role user |}.

Record RegisterInput : Type := {
  register_fullName : string;
  register_email : string;
  register_password : string;
}.

Record LoginInput : Type := {
  login_email : string;
  login_password : string;
}.

Inductive AuthJson : Type :=
| AccountJson (user : PublicAccount)
| TokenJson (token : string)
| MessageJson (message : string).

Record AuthResponse : Type := {
  auth_status : nat;
  auth_json : AuthJson;
}.

(** What [requireAuth] does with a request: [next()] with [req.user] set,
    or a response. *)
Inductive AuthDecision : Type :=
| Next (id : string) (role : UserRole)
| Reject (response : AuthResponse).

Definition hasEmail (e : string) (a : Account) : bool :=
  bool_decide (account_email a = Some e).
Definition isAccount (i : string) (a : Account) : bool :=
  bool_decide (account_id a = i).

(** [s.split(' ')[1]]: the text between the first and the second space,
    [undefined] when there is no space. *)
Fixpoint untilSpace (s : string) : string :=
  match s with
  | EmptyString => EmptyString
  | String c rest =>
      if Ascii.eqb c " " then EmptyString else String c (untilSpace rest)
  end.

Fixpoint splitSecond (s : string) : option string :=
  match s with
  | EmptyString => None
  | String c rest =>
      if Ascii.eqb c " " then Some (untilSpace rest) else splitSecond rest
  end.

Section AuthService.

(** [bcrypt.hash(password, 12)] as it answers in this run, and
    [bcrypt.compare]. *)
Variable bcryptHash : string -> string.
Variable bcryptCompare : string -> string -> bool.

(** [signToken({ id, role })] and [jwt.verify(token, secret)] (the decoded
    [id], [None] when it throws). *)
Variable signToken : string -> UserRole -> string.
Variable jwtVerify : string -> option string.

Definition registerAdminUser (env : Env) (input : RegisterInput)
    (accounts : list Account) : Outcome PublicAccount * list Account :=
  if dbThrows env UserFindUnique then
    (Thrown "PrismaClientKnownRequestError", accounts)
  else
    match find (hasEmail (register_email input)) accounts with
    | Some _ => (Thrown "User already exists", accounts)
    | None =>
        let hashedPassword := bcryptHash (register_password input) in
        if dbThrows env UserCreate then
          (Thrown "PrismaClientKnownRequestError", accounts)
        else
          let user :=
            {| account_id := newId env UserCreate;
               account_email := Some (register_email input);
               account_password := Some hashedPassword;
               account_fullName := Some (register_fullName input);
               account_role := ADMIN |} in
          (Returned (withoutPassword user), (accounts ++ [user])%list)
    end.

Definition loginAdminUser (env : Env) (input : LoginInput)
    (accounts : list Account) : Outcome string :=
  if dbThrows env UserFindUnique then Thrown "PrismaClientKnownRequestError"
  else
    match find (hasEmail (login_email input)) accounts with
    | None => Thrown "Invalid credentials"
    | Some user =>
        match truthy (account_password user) with
        | None => Thrown "Invalid credentials"
        | Some password =>
            if negb (bcryptCompare (login_password input) password) then
              Thrown "Invalid credentials"
            else if negb (bool_decide (account_role user = ADMIN)) then
              Thrown "Access denied. Not an administrator."
            else Returned (signToken (account_id user) (account_role user))
        end
    end.

(** [registerAdmin] *)
Definition registerAdmin (env : Env) (input : RegisterInput)
    (accounts : list Account) : AuthResponse * list Account :=
  match registerAdminUser env input accounts with
  | (Returned result, accounts') =>
      ({| auth_status := 201; auth_json := AccountJson result |}, accounts')
  | (Thrown message, accounts') =>
      if decide (message = "User already exists") then
        ({| auth_status := 409; auth_json := MessageJson message |}, accounts')
      else
        ({| auth_status := 500;
            auth_json := MessageJson "Error registering user" |}, accounts')
  end.

(** [loginAdmin] *)
Definition loginAdmin (env : Env) (input : LoginInput)
    (accounts : list Account) : AuthResponse :=
  match loginAdminUser env input accounts with
  | Returned token => {| auth_status := 200; auth_json := TokenJson token |}
  | Thrown message =>
      {| auth_status := 401;
         auth_json := MessageJson (match truthy (Some message) with
                                   | Some m => m
                                   | None => "Invalid credentials"
                                   end) |}
  end.

(** [requireAuth(requiredRole)] *)
Definition requireAuth (requiredRole : UserRole) (env : Env)
    (authHeader : option string) (accounts : list Account) : AuthDecision :=
  match truthy authHeader with
  | None =>
      Reject {| auth_status := 401;
                auth_json := MessageJson "Unauthorized: No token provided" |}
  | Some header =>
      if negb (String.prefix "Bearer " header) then
        Reject {| auth_status := 401;
                  auth_json := MessageJson "Unauthorized: No token provided" |}
      else
        match splitSecond header ≫= jwtVerify with
        | None =>
            Reject {| auth_status := 401;
                      auth_json := MessageJson "Unauthorized: Invalid token" |}
        | Some id =>
            if dbThrows env UserFindUnique then
              Reject {| auth_status := 401;
                        auth_json := MessageJson "Unauthorized: Invalid token" |}
            else
              match find (isAccount id) accounts with
              | None =>
                  Reject {| auth_status := 401;
                            auth_json :=
                              MessageJson "Unauthorized: User not found" |}
              | Some user =>
                  if negb (bool_decide (account_role user = requiredRole)) then
                    Reject {| auth_status := 403;
                              auth_json :=
                                MessageJson
                                  "Forbidden: Insufficient permissions" |}
                  else Next (account_id user) (account_role user)
              end
        end
  end.

End AuthService.

(** A toy password hash and token format for the examples. *)
Definition toyHash (password : string) : string := "$2a$12$" ++ password.
Definition toyCompare (password hashed : string) : bool :=
  String.eqb hashed (toyHash password).
Definition toySign (id : string) (role : UserRole) : string := "jwt." ++ id.
Definition toyVerify (token : string) : option string :=
  if String.prefix "jwt." token
  then Some (String.substring 4 (String.length token - 4) token)
  else None.

Definition adaInput : RegisterInput :=
  {| register_fullName := "Ada Admin"; register_email := "ada@example.com";
     register_password := "correct horse" |}.

Definition customerAccount : Account :=
  {| account_id := "user-1"; account_email := Some "alice@example.com";
     account_password := Some (toyHash "alice-secret");
     account_fullName := Some "Alice"; account_role := USER |}.

(** The string contains a space. *)
Fixpoint hasSpace (s : string) : bool :=
  match s with
  | EmptyString => false
  | String c rest => Ascii.eqb c " " || hasSpace rest
  end.

(** ** More observations on traces *)

(** The text messages posted, in order, with their recipients. *)
Fixpoint textPosts (es : list Event) : list (string * TextBody) :=
  match es with
  | [] => []
  | WhatsAppTextPost to body :: rest => (to, body) :: textPosts rest
  | _ :: rest => textPosts rest
  end.

(** The messages of a payload, in the order the handler visits them. *)
Definition allMessages (body : WhatsAppPayload) : list WhatsAppMessage :=
  concat (map (fun c => match value_messages c with
                        | Some ms => ms
                        | None => []
                        end)
            (concat (map changes (entry body)))).

Definition isText (m : WhatsAppMessage) : bool :=
  bool_decide (message_type m = "text").

(** The text messages of a payload. *)
Definition textMessages (body : WhatsAppPayload) : list WhatsAppMessage :=
  List.filter isText (allMessages body).

(** The messages that get processed: the text messages up to the first
    one that has no [text]. *)
Fixpoint answered (ms : list WhatsAppMessage) : list WhatsAppMessage :=
  match ms with
  | [] => []
  | m :: rest =>
      if isText m then
        match message_text m with
        | Some _ => m :: answered rest
        | None => []
        end
      else answered rest
  end.

(** Number of capital letters of ASCII in a key. *)
Fixpoint capitals (key : string) : nat :=
  match key with
  | EmptyString => 0
  | String c rest => (if isUpperAscii c then 1 else 0) + capitals rest
  end.

(** The quote that the payment-link branch creates. *)
Definition quoteFor (env : Env) (user : User) (product : InsuranceProduct)
    (call : FunctionCall) : Quote :=
  {| quote_id := newId env QuoteCreate; quote_userId := user_id user;
     insuranceProductId := product_id product;
     quote_type := args_insuranceType call; status := "quoted";
     quote_premium := args_premium call;
     quote_details := args_details call |}.

(** The store rejects every call. *)
Definition storeDownEnv : Env :=
  {| dbThrows := fun _ => true; newId := newId healthyEnv;
     pdfApi := pdfApi healthyEnv; cloudinary := cloudinary healthyEnv;
     documentPostFails := false;
     stripeCheckout := stripeCheckout healthyEnv;
     firstTurn := None; secondTurn := None |}.

(** A first model turn that asks for a payment link for the motor product,
    with a gateway that answers or fails. *)
Definition motorLinkCall : FunctionCall :=
  {| call_name := "generate_payment_link"; args_insuranceType := "motor";
     args_premium := 94000%float; args_customerName := "Alice Uwase";
     args_details := scenarioAFacts |}.

Definition motorLinkEnv (checkout : option (option string)) : Env :=
  {| dbThrows := noFault; newId := newId healthyEnv;
     pdfApi := pdfApi healthyEnv; cloudinary := cloudinary healthyEnv;
     documentPostFails := false;
     stripeCheckout := checkout;
     firstTurn := Some {| response_text := "";
                          functionCalls := [motorLinkCall] |};
     secondTurn := Some "Here is your payment link." |}.

(** A user registered by e-mail only, and the world with a quoted quote of
    that user. *)
Definition bob : User :=
  {| user_id := "user-2"; whatsappId := None;
     email := Some "bob@example.com"; fullName := Some "Bob";
     isAdmin := false |}.

Definition bobQuote : Quote :=
  {| quote_id := "quote-2-abcdef"; quote_userId := "user-2";
     insuranceProductId := "prod-motor"; quote_type := "motor";
     status := "quoted"; quote_premium := 60000%float;
     quote_details := scenarioAFacts |}.

Definition bobWorld : World :=
  {| users := [bob]; conversations := [];
     insuranceProducts := [motorProduct 2010%float];
     quotes := [bobQuote]; trace := [] |}.

(** The download of the PDF for the upload fails. *)
Definition downloadFailsEnv : Env :=
  {| dbThrows := noFault; newId := newId healthyEnv;
     pdfApi := pdfApi healthyEnv; cloudinary := DownloadFailed;
     documentPostFails := false;
     stripeCheckout := stripeCheckout healthyEnv;
     firstTurn := None; secondTurn := None |}.

(** A model that answers with plain text, and one that calls a tool that
    is not declared. *)
Definition greetingEnv : Env :=
  {| dbThrows := noFault; newId := newId healthyEnv;
     pdfApi := pdfApi healthyEnv; cloudinary := cloudinary healthyEnv;
     documentPostFails := false;
     stripeCheckout := stripeCheckout healthyEnv;
     firstTurn := Some {| response_text := "Hello! Which insurance do you need?";
                          functionCalls := [] |};
     secondTurn := None |}.

Definition strayCall : FunctionCall :=
  {| call_name := "lookup_weather"; args_insuranceType := "";
     args_premium := 0%float; args_customerName := "";
     args_details := ∅ |}.

Definition strayToolEnv : Env :=
  {| dbThrows := noFault; newId := newId healthyEnv;
     pdfApi := pdfApi healthyEnv; cloudinary := cloudinary healthyEnv;
     documentPostFails := false;
     stripeCheckout := stripeCheckout healthyEnv;
     firstTurn := Some {| response_text := ""; functionCalls := [strayCall] |};
     secondTurn := Some "Sorry, let us continue with your quote." |}.

Definition premiumCall : FunctionCall :=
  {| call_name := "calculate_premium"; args_insuranceType := "motor";
     args_premium := 0%float; args_customerName := "";
     args_details := scenarioAFacts |}.

(** A payload with a text message, an image and a second text message. *)
Definition twoTextsPayload : WhatsAppPayload :=
  {| payload_object := "whatsapp_business_account";
     entry :=
       [ {| changes :=
              [ {| value_messages :=
                     Some [ {| message_type := "text";
                               message_from := "250788000001";
                               message_text := Some "Hello" |};
                            {| message_type := "image";
                               message_from := "250788000002";
                               message_text := None |} ] |};
                {| value_messages := None |} ] |};
         {| changes :=
              [ {| value_messages :=
                     Some [ {| message_type := "text";
                               message_from := "250788000003";
                               message_text := Some "Hi" |} ] |} ] |} ] |}.

(** ** Proof support *)

Ltac async_unfold :=
  unfold prisma, await, tryCatch, resolve, throw, reads, modify, record in *.

Ltac async_step :=
  cbn -[extend quoteWithUser String.append String.substring
        addSystemMessageToConversation deliverCertificate
        findOrCreateUserAndConversation injectDynamicInstructions
        dispatchTool applyBusinessLogic].

(** ** The rule engine *)

(** [Math.round] on a few values: ties go up, also below zero, and a zero
    result keeps the sign. *)
Example Math_round_examples :
  JS.Math_round 2.5%float = 3%float /\
  JS.Math_round (-2.5)%float = (-2)%float /\
  JS.Math_round (-1.5)%float = (-1)%float /\
  JS.Math_round 0.5%float = 1%float /\
  JS.Math_round (-0.5)%float = (-0)%float /\
  JS.Math_round 0x1.fffffffffffffp-2%float = 0%float /\
  JS.Math_round 94000%float = 94000%float /\
  JS.Math_round infinity = infinity.
Proof. repeat split; vm_compute; reflexivity. Qed.

(** The product 60000 * 1.4 is exactly 84000 in binary64. *)
Example surcharge_is_exact :
  (60000 * 0x1.6666666666666p+0)%float = 84000%float.
Proof. vm_compute. reflexivity. Qed.

(** Scenario B: with driverAge = 30 and carYear = 2020 no factor fires. *)
Example scenario_B_premium :
  evaluate nanOnStrings 60000%float [youngDriver; oldCar]
    {[ "driverAge" := JS.Number 30%float; "carYear" := JS.Number 2020%float ]}
  = 60000%float.
Proof. vm_compute. reflexivity. Qed.

(** The keyword test of [injectDynamicInstructions] and the post-processing
    of replies. *)
Example includes_examples :
  includes (toLowerCase "I need Car insurance") "car" = true /\
  includes (toLowerCase "Hello") "motor" = false /\
  applyBusinessLogic "Sorry, I cannot help with that" = trustAndSafetyPrompt /\
  applyBusinessLogic "Hello" = "Hello".
Proof. repeat split; vm_compute; reflexivity. Qed.

Section RuleEngineFacts.

Variable StringToNumber : string -> float.

(** A factor whose key is neither among the facts nor the name of an
    inherited member leaves the running total as it is. *)
Lemma applyFactor_absent (facts : gmap string JS.Prim) (total : float)
    (f : PricingFactor) :
  facts !! key f = None -> JS.inherited (key f) = None ->
  applyFactor StringToNumber facts total f = total.
Proof. unfold applyFactor, JS.Get. now intros -> ->. Qed.

(** [calculatePremium] never rejects and never writes. *)
Lemma calculatePremium_total (env : Env) (input : PremiumInput) (w : World) :
  exists r, calculatePremium StringToNumber env input w = (Returned r, w).
Proof.
  unfold calculatePremium. async_unfold.
  destruct (dbThrows env ProductFindUnique); [eauto|].
  destruct (find _ _) as [p|]; [|eauto].
  destruct (isActive p); simpl; [|eauto].
  destruct (pricingRules p) as [|[| |n] [| |fs]]; eauto.
Qed.

(** C4. With base rate 60000, a first factor (driverAge lt 25, multiply by
    1.4) and a second factor (carYear lt 2010, add 10000), the facts
    driverAge = 22 and carYear = 2008 are priced at 94000, which is
    Math.round (60000 * 1.4 + 10000): the factors apply in declaration order
    to the running total and the result is rounded. *)
Theorem scenario_A_premium (env : Env) (w : World) :
  dbThrows env ProductFindUnique = false ->
  find (ofType "motor") (insuranceProducts w) = Some (motorProduct 2010%float) ->
  evaluate StringToNumber 60000%float [youngDriver; oldCar] scenarioAFacts
    = 94000%float /\
  94000%float =
    JS.Math_round (60000 * 0x1.6666666666666p+0 + 10000)%float /\
  calculatePremium StringToNumber env
    {| insuranceType := "motor"; details := scenarioAFacts |} w
  = (Returned (Premium 94000%float), w).
Proof.
  intros Hdb Hfind.
  split; [vm_compute; reflexivity|].
  split; [vm_compute; reflexivity|].
  unfold calculatePremium. async_unfold.
  cbn [insuranceType details]. rewrite Hdb, Hfind.
  vm_compute. reflexivity.
Qed.

(** C5. When the product is unknown or inactive, or its rule set is
    structurally invalid, [calculatePremium] returns a tagged error: the
    promise resolves (nothing is thrown), the result is an [error] object and
    never a premium, and nothing is written. *)
Theorem calculatePremium_tagged_error (env : Env) (input : PremiumInput)
    (w : World) :
  let product := find (ofType (insuranceType input)) (insuranceProducts w) in
  (product = None \/
   (exists p, product = Some p /\ isActive p = false) \/
   (exists p, product = Some p /\ structurallyInvalid (pricingRules p))) ->
  exists message,
    calculatePremium StringToNumber env input w
    = (Returned (PremiumError message), w).
Proof.
  intros product H. subst product.
  unfold calculatePremium. async_unfold.
  destruct (dbThrows env ProductFindUnique); [eauto|].
  destruct H as [-> | [(p & -> & Hp) | (p & -> & Hp)]].
  - eauto.
  - rewrite Hp. simpl. eauto.
  - destruct (isActive p); simpl; [|eauto].
    destruct Hp as [-> | (b & fs & -> & Hbad)]; [eauto|].
    destruct Hbad as [-> | [-> | [-> | ->]]]; try (eauto; fail);
      destruct b; eauto.
Qed.

(** C6. Rule application is order-dependent: there are a rule set and facts
    for which an additive factor declared before a multiplicative one gives
    another premium than the two factors in the reverse order. *)
Theorem rule_order_matters :
  exists (baseRate : float) (additive multiplicative : PricingFactor)
         (facts : gmap string JS.Prim),
    type additive = FactorType.add /\
    type multiplicative = FactorType.multiply /\
    evaluate StringToNumber baseRate [additive; multiplicative] facts
    <> evaluate StringToNumber baseRate [multiplicative; additive] facts.
Proof.
  exists 60000%float, oldCar, youngDriver, scenarioAFacts.
  split; [reflexivity|]. split; [reflexivity|].
  intros H.
  apply (f_equal (fun x => PrimFloat.eqb x 98000%float)) in H.
  vm_compute in H. discriminate H.
Qed.

(** C7. The claim fails on a factor keyed by the name of a member that the
    fact object inherits from [Object.prototype]: with the empty fact object
    the key [constructor] is absent from the facts, yet [details[factor.key]]
    reads the function [Object], which is not [undefined]; the factor is
    compared (the function's source text is below the string g) and its
    modifier is applied, so that the premium is 70000 and not the base rate
    60000.  The evaluation returns a premium all the same. *)
Theorem inherited_member_not_skipped (env : Env) :
  dbThrows env ProductFindUnique = false ->
  let facts : gmap string JS.Prim := ∅ in
  facts !! key constructorFactor = None /\
  JS.Get facts (key constructorFactor) = Some (JS.BuiltinFunction "Object") /\
  applyFactor StringToNumber facts 60000%float constructorFactor
    = 70000%float /\
  evaluate StringToNumber 60000%float [] facts = 60000%float /\
  calculatePremium StringToNumber env
    {| insuranceType := "motor"; details := facts |} constructorWorld
  = (Returned (Premium 70000%float), constructorWorld).
Proof.
  intros Hdb facts. subst facts.
  split; [reflexivity|]. split; [reflexivity|].
  split; [vm_compute; reflexivity|]. split; [vm_compute; reflexivity|].
  unfold calculatePremium. async_unfold.
  cbn [insuranceType details]. rewrite Hdb.
  vm_compute. reflexivity.
Qed.

(** A factor whose key is neither an own property of the fact object nor
    the name of a member inherited from [Object.prototype] is skipped: its
    turn of the loop leaves the running total unchanged, the premium is the
    one of the rule set without that factor, and the evaluation still
    returns a premium and no error. *)
Theorem absent_fact_skipped (env : Env) (w : World) (input : PremiumInput)
    (product : InsuranceProduct) (baseRate : float)
    (before after : list PricingFactor) (factor : PricingFactor) :
  details input !! key factor = None ->
  JS.inherited (key factor) = None ->
  dbThrows env ProductFindUnique = false ->
  find (ofType (insuranceType input)) (insuranceProducts w) = Some product ->
  isActive product = true ->
  pricingRules product
    = RulesObject (BaseRateNumber baseRate)
        (FactorsArray (before ++ factor :: after)) ->
  (forall total,
     applyFactor StringToNumber (details input) total factor = total) /\
  evaluate StringToNumber baseRate (before ++ factor :: after) (details input)
    = evaluate StringToNumber baseRate (before ++ after) (details input) /\
  calculatePremium StringToNumber env input w
    = (Returned
         (Premium (evaluate StringToNumber baseRate (before ++ after)
                     (details input))),
       w).
Proof.
  intros Habsent Hown Hdb Hfind Hactive Hrules.
  assert (Hskip :
    evaluate StringToNumber baseRate (before ++ factor :: after) (details input)
    = evaluate StringToNumber baseRate (before ++ after) (details input)).
  { unfold evaluate. rewrite !fold_left_app. cbn [fold_left].
    now rewrite applyFactor_absent. }
  split; [intros total; now apply applyFactor_absent|].
  split; [exact Hskip|].
  unfold calculatePremium. async_unfold.
  rewrite Hdb, Hfind, Hactive, Hrules. cbn [negb]. now rewrite Hskip.
Qed.

End RuleEngineFacts.

Lemma scenario_A_premium_witness :
  calculatePremium nanOnStrings healthyEnv
    {| insuranceType := "motor"; details := scenarioAFacts |} catalogWorld
  = (Returned (Premium 94000%float), catalogWorld).
Proof.
  apply (scenario_A_premium nanOnStrings healthyEnv catalogWorld);
    reflexivity.
Defined.

Lemma calculatePremium_tagged_error_witness :
  exists message,
    calculatePremium nanOnStrings healthyEnv
      {| insuranceType := "travel"; details := scenarioAFacts |} catalogWorld
    = (Returned (PremiumError message), catalogWorld).
Proof.
  apply (calculatePremium_tagged_error nanOnStrings healthyEnv
           {| insuranceType := "travel"; details := scenarioAFacts |}
           catalogWorld).
  left. reflexivity.
Defined.

Lemma absent_fact_skipped_witness :
  calculatePremium nanOnStrings healthyEnv
    {| insuranceType := "motor";
       details := {[ "driverAge" := JS.Number 22%float ]} |} catalogWorld
  = (Returned
       (Premium (evaluate nanOnStrings 60000%float ([youngDriver] ++ [])
                   {[ "driverAge" := JS.Number 22%float ]})),
     catalogWorld).
Proof.
  refine (proj2 (proj2
    (absent_fact_skipped nanOnStrings healthyEnv catalogWorld
       {| insuranceType := "motor";
          details := {[ "driverAge" := JS.Number 22%float ]} |}
       (motorProduct 2010%float) 60000%float [youngDriver] [] oldCar
       _ _ _ _ _ _))); reflexivity.
Defined.

Lemma inherited_member_not_skipped_witness :
  calculatePremium nanOnStrings healthyEnv
    {| insuranceType := "motor"; details := ∅ |} constructorWorld
  = (Returned (Premium 70000%float), constructorWorld).
Proof.
  refine (proj2 (proj2 (proj2 (proj2
    (inherited_member_not_skipped nanOnStrings healthyEnv _))))).
  reflexivity.
Defined.

(** ** Tables *)

Lemma find_updateFirst {A} (p : A -> bool) (f : A -> A) (rows : list A) :
  (forall r, p r = true -> p (f r) = true) ->
  find p (updateFirst p f rows) = f <$> find p rows.
Proof.
  intros Hp. induction rows as [|r rows IH]; [reflexivity|].
  cbn [updateFirst find]. destruct (p r) eqn:E.
  - cbn [find]. now rewrite (Hp r E).
  - cbn [find]. now rewrite E.
Qed.

Lemma existsb_find {A} (p : A -> bool) (rows : list A) :
  existsb p rows = true <-> exists r, find p rows = Some r.
Proof.
  induction rows as [|r rows IH]; cbn [existsb find].
  - split; [discriminate|]. intros [? ?]. discriminate.
  - destruct (p r); cbn [orb]; [|exact IH]. split; eauto.
Qed.

Lemma find_existsb_other {A} (p q : A -> bool) (rows : list A) (r : A) :
  find p rows = Some r -> q r = true -> existsb q rows = true.
Proof.
  intros Hfind Hq. apply existsb_exists. exists r. split; [|exact Hq].
  now apply find_some in Hfind.
Qed.

(** ** Frames of the collaborator calls *)

Lemma extend_extend (w : World) (a b : list Event) :
  extend (extend w a) b = extend w (a ++ b).
Proof. unfold extend. cbn. now rewrite <- app_assoc. Qed.

Lemma record_extend (w : World) (e : Event) : record w e = extend w [e].
Proof. reflexivity. Qed.

Section Frames.

(** The conversation store never throws to its caller and touches neither
    the quotes, the products nor the trace. *)
Lemma addSystemMessageToConversation_frame (env : Env) (wid text : string)
    (w : World) :
  exists w',
    addSystemMessageToConversation env wid text w = (Returned tt, w') /\
    quotes w' = quotes w /\ trace w' = trace w /\
    insuranceProducts w' = insuranceProducts w.
Proof.
  unfold addSystemMessageToConversation, findOrCreateUserAndConversation,
    updateConversationHistory.
  async_unfold.
  repeat (match goal with
          | |- context [if ?b then _ else _] => destruct b
          | |- context [match find ?p ?l with _ => _ end] => destruct (find p l)
          end; cbn); eauto.
Qed.

(** The certificate step always returns to the handler; it records the
    start of the generation and then one of the three delivery shapes, and
    when generation or delivery fails the last event is the apology. *)
Lemma deliverCertificate_run (env : Env) (wid : string) (q : Quote)
    (w : World) :
  exists deliveries,
    deliverCertificate env wid q w
    = (Returned tt,
       extend w (CertificateGenerationStarted (quote_id q) :: deliveries)) /\
    deliveryShape wid q deliveries /\
    (fulfillmentFails env ->
     last deliveries
     = Some (WhatsAppTextPost wid (PlainText certificateIssueText))).
Proof.
  unfold deliverCertificate, generateAndUploadCertificate, sendDocument,
    sendMessage, fulfillmentFails, deliveryShape.
  async_unfold.
  assert (Hcatch : exists deliveries,
    (Returned tt,
     extend (extend w [CertificateGenerationStarted (quote_id q)])
       [WhatsAppTextPost wid (PlainText certificateIssueText)])
    = (Returned tt,
       extend w (CertificateGenerationStarted (quote_id q) :: deliveries)) /\
    ((exists url, deliveries =
        [WhatsAppDocumentPost wid url
           "Here is your official Insurance Certificate."
           ("Insurance-Certificate-" ++ String.substring 0 8 (quote_id q) ++
            ".pdf")]) \/
     (exists url, deliveries =
        [WhatsAppDocumentPost wid url
           "Here is your official Insurance Certificate."
           ("Insurance-Certificate-" ++ String.substring 0 8 (quote_id q) ++
            ".pdf");
         WhatsAppTextPost wid (PlainText certificateIssueText)]) \/
     deliveries = [WhatsAppTextPost wid (PlainText certificateIssueText)]) /\
    (pdfApi env = None \/ cloudinary env = UploadRejected \/
     documentPostFails env = true ->
     last deliveries
     = Some (WhatsAppTextPost wid (PlainText certificateIssueText)))).
  { rewrite extend_extend. eexists. split; [reflexivity|].
    split; [now right; right|]. reflexivity. }
  destruct (dbThrows env QuoteFindUnique); async_step; [exact Hcatch|].
  destruct (quoteWithUser _ _) as [[q' [u'|]]|]; async_step;
    [|exact Hcatch|exact Hcatch].
  destruct (pdfApi env) as [tmp|]; async_step; [|exact Hcatch].
  destruct (cloudinary env) as [| |url]; async_step; [|exact Hcatch|];
    destruct (documentPostFails env); async_step; rewrite !extend_extend;
    eexists; (split; [reflexivity|]);
    try (split; [right; left; eauto|reflexivity]);
    (split; [left; eauto|]); intros [H|[H|H]]; discriminate H.
Qed.

End Frames.

(** ** The payment-confirmation handler *)

Section Webhook.

Variable constructEvent : string -> string -> option StripeEvent.

Local Abbreviation handle := (handleStripeWebhook constructEvent).

Local Abbreviation confirmed := (confirms constructEvent).

Lemma quoteWithUser_found (qid : string) (w : World) (q : Quote)
    (u : option User) :
  quoteWithUser qid w = Some (q, u) ->
  find (hasId qid) (quotes w) = Some q /\ quote_id q = qid.
Proof.
  unfold quoteWithUser. destruct (find _ _) as [q0|] eqn:E; [|discriminate].
  intros [= -> _]. split; [reflexivity|].
  apply find_some in E as [_ E]. unfold hasId in E.
  now apply bool_decide_eq_true in E.
Qed.

(** The handler on a quote that is found with its user and is not yet paid,
    when the store performs the read and the write. *)
Lemma handle_transition (env : Env) (rawBody sig qid : string) (w : World)
    (q : Quote) (u : User) :
  confirmed rawBody sig qid ->
  quoteWithUser qid w = Some (q, Some u) ->
  status q <> "paid" ->
  dbThrows env QuoteFindUnique = false ->
  dbThrows env QuoteUpdate = false ->
  exists deliveries w',
    handle env rawBody sig w = (Returned tt, w') /\
    quotes w' = updateFirst (hasId qid) (withStatus "paid") (quotes w) /\
    trace w' = (trace w ++ QuoteMarkedPaid qid
                             :: paidNotifications q u deliveries)%list /\
    (forall wid, truthy (whatsappId u) = Some wid ->
       deliveryShape wid q deliveries /\
       (fulfillmentFails env ->
        last deliveries
        = Some (WhatsAppTextPost wid (PlainText certificateIssueText)))).
Proof.
  intros (event & Hev & Hty & Hqid) Hq Hst Hfind Hupd.
  destruct (quoteWithUser_found _ _ _ _ Hq) as [Hrow Hid].
  unfold handleStripeWebhook, updateQuoteStatus, sendMessage, paidNotifications.
  rewrite Hev, Hqid. rewrite decide_True by exact Hty.
  async_unfold. rewrite Hfind, Hupd, Hq. rewrite decide_False by exact Hst.
  assert (Hex : existsb (hasId qid) (quotes w) = true)
    by (apply existsb_find; eauto).
  rewrite Hex. async_step.
  destruct (truthy (whatsappId u)) as [wid|] eqn:Hwid; async_step.
  - match goal with
    | |- context [addSystemMessageToConversation env wid ?t ?w0] =>
        destruct (addSystemMessageToConversation_frame env wid t w0)
          as (w3 & -> & Hq3 & Ht3 & _)
    end.
    destruct (deliverCertificate_run env wid q w3)
      as (deliveries & -> & Hshape & Hfail).
    exists deliveries. eexists. split; [reflexivity|].
    cbn [quotes trace extend]. rewrite Hq3, Ht3. cbn [quotes trace extend setQuotes].
    split; [reflexivity|]. split.
    + rewrite <- !app_assoc. reflexivity.
    + intros wid' [= <-]. split; assumption.
  - exists []. eexists. split; [reflexivity|].
    cbn [quotes trace extend setQuotes]. split; [reflexivity|].
    split; [reflexivity|]. intros wid' H. discriminate H.
Qed.

(** The handler leaves the world as it is when the confirmed quote, if it
    is found with its user, is already paid. *)
Lemma handle_settled (env : Env) (rawBody sig : string) (w : World) :
  (forall qid q u,
     confirmed rawBody sig qid ->
     quoteWithUser qid w = Some (q, Some u) -> status q = "paid") ->
  exists o, handle env rawBody sig w = (o, w).
Proof.
  intros Hpaid. unfold handleStripeWebhook. unfold confirms in Hpaid.
  destruct (constructEvent rawBody sig) as [event|]; [|async_unfold; eauto].
  destruct (decide _) as [Hty|]; [|async_unfold; eauto].
  destruct (truthy _) as [qid|] eqn:Hqid; [|async_unfold; eauto].
  async_unfold.
  destruct (dbThrows env QuoteFindUnique); [eauto|].
  destruct (quoteWithUser qid w) as [[q [u|]]|] eqn:Hq; [|eauto|eauto].
  rewrite decide_True; [eauto|].
  apply (Hpaid qid q u); eauto.
Qed.

Lemma statusOf_paid (qid : string) (w w' : World) (q : Quote) :
  find (hasId qid) (quotes w) = Some q ->
  quotes w' = updateFirst (hasId qid) (withStatus "paid") (quotes w) ->
  statusOf qid w' = Some "paid".
Proof.
  intros Hrow Hq. unfold statusOf. rewrite Hq.
  rewrite find_updateFirst by (intros r Hr; exact Hr).
  now rewrite Hrow.
Qed.

Lemma count_app (p : Event -> bool) (a b : list Event) :
  countEvents p (a ++ b) = (countEvents p a + countEvents p b)%nat.
Proof. unfold countEvents. now rewrite List.filter_app, length_app. Qed.

Lemma deliveryShape_counts (wid qid : string) (q : Quote)
    (deliveries : list Event) :
  deliveryShape wid q deliveries ->
  countEvents (isPaidMark qid) deliveries = 0%nat /\
  countEvents (isCertificateStart qid) deliveries = 0%nat /\
  countEvents isConfirmation deliveries = 0%nat.
Proof.
  intros [(url & ->) | [(url & ->) | ->]]; repeat split; reflexivity.
Qed.

Lemma confirms_unique (rawBody sig qid qid' : string) :
  confirmed rawBody sig qid -> confirmed rawBody sig qid' -> qid = qid'.
Proof.
  intros (e & He & _ & Hq) (e' & He' & _ & Hq').
  rewrite He in He'. injection He' as <-. rewrite Hq in Hq'.
  now injection Hq'.
Qed.

(** Either the event confirms a quote that is found with its user and not
    yet paid, or there is nothing for the handler to do. *)
Lemma payable_or_settled (rawBody sig : string) (w : World) :
  (exists qid q u,
     confirmed rawBody sig qid /\
     quoteWithUser qid w = Some (q, Some u) /\ status q <> "paid") \/
  (forall qid q u,
     confirmed rawBody sig qid ->
     quoteWithUser qid w = Some (q, Some u) -> status q = "paid").
Proof.
  unfold confirms.
  destruct (constructEvent rawBody sig) as [event|] eqn:Hev.
  2: { right. intros qid q u (e & He & _). discriminate He. }
  destruct (decide (event_type event = "checkout.session.completed"))
    as [Hty|Hty].
  2: { right. intros qid q u (e & [= <-] & Hty' & _). contradiction. }
  destruct (truthy (metadata_quoteId event)) as [qid|] eqn:Hqid.
  2: { right. intros qid q u (e & [= <-] & _ & Hq). congruence. }
  destruct (quoteWithUser qid w) as [[q [u|]]|] eqn:Hq.
  2,3: right; intros qid' q' u' (e & [= <-] & _ & Hq') Hq'';
       assert (qid' = qid) as -> by congruence; congruence.
  destruct (decide (status q = "paid")) as [Hst|Hst].
  - right. intros qid' q' u' (e & [= <-] & _ & Hq') Hq''.
    assert (qid' = qid) as -> by congruence. congruence.
  - left. exists qid, q, u. eauto 6.
Qed.

(** A storage fault on the read or on the write makes the handler throw
    before anything is changed. *)
Lemma handle_fault (env : Env) (rawBody sig qid : string) (w : World)
    (q : Quote) (u : User) :
  confirmed rawBody sig qid ->
  quoteWithUser qid w = Some (q, Some u) ->
  status q <> "paid" ->
  dbThrows env QuoteFindUnique = true \/ dbThrows env QuoteUpdate = true ->
  handle env rawBody sig w
  = (Thrown ("Processing error for quote " ++ qid ++ "."), w).
Proof.
  intros (event & Hev & Hty & Hqid) Hq Hst Hfault.
  unfold handleStripeWebhook, updateQuoteStatus.
  rewrite Hev, Hqid. rewrite decide_True by exact Hty. async_unfold.
  destruct (dbThrows env QuoteFindUnique); [reflexivity|].
  rewrite Hq. rewrite decide_False by exact Hst.
  destruct Hfault as [Hf|Hf]; [discriminate Hf|]. now rewrite Hf.
Qed.

(** C2. An event whose signature does not verify is rejected: the handler
    throws to its caller, which answers 400 with the error, and the world,
    every quote's status included, is exactly as before. *)
Theorem invalid_signature_rejected (env : Env) (rawBody sig : string)
    (w : World) :
  constructEvent rawBody sig = None ->
  handle env rawBody sig w
    = (Thrown "Webhook signature verification failed.", w) /\
  (sig <> "" ->
   stripeWebhookHandler constructEvent env (Some sig) (Some rawBody) w
   = ({| statusCode := 400;
         sent := Text "Webhook Error: Webhook signature verification failed." |},
      w)) /\
  forall qid, statusOf qid (snd (handle env rawBody sig w)) = statusOf qid w.
Proof.
  intros H.
  assert (Hrun : handle env rawBody sig w
                 = (Thrown "Webhook signature verification failed.", w)).
  { unfold handleStripeWebhook. now rewrite H. }
  split; [exact Hrun|]. split.
  - intros Hsig. unfold stripeWebhookHandler.
    destruct sig as [|c sig']; [contradiction|]. cbn [truthy].
    now rewrite Hrun.
  - intros qid. now rewrite Hrun.
Qed.

(** C1. Replaying a verified payment confirmation: once the handler has
    returned on it, handling the same event again changes nothing (no table
    and no further event in the trace), whatever the collaborators answer
    the second time.  For a quote that was found unpaid with a user that has
    a messaging address, the two runs together made exactly one transition
    to paid, started the certificate generation exactly once and posted
    exactly one confirmation message. *)
Theorem replay_is_idempotent (env1 env2 : Env) (rawBody sig : string)
    (w w1 w2 : World) (o2 : Outcome unit) :
  handle env1 rawBody sig w = (Returned tt, w1) ->
  handle env2 rawBody sig w1 = (o2, w2) ->
  w2 = w1 /\
  (forall qid q u wid,
     confirmed rawBody sig qid ->
     quoteWithUser qid w = Some (q, Some u) ->
     status q <> "paid" ->
     truthy (whatsappId u) = Some wid ->
     statusOf qid w2 = Some "paid" /\
     exists added,
       trace w2 = (trace w ++ added)%list /\
       countEvents (isPaidMark qid) added = 1%nat /\
       countEvents (isCertificateStart qid) added = 1%nat /\
       countEvents isConfirmation added = 1%nat).
Proof.
  intros Hrun1 Hrun2.
  destruct (payable_or_settled rawBody sig w)
    as [(qid & q & u & Hc & Hq & Hst) | Hsettled].
  - (* the first run meets an unpaid quote *)
    destruct (dbThrows env1 QuoteFindUnique) eqn:Hfind.
    { rewrite (handle_fault env1 _ _ qid w q u) in Hrun1 by auto.
      discriminate Hrun1. }
    destruct (dbThrows env1 QuoteUpdate) eqn:Hupd.
    { rewrite (handle_fault env1 _ _ qid w q u) in Hrun1 by auto.
      discriminate Hrun1. }
    destruct (handle_transition env1 rawBody sig qid w q u Hc Hq Hst Hfind Hupd)
      as (deliveries & w' & Hrun & Hquotes & Htrace & Hshape).
    rewrite Hrun in Hrun1. injection Hrun1 as ->.
    destruct (quoteWithUser_found _ _ _ _ Hq) as [Hrow Hid].
    assert (Hpaid : statusOf qid w1 = Some "paid")
      by exact (statusOf_paid qid w w1 q Hrow Hquotes).
    assert (Hsame : w2 = w1).
    { destruct (handle_settled env2 rawBody sig w1) as [o Hrun1].
      - intros qid' q' u' Hc' Hq'.
        rewrite <- (confirms_unique _ _ _ _ Hc Hc') in Hq'.
        destruct (quoteWithUser_found _ _ _ _ Hq') as [Hrow' _].
        unfold statusOf in Hpaid. rewrite Hrow' in Hpaid.
        now injection Hpaid.
      - rewrite Hrun1 in Hrun2. now injection Hrun2. }
    split; [exact Hsame|]. subst w2.
    intros qid' q' u' wid Hc' Hq' _ Hwid.
    rewrite <- (confirms_unique _ _ _ _ Hc Hc') in *.
    rewrite Hq in Hq'. injection Hq' as <- <-.
    split; [exact Hpaid|].
    destruct (Hshape wid Hwid) as [Hsh _].
    destruct (deliveryShape_counts wid qid q deliveries Hsh)
      as (Hn1 & Hn2 & Hn3).
    eexists. split; [exact Htrace|].
    unfold paidNotifications. rewrite Hwid.
    unfold countEvents in *. cbn [List.filter isPaidMark isCertificateStart
      isConfirmation length]. rewrite Hid.
    rewrite !bool_decide_eq_true_2 by reflexivity. cbn [length].
    rewrite Hn1, Hn2, Hn3. auto.
  - (* nothing to do, the first time and the second time *)
    destruct (handle_settled env1 rawBody sig w Hsettled) as [o Hrun].
    rewrite Hrun in Hrun1. injection Hrun1 as _ <-.
    destruct (handle_settled env2 rawBody sig w Hsettled) as [o' Hrun'].
    rewrite Hrun' in Hrun2. injection Hrun2 as _ <-.
    split; [reflexivity|].
    intros qid q u wid Hc Hq Hst _. contradiction (Hst (Hsettled _ _ _ Hc Hq)).
Qed.

(** C3, as the code has it. The handler changes the world only when the
    confirmed quote is found with its user and its status is not yet paid,
    and then the quote becomes paid; and every such quote, whatever its
    status other than paid (draft included), becomes paid when the store
    performs the read and the write. *)
Theorem paid_unless_already_paid (env : Env) (rawBody sig : string)
    (w w' : World) (o : Outcome unit) :
  handle env rawBody sig w = (o, w') ->
  (w' = w \/
   exists qid q u,
     confirmed rawBody sig qid /\
     quoteWithUser qid w = Some (q, Some u) /\ status q <> "paid" /\
     statusOf qid w' = Some "paid") /\
  (forall qid q u,
     confirmed rawBody sig qid ->
     quoteWithUser qid w = Some (q, Some u) ->
     status q <> "paid" ->
     dbThrows env QuoteFindUnique = false ->
     dbThrows env QuoteUpdate = false ->
     o = Returned tt /\ statusOf qid w' = Some "paid" /\
     In (QuoteMarkedPaid qid) (trace w')).
Proof.
  intros Hrun.
  assert (Hpaid : forall qid q u,
    confirmed rawBody sig qid ->
    quoteWithUser qid w = Some (q, Some u) ->
    status q <> "paid" ->
    dbThrows env QuoteFindUnique = false ->
    dbThrows env QuoteUpdate = false ->
    o = Returned tt /\ statusOf qid w' = Some "paid" /\
    In (QuoteMarkedPaid qid) (trace w')).
  { intros qid q u Hc Hq Hst Hfind Hupd.
    destruct (handle_transition env rawBody sig qid w q u Hc Hq Hst Hfind Hupd)
      as (deliveries & w1 & Hrun1 & Hquotes & Htrace & _).
    rewrite Hrun1 in Hrun. injection Hrun as <- <-.
    destruct (quoteWithUser_found _ _ _ _ Hq) as [Hrow _].
    split; [reflexivity|].
    split; [exact (statusOf_paid qid w w1 q Hrow Hquotes)|].
    rewrite Htrace. apply in_or_app. right. now left. }
  split; [|exact Hpaid].
  destruct (payable_or_settled rawBody sig w)
    as [(qid & q & u & Hc & Hq & Hst) | Hsettled].
  - destruct (dbThrows env QuoteFindUnique) eqn:Hfind.
    { rewrite (handle_fault env _ _ qid w q u) in Hrun by auto.
      left. now injection Hrun. }
    destruct (dbThrows env QuoteUpdate) eqn:Hupd.
    { rewrite (handle_fault env _ _ qid w q u) in Hrun by auto.
      left. now injection Hrun. }
    right. exists qid, q, u. repeat split; auto.
    now apply (Hpaid qid q u).
  - left. destruct (handle_settled env rawBody sig w Hsettled) as [o' Hrun'].
    rewrite Hrun' in Hrun. now injection Hrun.
Qed.

(** C9. When certificate generation or delivery fails for a confirmed
    payment, the failure stays inside the certificate step: the handler
    returns normally, the quote is paid, and the last thing sent to the user
    is the message that promises a manual follow-up. *)
Theorem fulfillment_failure_is_contained (env : Env)
    (rawBody sig qid wid : string) (w : World) (q : Quote) (u : User) :
  confirmed rawBody sig qid ->
  quoteWithUser qid w = Some (q, Some u) ->
  status q <> "paid" ->
  truthy (whatsappId u) = Some wid ->
  dbThrows env QuoteFindUnique = false ->
  dbThrows env QuoteUpdate = false ->
  fulfillmentFails env ->
  exists w',
    handle env rawBody sig w = (Returned tt, w') /\
    statusOf qid w' = Some "paid" /\
    countEvents (isCertificateStart qid) (trace w')
      = S (countEvents (isCertificateStart qid) (trace w)) /\
    last (trace w')
      = Some (WhatsAppTextPost wid (PlainText certificateIssueText)).
Proof.
  intros Hc Hq Hst Hwid Hfind Hupd Hfails.
  destruct (handle_transition env rawBody sig qid w q u Hc Hq Hst Hfind Hupd)
    as (deliveries & w' & Hrun & Hquotes & Htrace & Hshape).
  destruct (Hshape wid Hwid) as [Hsh Hlast]. specialize (Hlast Hfails).
  destruct (quoteWithUser_found _ _ _ _ Hq) as [Hrow Hid].
  destruct (deliveryShape_counts wid qid q deliveries Hsh) as (_ & Hn & _).
  exists w'. split; [exact Hrun|].
  split; [exact (statusOf_paid qid w w' q Hrow Hquotes)|].
  rewrite Htrace. unfold paidNotifications. rewrite Hwid. split.
  - rewrite count_app. unfold countEvents in *.
    cbn [List.filter isCertificateStart length]. rewrite Hid.
    rewrite bool_decide_eq_true_2 by reflexivity. cbn [length].
    rewrite Hn. lia.
  - rewrite last_app, !last_cons, Hlast. reflexivity.
Qed.

End Webhook.

Lemma invalid_signature_rejected_witness :
  handleStripeWebhook stripeSignedBy healthyEnv "quote-1-abcdef" "t=1,v1=0000"
    (worldWithQuote "quoted")
  = (Thrown "Webhook signature verification failed.", worldWithQuote "quoted").
Proof.
  refine (proj1 (invalid_signature_rejected stripeSignedBy healthyEnv
           "quote-1-abcdef" "t=1,v1=0000" (worldWithQuote "quoted") _)).
  reflexivity.
Defined.

Lemma confirms_quote1 :
  confirms stripeSignedBy "quote-1-abcdef" "t=1,v1=5257a869" "quote-1-abcdef".
Proof. eexists. repeat split. Defined.

Lemma quoted_not_paid : "quoted" <> "paid".
Proof. discriminate. Defined.

Lemma replay_is_idempotent_witness :
  statusOf "quote-1-abcdef" paidWorld = Some "paid" /\
  exists added,
    trace paidWorld = (trace (worldWithQuote "quoted") ++ added)%list /\
    countEvents (isPaidMark "quote-1-abcdef") added = 1%nat /\
    countEvents (isCertificateStart "quote-1-abcdef") added = 1%nat /\
    countEvents isConfirmation added = 1%nat.
Proof.
  refine (proj2
    (replay_is_idempotent stripeSignedBy healthyEnv pdfDownEnv
       "quote-1-abcdef" "t=1,v1=5257a869"
       (worldWithQuote "quoted") paidWorld paidWorld (Returned tt) _ _)
    "quote-1-abcdef" (quoteInStatus "quoted") alice "250788000001"
    confirms_quote1 _ quoted_not_paid _).
  - vm_compute. reflexivity.
  - vm_compute. reflexivity.
  - reflexivity.
  - reflexivity.
Defined.

Lemma paid_unless_already_paid_witness :
  paidWorld = worldWithQuote "quoted" \/
  exists qid q u,
    confirms stripeSignedBy "quote-1-abcdef" "t=1,v1=5257a869" qid /\
    quoteWithUser qid (worldWithQuote "quoted") = Some (q, Some u) /\
    status q <> "paid" /\ statusOf qid paidWorld = Some "paid".
Proof.
  refine (proj1
    (paid_unless_already_paid stripeSignedBy healthyEnv
       "quote-1-abcdef" "t=1,v1=5257a869"
       (worldWithQuote "quoted") paidWorld (Returned tt) _)).
  vm_compute. reflexivity.
Defined.

(** C3 as stated fails: a quote still in draft is marked paid by a verified
    confirmation, with the confirmation message and the certificate
    generation that go with it. *)
Lemma draft_quote_is_paid :
  statusOf "quote-1-abcdef" (worldWithQuote "draft") = Some "draft" /\
  exists w',
    handleStripeWebhook stripeSignedBy healthyEnv "quote-1-abcdef"
      "t=1,v1=5257a869" (worldWithQuote "draft") = (Returned tt, w') /\
    statusOf "quote-1-abcdef" w' = Some "paid" /\
    countEvents (isPaidMark "quote-1-abcdef") (trace w') = 1%nat /\
    countEvents isConfirmation (trace w') = 1%nat /\
    countEvents (isCertificateStart "quote-1-abcdef") (trace w') = 1%nat.
Proof.
  split; [reflexivity|]. eexists. split; [vm_compute; reflexivity|].
  repeat split.
Qed.

Lemma fulfillment_failure_is_contained_witness :
  exists w',
    handleStripeWebhook stripeSignedBy pdfDownEnv "quote-1-abcdef"
      "t=1,v1=5257a869" (worldWithQuote "quoted") = (Returned tt, w') /\
    statusOf "quote-1-abcdef" w' = Some "paid" /\
    countEvents (isCertificateStart "quote-1-abcdef") (trace w')
      = S (countEvents (isCertificateStart "quote-1-abcdef")
             (trace (worldWithQuote "quoted"))) /\
    last (trace w')
      = Some (WhatsAppTextPost "250788000001" (PlainText certificateIssueText)).
Proof.
  refine (fulfillment_failure_is_contained stripeSignedBy pdfDownEnv
    "quote-1-abcdef" "t=1,v1=5257a869" "quote-1-abcdef" "250788000001"
    (worldWithQuote "quoted") (quoteInStatus "quoted") alice
    confirms_quote1 _ quoted_not_paid _ _ _ _).
  - reflexivity.
  - reflexivity.
  - reflexivity.
  - reflexivity.
  - left. reflexivity.
Defined.

(** ** The orchestrator and its tool branch *)

Section Orchestrator.

Variable StringToNumber : string -> float.

Local Abbreviation dispatch := (dispatchTool StringToNumber).
Local Abbreviation process := (processMessage StringToNumber).

(** Loading the user and the conversation touches neither the quotes, the
    products nor the trace. *)
Lemma findOrCreate_frame (env : Env) (wid : string) (w : World) :
  exists o w',
    findOrCreateUserAndConversation env wid w = (o, w') /\
    quotes w' = quotes w /\ trace w' = trace w /\
    insuranceProducts w' = insuranceProducts w.
Proof.
  unfold findOrCreateUserAndConversation. async_unfold.
  repeat (match goal with
          | |- context [if ?b then _ else _] => destruct b
          | |- context [match find ?p ?l with _ => _ end] => destruct (find p l)
          end; cbn); eauto 6.
Qed.

Lemma find_app_l {A} (p : A -> bool) (l1 l2 : list A) (r : A) :
  find p l1 = Some r -> find p (l1 ++ l2) = Some r.
Proof.
  induction l1 as [|x l1 IH]; [discriminate|]. cbn [find app].
  destruct (p x); auto.
Qed.

Lemma find_app_new {A} (p : A -> bool) (l : list A) (r : A) :
  p r = true -> exists r', find p (l ++ [r]) = Some r'.
Proof.
  intros Hr. induction l as [|x l IH]; cbn [find app].
  - rewrite Hr. eauto.
  - destruct (p x); eauto.
Qed.


Lemma injectDynamicInstructions_frame (env : Env)
    (h : list (option Content)) (message : string) (w : World) :
  (exists o, injectDynamicInstructions env h message w = (o, w)) /\
  (dbThrows env ProductFindUnique = false ->
   exists dynamicHistory,
     injectDynamicInstructions env h message w = (Returned dynamicHistory, w)).
Proof.
  unfold injectDynamicInstructions. async_unfold.
  destruct (_ && _); [|eauto].
  destruct (dbThrows env ProductFindUnique).
  - split; [eauto|discriminate].
  - destruct (find _ _); eauto.
Qed.

(** The payment-link branch for a product type that does not resolve: the
    branch throws, and no quote is written and nothing is recorded. *)
Lemma dispatch_unknown_product (env : Env) (user : User) (call : FunctionCall)
    (w : World) :
  call_name call = "generate_payment_link" ->
  find (ofType (args_insuranceType call)) (insuranceProducts w) = None ->
  exists message w',
    dispatch env user call w = (Thrown message, w') /\
    quotes w' = quotes w /\ trace w' = trace w.
Proof.
  intros Hname Hprod. unfold dispatchTool, updateUserFullName.
  rewrite decide_False by (rewrite Hname; discriminate).
  rewrite decide_True by exact Hname. async_unfold.
  destruct (dbThrows env UserUpdate); [eauto|].
  destruct (existsb _ _); [|eauto].
  destruct (dbThrows env ProductFindUnique); [eauto|].
  cbn [insuranceProducts setUsers]. rewrite Hprod. eauto.
Qed.

(** When the store serves the name update and the product lookup, the
    error thrown for an unknown product type is the one of the explicit
    [throw]. *)
Lemma dispatch_unknown_product_message (env : Env) (user : User)
    (call : FunctionCall) (w : World) :
  call_name call = "generate_payment_link" ->
  find (ofType (args_insuranceType call)) (insuranceProducts w) = None ->
  dbThrows env UserUpdate = false ->
  dbThrows env ProductFindUnique = false ->
  existsb (isUser (user_id user)) (users w) = true ->
  exists w',
    dispatch env user call w
    = (Thrown ("Product type " ++ args_insuranceType call ++ " not found."),
       w') /\
    quotes w' = quotes w /\ trace w' = trace w.
Proof.
  intros Hname Hprod Hupd Hfind Hex. unfold dispatchTool, updateUserFullName.
  rewrite decide_False by (rewrite Hname; discriminate).
  rewrite decide_True by exact Hname. async_unfold.
  rewrite Hupd, Hex, Hfind.
  cbn [insuranceProducts setUsers]. rewrite Hprod. eauto.
Qed.


(** C8, as the code has it. A payment-link call for a product type that
    does not resolve makes the tool branch throw, for every user and
    whatever the store does; when the store served the name update and the
    product lookup the error is "Product type <type> not found.".  The turn
    is aborted: no tool result goes back to the dialogue model, the user
    receives the generic retry message, and no quote is created. *)
Theorem unknown_product_aborts_turn (env : Env) (wid userMessage : string)
    (w : World) (response : ModelResponse) (call : FunctionCall)
    (calls : list FunctionCall) :
  firstTurn env = Some response ->
  functionCalls response = call :: calls ->
  call_name call = "generate_payment_link" ->
  find (ofType (args_insuranceType call)) (insuranceProducts w) = None ->
  (forall user, exists message w',
     dispatch env user call w = (Thrown message, w') /\
     quotes w' = quotes w) /\
  (forall user,
     dbThrows env UserUpdate = false ->
     dbThrows env ProductFindUnique = false ->
     existsb (isUser (user_id user)) (users w) = true ->
     exists w',
       dispatch env user call w
       = (Thrown ("Product type " ++ args_insuranceType call ++ " not found."),
          w') /\
       quotes w' = quotes w /\ trace w' = trace w) /\
  exists w',
    process env wid userMessage w = (Returned tt, w') /\
    quotes w' = quotes w /\
    countEvents isFunctionResponse (trace w')
      = countEvents isFunctionResponse (trace w) /\
    last (trace w')
      = Some (WhatsAppTextPost wid (PlainText unexpectedErrorText)).
Proof.
  intros Hfirst Hcalls Hname Hprod. split.
  { intros user.
    destruct (dispatch_unknown_product env user call w Hname Hprod)
      as (message & w' & Hrun & Hq & _). eauto. }
  split.
  { intros user Hupd Hfind Hex.
    exact (dispatch_unknown_product_message env user call w Hname Hprod
             Hupd Hfind Hex). }
  unfold processMessage, chatSendMessage, sendMessage. async_unfold.
  destruct (findOrCreate_frame env wid w) as (o1 & w1 & -> & Hq1 & Ht1 & Hp1).
  destruct o1 as [[user conversation]|m1]; async_step.
  2: { eexists. split; [reflexivity|]. cbn [quotes trace extend].
       rewrite Hq1, Ht1, count_app, last_snoc. cbn. auto with arith. }
  destruct (injectDynamicInstructions_frame env (history conversation)
              userMessage w1) as [[o2 ->] _].
  destruct o2 as [dynamicHistory|m2]; async_step.
  2: { eexists. split; [reflexivity|]. cbn [quotes trace extend].
       rewrite Hq1, Ht1, count_app, last_snoc. cbn. auto with arith. }
  rewrite Hfirst. async_step. rewrite Hcalls. async_step.
  match goal with
  | |- context [dispatchTool StringToNumber env user call ?w0] =>
      destruct (dispatch_unknown_product env user call w0 Hname)
        as (message & w3 & -> & Hq3 & Ht3)
  end.
  { cbn [insuranceProducts extend]. now rewrite Hp1. }
  async_step. eexists. split; [reflexivity|]. cbn [quotes trace extend].
  rewrite Hq3, Ht3. cbn [quotes trace extend]. rewrite Hq1, Ht1.
  rewrite !count_app, last_snoc. cbn. split; [reflexivity|]. split; [lia|].
  reflexivity.
Qed.


End Orchestrator.

Lemma unknown_product_aborts_turn_witness :
  (exists w',
     dispatchTool nanOnStrings travelLinkEnv alice travelLinkCall
       (worldWithQuote "quoted")
     = (Thrown "Product type travel not found.", w') /\
     quotes w' = quotes (worldWithQuote "quoted")) /\
  exists w',
    processMessage nanOnStrings travelLinkEnv "250788000001"
      "Please send me the payment link" (worldWithQuote "quoted")
    = (Returned tt, w') /\
    quotes w' = quotes (worldWithQuote "quoted") /\
    countEvents isFunctionResponse (trace w')
      = countEvents isFunctionResponse (trace (worldWithQuote "quoted")) /\
    last (trace w')
      = Some (WhatsAppTextPost "250788000001" (PlainText unexpectedErrorText)).
Proof.
  destruct
    (unknown_product_aborts_turn nanOnStrings travelLinkEnv "250788000001"
       "Please send me the payment link" (worldWithQuote "quoted")
       {| response_text := ""; functionCalls := [travelLinkCall] |}
       travelLinkCall [] eq_refl eq_refl eq_refl eq_refl)
    as (_ & Hexact & Hrun).
  split; [|exact Hrun].
  destruct (Hexact alice eq_refl eq_refl eq_refl) as (w' & Hd & Hq & _).
  exists w'. split; [exact Hd|exact Hq].
Defined.

(** C8 as stated fails: for a product type that is not in the catalog the
    payment-link branch returns no result at all, it throws; the dialogue
    model is never given a tool result and the turn ends with the generic
    retry message. *)
Lemma unknown_product_is_thrown :
  fst (dispatchTool nanOnStrings travelLinkEnv alice travelLinkCall
         (worldWithQuote "quoted"))
  = Thrown "Product type travel not found." /\
  (forall result w',
     dispatchTool nanOnStrings travelLinkEnv alice travelLinkCall
       (worldWithQuote "quoted") <> (Returned result, w')) /\
  trace (snd (processMessage nanOnStrings travelLinkEnv "250788000001"
                "Please send me the payment link" (worldWithQuote "quoted")))
  = [ ModelMessage [] "Please send me the payment link";
      WhatsAppTextPost "250788000001" (PlainText unexpectedErrorText) ].
Proof.
  split; [vm_compute; reflexivity|]. split.
  - intros result w' H. apply (f_equal fst) in H.
    vm_compute in H. discriminate H.
  - vm_compute. reflexivity.
Qed.


(** ** Further properties of the rule engine *)

Section RuleEngineMore.

Variable StringToNumber : string -> float.

(** When none of the factors' keys is an own property of the fact object
    or the name of a member inherited from [Object.prototype], the premium
    is the rounded base rate. *)
Theorem no_fact_no_surcharge (baseRate : float)
    (factors : list PricingFactor) (facts : gmap string JS.Prim) :
  Forall (fun f => facts !! key f = None /\ JS.inherited (key f) = None)
    factors ->
  evaluate StringToNumber baseRate factors facts = JS.Math_round baseRate.
Proof.
  intros Hall. unfold evaluate. f_equal.
  revert baseRate. induction Hall as [|f fs [Hf Hi] _ IH]; intros baseRate.
  - reflexivity.
  - cbn [fold_left].
    rewrite (applyFactor_absent StringToNumber facts _ f Hf Hi).
    apply IH.
Qed.

(** One turn of the loop only reads the fact stored under the factor's key. *)
Lemma applyFactor_insert_other (facts : gmap string JS.Prim) (k : string)
    (v : JS.Prim) (total : float) (f : PricingFactor) :
  key f <> k ->
  applyFactor StringToNumber (<[k := v]> facts) total f
  = applyFactor StringToNumber facts total f.
Proof.
  intros Hk. unfold applyFactor, JS.Get.
  now rewrite lookup_insert_ne by congruence.
Qed.

(** A fact that no factor refers to does not change the premium, whatever
    its value. *)
Theorem unreferenced_fact_ignored (baseRate : float)
    (factors : list PricingFactor) (facts : gmap string JS.Prim)
    (k : string) (v : JS.Prim) :
  Forall (fun f => key f <> k) factors ->
  evaluate StringToNumber baseRate factors (<[k := v]> facts)
  = evaluate StringToNumber baseRate factors facts.
Proof.
  intros Hall. unfold evaluate. f_equal.
  revert baseRate. induction Hall as [|f fs Hf _ IH]; intros baseRate.
  - reflexivity.
  - cbn [fold_left]. rewrite applyFactor_insert_other by exact Hf. apply IH.
Qed.

(** The loop composes: the premium of a rule set is obtained by running the
    later factors on the unrounded total of the earlier ones. *)
Theorem evaluate_app (baseRate : float) (earlier later : list PricingFactor)
    (facts : gmap string JS.Prim) :
  evaluate StringToNumber baseRate (earlier ++ later) facts
  = evaluate StringToNumber
      (fold_left (applyFactor StringToNumber facts) earlier baseRate)
      later facts.
Proof. unfold evaluate. now rewrite fold_left_app. Qed.

(** [calculatePremium] resolves on every input and writes nothing; when the
    product lookup rejects, the result is the error of the [catch] block. *)
Theorem calculatePremium_never_rejects (env : Env) (input : PremiumInput)
    (w : World) :
  (exists r, calculatePremium StringToNumber env input w = (Returned r, w)) /\
  (dbThrows env ProductFindUnique = true ->
   calculatePremium StringToNumber env input w
   = (Returned (PremiumError
        "An unexpected error occurred during premium calculation."), w)).
Proof.
  split.
  - unfold calculatePremium. async_unfold.
    destruct (dbThrows env ProductFindUnique); [eauto|].
    destruct (find _ _) as [p|]; [|eauto].
    destruct (isActive p); simpl; [|eauto].
    destruct (pricingRules p) as [|[| |n] [| |fs]]; eauto.
  - intros Hdb. unfold calculatePremium. async_unfold. now rewrite Hdb.
Qed.

End RuleEngineMore.

(** ** Further properties of the payment-confirmation handler *)

Lemma find_updateFirst_other {A} (p p' : A -> bool) (f : A -> A)
    (rows : list A) :
  (forall r, p r = true -> p' r = false /\ p' (f r) = false) ->
  find p' (updateFirst p f rows) = find p' rows.
Proof.
  intros Hp. induction rows as [|r rows IH]; [reflexivity|].
  cbn [updateFirst]. destruct (p r) eqn:E; cbn [find].
  - destruct (Hp r E) as [-> ->]. reflexivity.
  - destruct (p' r); [reflexivity|exact IH].
Qed.

Lemma length_updateFirst {A} (p : A -> bool) (f : A -> A) (rows : list A) :
  length (updateFirst p f rows) = length rows.
Proof.
  induction rows as [|r rows IH]; [reflexivity|].
  cbn [updateFirst]. destruct (p r); cbn [length]; congruence.
Qed.

Lemma truthy_Some (s : option string) (t : string) :
  truthy s = Some t -> s = Some t /\ t <> "".
Proof.
  destruct s as [[|c s']|]; cbn; [discriminate| |discriminate].
  intros [= <-]. split; [reflexivity|discriminate].
Qed.

Section WebhookMore.

Variable constructEvent : string -> string -> option StripeEvent.

Local Abbreviation handle' := (handleStripeWebhook constructEvent).
Local Abbreviation confirmed' := (confirms constructEvent).

(** A verified event of another type, or a completed checkout without a
    quote identifier in its metadata (absent or empty), is acknowledged
    and nothing is read from or written to the store. *)
Theorem unrelated_event_acknowledged (env : Env) (rawBody sig : string)
    (event : StripeEvent) (w : World) :
  constructEvent rawBody sig = Some event ->
  event_type event <> "checkout.session.completed" \/
  truthy (metadata_quoteId event) = None ->
  handle' env rawBody sig w = (Returned tt, w) /\
  (sig <> "" ->
   stripeWebhookHandler constructEvent env (Some sig) (Some rawBody) w
   = ({| statusCode := 200; sent := JsonReceived |}, w)).
Proof.
  intros Hev Hother.
  assert (Hrun : handle' env rawBody sig w = (Returned tt, w)).
  { unfold handleStripeWebhook. rewrite Hev.
    destruct (decide _) as [Hty|Hty]; [|reflexivity].
    destruct Hother as [Hne|Hnone]; [contradiction|]. now rewrite Hnone. }
  split; [exact Hrun|]. intros Hsig.
  unfold stripeWebhookHandler. destruct sig as [|c sig']; [contradiction|].
  cbn [truthy]. now rewrite Hrun.
Qed.

(** A storage fault on the read of the quote or on the write of its status
    surfaces as "Processing error for quote <id>." and as a 400 of the
    controller; nothing has been written and nothing sent, so the gateway
    may deliver the event again. *)
Theorem storage_fault_is_reported (env : Env) (rawBody sig qid : string)
    (w : World) (q : Quote) (u : User) :
  confirmed' rawBody sig qid ->
  quoteWithUser qid w = Some (q, Some u) ->
  status q <> "paid" ->
  dbThrows env QuoteFindUnique = true \/ dbThrows env QuoteUpdate = true ->
  sig <> "" ->
  handle' env rawBody sig w
  = (Thrown ("Processing error for quote " ++ qid ++ "."), w) /\
  stripeWebhookHandler constructEvent env (Some sig) (Some rawBody) w
  = ({| statusCode := 400;
        sent := Text ("Webhook Error: " ++
                      ("Processing error for quote " ++ qid ++ ".")) |}, w).
Proof.
  intros Hc Hq Hst Hfault Hsig.
  pose proof (handle_fault constructEvent env rawBody sig qid w q u
                Hc Hq Hst Hfault) as Hrun.
  split; [exact Hrun|].
  unfold stripeWebhookHandler. destruct sig as [|c sig']; [contradiction|].
  cbn [truthy]. now rewrite Hrun.
Qed.

(** For a user without a messaging address the payment is recorded and
    nothing else happens: no message, no certificate. *)
Theorem paid_without_address (env : Env) (rawBody sig qid : string)
    (w : World) (q : Quote) (u : User) :
  confirmed' rawBody sig qid ->
  quoteWithUser qid w = Some (q, Some u) ->
  status q <> "paid" ->
  truthy (whatsappId u) = None ->
  dbThrows env QuoteFindUnique = false ->
  dbThrows env QuoteUpdate = false ->
  exists w',
    handle' env rawBody sig w = (Returned tt, w') /\
    statusOf qid w' = Some "paid" /\
    trace w' = (trace w ++ [QuoteMarkedPaid qid])%list.
Proof.
  intros Hc Hq Hst Hwid Hfind Hupd.
  destruct (handle_transition constructEvent env rawBody sig qid w q u
              Hc Hq Hst Hfind Hupd)
    as (deliveries & w' & Hrun & Hquotes & Htrace & _).
  destruct (quoteWithUser_found _ _ _ _ Hq) as [Hrow _].
  exists w'. split; [exact Hrun|].
  split; [exact (statusOf_paid qid w w' q Hrow Hquotes)|].
  rewrite Htrace. unfold paidNotifications. now rewrite Hwid.
Qed.

(** What a run of the handler can do to the quotes. *)
Lemma handle_quotes (env : Env) (rawBody sig : string) (w w' : World)
    (o : Outcome unit) :
  handle' env rawBody sig w = (o, w') ->
  quotes w' = quotes w \/
  exists qid,
    confirmed' rawBody sig qid /\
    quotes w' = updateFirst (hasId qid) (withStatus "paid") (quotes w).
Proof.
  intros Hrun.
  destruct (payable_or_settled constructEvent rawBody sig w)
    as [(qid & q & u & Hc & Hq & Hst) | Hsettled].
  - destruct (dbThrows env QuoteFindUnique) eqn:Hfind.
    { rewrite (handle_fault constructEvent env _ _ qid w q u) in Hrun by auto.
      left. now injection Hrun as _ <-. }
    destruct (dbThrows env QuoteUpdate) eqn:Hupd.
    { rewrite (handle_fault constructEvent env _ _ qid w q u) in Hrun by auto.
      left. now injection Hrun as _ <-. }
    destruct (handle_transition constructEvent env rawBody sig qid w q u
                Hc Hq Hst Hfind Hupd)
      as (deliveries & w1 & Hrun1 & Hquotes & _).
    rewrite Hrun1 in Hrun. injection Hrun as _ <-. right. eauto.
  - destruct (handle_settled constructEvent env rawBody sig w Hsettled)
      as [o' Hrun'].
    rewrite Hrun' in Hrun. left. now injection Hrun as _ <-.
Qed.

Lemma hasId_withStatus (i st : string) (q : Quote) :
  hasId i (withStatus st q) = hasId i q.
Proof. reflexivity. Qed.

(** Whatever the event and whatever the collaborators answer, the handler
    neither creates nor deletes a quote, never takes a quote out of the
    paid status, and leaves every quote other than the confirmed one exactly
    as it was. *)
Theorem handler_preserves_quotes (env : Env) (rawBody sig : string)
    (w w' : World) (o : Outcome unit) :
  handle' env rawBody sig w = (o, w') ->
  length (quotes w') = length (quotes w) /\
  (forall qid, statusOf qid w = Some "paid" -> statusOf qid w' = Some "paid") /\
  (forall qid,
     ~ confirmed' rawBody sig qid ->
     find (hasId qid) (quotes w') = find (hasId qid) (quotes w)).
Proof.
  intros Hrun.
  destruct (handle_quotes env rawBody sig w w' o Hrun)
    as [Hq | (qid & Hc & Hq)]; unfold statusOf; rewrite Hq.
  { auto. }
  split; [apply length_updateFirst|]. split.
  - intros qid' Hpaid. destruct (decide (qid' = qid)) as [->|Hne].
    + rewrite find_updateFirst by (intros r Hr; exact Hr).
      destruct (find (hasId qid) (quotes w)); [reflexivity|discriminate].
    + rewrite find_updateFirst_other; [exact Hpaid|].
      intros r Hr. rewrite hasId_withStatus. unfold hasId in *.
      apply bool_decide_eq_true in Hr.
      rewrite bool_decide_eq_false_2 by congruence. auto.
  - intros qid' Hnot. apply find_updateFirst_other.
    intros r Hr. rewrite hasId_withStatus. unfold hasId in *.
    apply bool_decide_eq_true in Hr.
    assert (qid' <> qid) by (intros ->; contradiction).
    rewrite bool_decide_eq_false_2 by congruence. auto.
Qed.

(** The controller answers 200 or 400, and 200 only for an event whose
    signature verified; without the signature header or without a body it
    answers 400 and the service is not called. *)
Theorem controller_status (env : Env) (sig body : option string)
    (w w' : World) (response : HttpResponse) :
  stripeWebhookHandler constructEvent env sig body w = (response, w') ->
  (statusCode response = 200 \/ statusCode response = 400) /\
  (statusCode response = 200 ->
   exists s b event,
     sig = Some s /\ body = Some b /\ constructEvent b s = Some event) /\
  (truthy sig = None \/ body = None ->
   statusCode response = 400 /\ w' = w).
Proof.
  unfold stripeWebhookHandler. intros Hrun.
  destruct (truthy sig) as [s|] eqn:Hsig.
  2: { injection Hrun as <- <-. cbn. repeat split; auto; discriminate. }
  destruct body as [b|].
  2: { injection Hrun as <- <-. cbn. repeat split; auto; discriminate. }
  apply truthy_Some in Hsig as [-> _].
  destruct (handle' env b s w) as [[[]|message] w1] eqn:Hh;
    injection Hrun as <- <-; cbn.
  - split; [auto|]. split.
    + intros _. destruct (constructEvent b s) as [event|] eqn:Hev;
        [exists s, b, event; auto|].
      unfold handleStripeWebhook in Hh. rewrite Hev in Hh. discriminate Hh.
    + intros [H|H]; discriminate H.
  - split; [auto|]. split; [discriminate|]. intros [H|H]; discriminate H.
Qed.

(** For a user that is already in the table, recording a system note
    leaves the users, the quotes and the trace as they are. *)
Lemma addSystemMessage_known_user (env : Env) (wid text : string)
    (w : World) :
  existsb (hasWhatsappId wid) (users w) = true ->
  exists w1,
    addSystemMessageToConversation env wid text w = (Returned tt, w1) /\
    quotes w1 = quotes w /\ users w1 = users w /\ trace w1 = trace w.
Proof.
  intros Hex. apply existsb_find in Hex as [u Hu].
  unfold addSystemMessageToConversation, findOrCreateUserAndConversation,
    updateConversationHistory.
  async_unfold.
  destruct (dbThrows env UserFindUnique); cbn; [eauto|]. rewrite Hu. cbn.
  repeat (match goal with
          | |- context [if ?b then _ else _] => destruct b
          | |- context [match find ?p ?l with _ => _ end] => destruct (find p l)
          end; cbn); eauto.
Qed.

(** The URL handed to [sendDocument]: the uploaded one, or the temporary
    one of the PDF service when the download for the upload failed. *)
Lemma deliverCertificate_success (env : Env) (wid tmp : string) (q q' : Quote)
    (u' : User) (w : World) :
  dbThrows env QuoteFindUnique = false ->
  quoteWithUser (quote_id q) w = Some (q', Some u') ->
  pdfApi env = Some tmp ->
  cloudinary env <> UploadRejected ->
  documentPostFails env = false ->
  deliverCertificate env wid q w
  = (Returned tt,
     extend w
       [ CertificateGenerationStarted (quote_id q);
         WhatsAppDocumentPost wid
           (match cloudinary env with Uploaded url => url | _ => tmp end)
           "Here is your official Insurance Certificate."
           ("Insurance-Certificate-" ++ String.substring 0 8 (quote_id q) ++
            ".pdf") ]).
Proof.
  intros Hfind Hq Hpdf Hup Hpost.
  unfold deliverCertificate, generateAndUploadCertificate, sendDocument.
  async_unfold. rewrite Hfind, Hpdf, Hpost.
  assert (Hq' : quoteWithUser (quote_id q)
                  (extend w [CertificateGenerationStarted (quote_id q)])
                = Some (q', Some u')) by exact Hq.
  rewrite Hq'.
  destruct (cloudinary env) as [| |url]; [|contradiction|];
    async_step; now rewrite extend_extend.
Qed.

(** When the PDF is produced, the upload is not refused and the document
    post goes through, a confirmed payment is followed by exactly the
    confirmation text and the certificate document, and no apology; if only
    the download for the upload failed, the document carries the temporary
    URL of the PDF service. *)
Theorem certificate_is_delivered (env : Env) (rawBody sig qid wid tmp : string)
    (w : World) (q : Quote) (u : User) :
  confirmed' rawBody sig qid ->
  quoteWithUser qid w = Some (q, Some u) ->
  status q <> "paid" ->
  truthy (whatsappId u) = Some wid ->
  dbThrows env QuoteFindUnique = false ->
  dbThrows env QuoteUpdate = false ->
  pdfApi env = Some tmp ->
  cloudinary env <> UploadRejected ->
  documentPostFails env = false ->
  exists w',
    handle' env rawBody sig w = (Returned tt, w') /\
    statusOf qid w' = Some "paid" /\
    trace w' =
      (trace w ++
       [ QuoteMarkedPaid qid;
         WhatsAppTextPost wid
           (PaymentSuccessText
              (match truthy (fullName u) with Some n => n | None => "there" end)
              (quote_premium q) (String.substring 0 8 qid));
         CertificateGenerationStarted qid;
         WhatsAppDocumentPost wid
           (match cloudinary env with Uploaded url => url | _ => tmp end)
           "Here is your official Insurance Certificate."
           ("Insurance-Certificate-" ++ String.substring 0 8 qid ++ ".pdf") ])%list.
Proof.
  intros (event & Hev & Hty & Hqid) Hq Hst Hwid Hfind Hupd Hpdf Hup Hpost.
  destruct (quoteWithUser_found _ _ _ _ Hq) as [Hrow Hid].
  assert (Huser : find (isUser (quote_userId q)) (users w) = Some u).
  { unfold quoteWithUser in Hq. rewrite Hrow in Hq. now injection Hq. }
  assert (Hknown : existsb (hasWhatsappId wid) (users w) = true).
  { apply (find_existsb_other _ _ _ u Huser). unfold hasWhatsappId.
    apply bool_decide_eq_true. now apply truthy_Some in Hwid as [-> _]. }
  unfold handleStripeWebhook, updateQuoteStatus, sendMessage.
  rewrite Hev, Hqid. rewrite decide_True by exact Hty.
  async_unfold. rewrite Hfind, Hupd, Hq. rewrite decide_False by exact Hst.
  assert (Hex : existsb (hasId qid) (quotes w) = true)
    by (apply existsb_find; eauto).
  rewrite Hex. async_step. rewrite Hwid. async_step.
  match goal with
  | |- context [addSystemMessageToConversation env wid ?t ?w0] =>
      destruct (addSystemMessage_known_user env wid t w0 Hknown)
        as (w3 & -> & Hq3 & Hu3 & Ht3)
  end.
  assert (Hq3' : quoteWithUser (quote_id q) w3
                 = Some (withStatus "paid" q, Some u)).
  { unfold quoteWithUser. rewrite Hq3, Hu3. cbn [quotes users extend setQuotes].
    rewrite Hid. rewrite find_updateFirst by (intros r Hr; exact Hr).
    rewrite Hrow. cbn. now rewrite Huser. }
  rewrite (deliverCertificate_success env wid tmp q _ u w3 Hfind Hq3' Hpdf
             Hup Hpost).
  eexists. split; [reflexivity|]. split.
  - unfold statusOf. cbn [quotes extend]. rewrite Hq3.
    cbn [quotes extend setQuotes].
    rewrite find_updateFirst by (intros r Hr; exact Hr). now rewrite Hrow.
  - cbn [trace extend]. rewrite Ht3. cbn [trace extend setQuotes].
    rewrite Hid. rewrite <- !app_assoc. reflexivity.
Qed.

End WebhookMore.

(** ** Further properties of the conversation store and the tool branch *)

Lemma find_app_none {A} (p : A -> bool) (l : list A) (x : A) :
  find p l = None -> find p (l ++ [x]) = if p x then Some x else None.
Proof.
  induction l as [|y l IH]; cbn [find app]; [reflexivity|].
  destruct (p y); [discriminate|exact IH].
Qed.

Lemma serves_cons (env : Env) (op : StorageOp) (ops : list StorageOp) :
  serves env (op :: ops) <-> dbThrows env op = false /\ serves env ops.
Proof.
  unfold serves. split.
  - intros H. inversion H; auto.
  - intros [? ?]. constructor; auto.
Qed.

Section AgentMore.

Variable StringToNumber : string -> float.

Local Abbreviation dispatch' := (dispatchTool StringToNumber).
Local Abbreviation process' := (processMessage StringToNumber).

(** The rows that a load adds. *)
Lemma findOrCreate_append_only (env : Env) (wid : string) (w w1 : World)
    (o : Outcome (User * Conversation)) :
  findOrCreateUserAndConversation env wid w = (o, w1) ->
  exists newUsers newConversations,
    users w1 = (users w ++ newUsers)%list /\
    conversations w1 = (conversations w ++ newConversations)%list /\
    (length newUsers <= 1)%nat /\ (length newConversations <= 1)%nat /\
    (existsb (hasWhatsappId wid) (users w) = true -> newUsers = []) /\
    quotes w1 = quotes w /\ insuranceProducts w1 = insuranceProducts w /\
    trace w1 = trace w.
Proof.
  unfold findOrCreateUserAndConversation. async_unfold.
  destruct (existsb (hasWhatsappId wid) (users w)) eqn:Hex.
  - apply existsb_find in Hex as [u Hu].
    destruct (dbThrows env UserFindUnique); cbn.
    { intros [= <- <-]. exists [], []. rewrite !app_nil_r. cbn. auto 10. }
    rewrite Hu. cbn.
    destruct (dbThrows env ConversationFindUnique); cbn.
    { intros [= <- <-]. exists [], []. rewrite !app_nil_r. cbn. auto 10. }
    destruct (find (ofUser (user_id u)) (conversations w)); cbn.
    { intros [= <- <-]. exists [], []. rewrite !app_nil_r. cbn. auto 10. }
    destruct (dbThrows env ConversationCreate); cbn; intros [= <- <-].
    + exists [], []. rewrite !app_nil_r. cbn. auto 10.
    + eexists [], [_]. rewrite !app_nil_r. cbn. auto 10.
  - destruct (dbThrows env UserFindUnique); cbn.
    { intros [= <- <-]. exists [], []. rewrite !app_nil_r. cbn. auto 10. }
    destruct (find (hasWhatsappId wid) (users w)); cbn.
    + destruct (dbThrows env ConversationFindUnique); cbn.
      { intros [= <- <-]. exists [], []. rewrite !app_nil_r. cbn. auto 10. }
      destruct (find _ (conversations w)); cbn.
      { intros [= <- <-]. exists [], []. rewrite !app_nil_r. cbn. auto 10. }
      destruct (dbThrows env ConversationCreate); cbn; intros [= <- <-].
      * exists [], []. rewrite !app_nil_r. cbn. auto 10.
      * eexists [], [_]. rewrite !app_nil_r. cbn. auto 10.
    + destruct (dbThrows env UserCreate); cbn.
      { intros [= <- <-]. exists [], []. rewrite !app_nil_r. cbn.
        repeat split; auto; discriminate. }
      destruct (dbThrows env ConversationFindUnique); cbn.
      { intros [= <- <-]. eexists [_], []. rewrite !app_nil_r. cbn.
        repeat split; auto; discriminate. }
      destruct (find _ (conversations w)); cbn.
      { intros [= <- <-]. eexists [_], []. rewrite !app_nil_r. cbn.
        repeat split; auto; discriminate. }
      destruct (dbThrows env ConversationCreate); cbn; intros [= <- <-].
      * eexists [_], []. rewrite !app_nil_r. cbn.
        repeat split; auto; discriminate.
      * eexists [_], [_]. cbn. repeat split; auto; discriminate.
Qed.

(** Loading the user and the conversation only ever appends: at most one
    user row and at most one conversation row, also when the store fails
    midway; the quotes, the products and the trace are not touched. *)
Theorem findOrCreate_appends (env : Env) (wid : string) (w w1 : World)
    (o : Outcome (User * Conversation)) :
  findOrCreateUserAndConversation env wid w = (o, w1) ->
  exists newUsers newConversations,
    users w1 = (users w ++ newUsers)%list /\
    conversations w1 = (conversations w ++ newConversations)%list /\
    (length newUsers <= 1)%nat /\ (length newConversations <= 1)%nat /\
    (existsb (hasWhatsappId wid) (users w) = true -> newUsers = []) /\
    quotes w1 = quotes w /\ insuranceProducts w1 = insuranceProducts w /\
    trace w1 = trace w.
Proof.
  intros Hrun.
  destruct (findOrCreate_append_only env wid w w1 o Hrun)
    as (newUsers & newConversations & Hrows).
  exists newUsers, newConversations. exact Hrows.
Qed.

(** What a served load returns and leaves behind: the same pair is found
    by the next load. *)
Lemma findOrCreate_rows (env : Env) (wid : string) (w : World) :
  serves env [UserFindUnique; UserCreate; ConversationFindUnique;
              ConversationCreate] ->
  exists conversation w1,
    findOrCreateUserAndConversation env wid w
    = (Returned (sessionUser env wid w, conversation), w1) /\
    find (hasWhatsappId wid) (users w1) = Some (sessionUser env wid w) /\
    find (ofUser (user_id (sessionUser env wid w))) (conversations w1)
    = Some conversation /\
    quotes w1 = quotes w /\ insuranceProducts w1 = insuranceProducts w /\
    trace w1 = trace w.
Proof.
  intros Hs. repeat (apply serves_cons in Hs as [? Hs]).
  unfold findOrCreateUserAndConversation, sessionUser. async_unfold.
  repeat match goal with H : dbThrows env _ = false |- _ => rewrite H; clear H end.
  destruct (find (hasWhatsappId wid) (users w)) as [u|] eqn:Hu; cbn.
  - destruct (find (ofUser (user_id u)) (conversations w)) as [c|] eqn:Hc; cbn.
    + eexists. eexists. split; [reflexivity|]. auto 10.
    + eexists. eexists. split; [reflexivity|]. cbn.
      rewrite (find_app_none _ _ _ Hc). unfold ofUser. cbn.
      rewrite bool_decide_eq_true_2 by reflexivity. auto 10.
  - destruct (find (ofUser (newId env UserCreate)) (conversations w))
      as [c|] eqn:Hc; cbn.
    + eexists. eexists. split; [reflexivity|]. cbn.
      rewrite (find_app_none _ _ _ Hu). unfold hasWhatsappId. cbn.
      rewrite bool_decide_eq_true_2 by reflexivity. auto 10.
    + eexists. eexists. split; [reflexivity|]. cbn.
      rewrite (find_app_none _ _ _ Hu), (find_app_none _ _ _ Hc).
      unfold hasWhatsappId, ofUser. cbn.
      rewrite !bool_decide_eq_true_2 by reflexivity. auto 10.
Qed.

(** Loading is idempotent: after a served load for a messaging address,
    loading again for the same address returns the same user and the same
    conversation and writes nothing, so that there is one user and one
    conversation per address. *)
Theorem findOrCreate_idempotent (env env' : Env) (wid : string)
    (w w1 : World) (o : Outcome (User * Conversation)) :
  serves env [UserFindUnique; UserCreate; ConversationFindUnique;
              ConversationCreate] ->
  serves env' [UserFindUnique; ConversationFindUnique] ->
  findOrCreateUserAndConversation env wid w = (o, w1) ->
  findOrCreateUserAndConversation env' wid w1 = (o, w1).
Proof.
  intros Hs Hs' Hrun.
  destruct (findOrCreate_rows env wid w Hs)
    as (c & w1' & Hrun' & Hu & Hc & _).
  rewrite Hrun' in Hrun. injection Hrun as <- <-.
  repeat (apply serves_cons in Hs' as [? Hs']).
  unfold findOrCreateUserAndConversation. async_unfold.
  repeat match goal with H : dbThrows env' _ = false |- _ => rewrite H; clear H end.
  rewrite Hu. cbn. now rewrite Hc.
Qed.

(** A system note is appended to the end of the user's conversation: when
    the store serves, the conversation row holds the previous history
    followed by one entry of role model whose only part is the text
    "(System Note: <text>)", and nothing is thrown, posted or written to
    the quotes. *)
Theorem system_note_is_appended (env : Env) (wid systemText : string)
    (w : World) :
  serves env [UserFindUnique; UserCreate; ConversationFindUnique;
              ConversationCreate; ConversationUpdate] ->
  exists conversation w',
    addSystemMessageToConversation env wid systemText w = (Returned tt, w') /\
    history <$> find (isConversation (conversation_id conversation))
                  (conversations w')
    = Some (history conversation ++
            [Some {| content_role := "model";
                     parts := [TextPart ("(System Note: " ++ systemText
                                         ++ ")")] |}])%list /\
    (forall c, find (ofUser (user_id (sessionUser env wid w)))
                 (conversations w) = Some c -> conversation = c) /\
    (find (ofUser (user_id (sessionUser env wid w))) (conversations w) = None ->
     history conversation = []) /\
    quotes w' = quotes w /\ trace w' = trace w.
Proof.
  intros Hs.
  assert (Hs4 : serves env [UserFindUnique; UserCreate;
                            ConversationFindUnique; ConversationCreate]).
  { repeat (apply serves_cons in Hs as [? Hs]).
    repeat (apply serves_cons; split; [assumption|]). exact Hs. }
  assert (Hupd : dbThrows env ConversationUpdate = false).
  { repeat (apply serves_cons in Hs as [? Hs]). assumption. }
  unfold addSystemMessageToConversation, updateConversationHistory.
  async_unfold.
  (* the load, case by case, to learn where the conversation comes from *)
  assert (Hload : exists conversation w1,
    findOrCreateUserAndConversation env wid w
    = (Returned (sessionUser env wid w, conversation), w1) /\
    find (ofUser (user_id (sessionUser env wid w))) (conversations w1)
    = Some conversation /\
    (forall c, find (ofUser (user_id (sessionUser env wid w)))
                 (conversations w) = Some c -> conversation = c) /\
    (find (ofUser (user_id (sessionUser env wid w))) (conversations w) = None ->
     history conversation = []) /\
    quotes w1 = quotes w /\ trace w1 = trace w).
  { destruct (findOrCreate_rows env wid w Hs4)
      as (c & w1 & Hrun & _ & Hc & Hq & _ & Ht).
    exists c, w1. split; [exact Hrun|]. split; [exact Hc|].
    destruct (findOrCreate_append_only env wid w w1 _ Hrun)
      as (us & cs & _ & Hcs & _ & _ & _).
    split; [|split; [|auto]].
    - intros c' Hc'. rewrite Hcs in Hc.
      rewrite (find_app_l _ _ cs c' Hc') in Hc. now injection Hc.
    - intros Hnone.
      repeat (apply serves_cons in Hs4 as [? Hs4]).
      revert Hrun. unfold findOrCreateUserAndConversation, sessionUser.
      async_unfold.
      repeat match goal with
             | H : dbThrows env _ = false |- _ => rewrite H; clear H
             end.
      unfold sessionUser in Hnone.
      destruct (find (hasWhatsappId wid) (users w)) as [u|]; cbn;
        cbn in Hnone; rewrite Hnone; cbn; now intros [= <- _]. }
  destruct Hload as (c & w1 & -> & Hc & Hold & Hnew & Hq & Ht).
  async_step. rewrite Hupd.
  assert (Hex : existsb (isConversation (conversation_id c))
                  (conversations w1) = true).
  { apply (find_existsb_other _ _ _ c Hc). unfold isConversation.
    now apply bool_decide_eq_true. }
  rewrite Hex. async_step.
  exists c. eexists. split; [reflexivity|].
  cbn [conversations quotes trace setConversations].
  rewrite find_updateFirst by (intros r Hr; exact Hr).
  apply existsb_find in Hex as [c0 ->]. cbn. auto 10.
Qed.

(** [injectDynamicInstructions] returns the history as it is, without a
    read, when the history has more than two entries or the message names
    neither "motor" nor "car"; and also when it reads and there is no
    motor product. *)
Theorem injection_skipped (env : Env) (h : list (option Content))
    (userMessage : string) (w : World) :
  (2 < length h)%nat \/
  (includes (toLowerCase userMessage) "motor" = false /\
   includes (toLowerCase userMessage) "car" = false) \/
  (dbThrows env ProductFindUnique = false /\
   find (ofType "motor") (insuranceProducts w) = None) ->
  injectDynamicInstructions env h userMessage w = (Returned h, w).
Proof.
  unfold injectDynamicInstructions. async_unfold.
  intros [Hlen | [[Hm Hc] | [Hdb Hnone]]].
  - replace (length h <=? 2)%nat with false; [reflexivity|].
    symmetry. apply Nat.leb_gt. exact Hlen.
  - rewrite Hm, Hc. now rewrite andb_false_r.
  - destruct (_ && _); [|reflexivity]. now rewrite Hdb, Hnone.
Qed.

(** When the instruction is injected it takes the second place and the
    entries of the history keep their order around it; for the empty
    history of a new conversation the first place is filled with
    [undefined]. *)
Theorem injection_shape (env : Env) (h : list (option Content))
    (userMessage : string) (w : World) (motor : InsuranceProduct) :
  (length h <= 2)%nat ->
  includes (toLowerCase userMessage) "motor" = true \/
  includes (toLowerCase userMessage) "car" = true ->
  dbThrows env ProductFindUnique = false ->
  find (ofType "motor") (insuranceProducts w) = Some motor ->
  let instruction :=
    {| content_role := "model";
       parts := [InstructionPart (requiredInputs motor)] |} in
  exists injected,
    injectDynamicInstructions env h userMessage w = (Returned injected, w) /\
    injected !! 1%nat = Some (Some instruction) /\
    (h = [] -> injected = [None; Some instruction]) /\
    (h <> [] -> delete 1%nat injected = h /\ length injected = S (length h)).
Proof.
  intros Hlen Hkey Hdb Hmotor instruction.
  unfold injectDynamicInstructions. async_unfold.
  replace (length h <=? 2)%nat with true
    by (symmetry; now apply Nat.leb_le).
  replace (includes (toLowerCase userMessage) "motor"
           || includes (toLowerCase userMessage) "car") with true
    by (symmetry; apply orb_true_iff; exact Hkey).
  cbn [andb]. rewrite Hdb, Hmotor.
  eexists. split; [reflexivity|]. split; [reflexivity|].
  split.
  - intros ->. reflexivity.
  - intros Hne. destruct h as [|x rest]; [contradiction|]. split; reflexivity.
Qed.

(** The premium tool computes and nothing else: the branch returns the
    result of [calculatePremium], never throws and leaves the world as it
    is. *)
Theorem premium_tool_is_pure (env : Env) (user : User) (call : FunctionCall)
    (w : World) :
  call_name call = "calculate_premium" ->
  exists r,
    calculatePremium StringToNumber env
      {| insuranceType := args_insuranceType call;
         details := args_details call |} w = (Returned r, w) /\
    dispatch' env user call w = (Returned (PremiumTool r), w).
Proof.
  intros Hname.
  destruct (calculatePremium_total StringToNumber env
              {| insuranceType := args_insuranceType call;
                 details := args_details call |} w) as [r Hr].
  exists r. split; [exact Hr|].
  unfold dispatchTool. rewrite decide_True by exact Hname.
  async_unfold. now rewrite Hr.
Qed.

(** A tool name other than the two declared tools gives the result
    [{ error: 'Unknown function' }]; the branch does not throw and touches
    nothing. *)
Theorem unknown_tool_is_reported (env : Env) (user : User)
    (call : FunctionCall) (w : World) :
  call_name call <> "calculate_premium" ->
  call_name call <> "generate_payment_link" ->
  dispatch' env user call w = (Returned (ErrorTool "Unknown function"), w).
Proof.
  intros H1 H2. unfold dispatchTool.
  rewrite decide_False by exact H1. now rewrite decide_False by exact H2.
Qed.

(** What the payment-link branch does once the product is found and the
    store serves: the quote is appended and the gateway is asked, in this
    order. *)
Lemma payment_link_run (env : Env) (user : User) (call : FunctionCall)
    (product : InsuranceProduct) (w : World) :
  call_name call = "generate_payment_link" ->
  serves env [UserUpdate; ProductFindUnique; QuoteCreate] ->
  existsb (isUser (user_id user)) (users w) = true ->
  find (ofType (args_insuranceType call)) (insuranceProducts w)
    = Some product ->
  exists w',
    dispatch' env user call w
    = (match stripeCheckout env with
       | Some url => Returned (CheckoutTool url)
       | None => Thrown "Could not create payment session."
       end, w') /\
    quotes w' = (quotes w ++ [quoteFor env user product call])%list /\
    trace w' = (trace w ++
                [CheckoutSessionCreate (newId env QuoteCreate)
                   (args_premium call) (args_customerName call)])%list.
Proof.
  intros Hname Hs Hex Hprod.
  repeat (apply serves_cons in Hs as [? Hs]).
  unfold dispatchTool, updateUserFullName, createStripeCheckoutSession.
  rewrite decide_False by (rewrite Hname; discriminate).
  rewrite decide_True by exact Hname. async_unfold.
  repeat match goal with
         | H : dbThrows env _ = false |- _ => rewrite H; clear H
         end.
  rewrite Hex. cbn [insuranceProducts setUsers]. rewrite Hprod. async_step.
  destruct (stripeCheckout env); async_step;
    (eexists; split; [reflexivity|]; split; reflexivity).
Qed.

(** A payment-link call for a known product creates exactly one quote, in
    status quoted, with the product, the premium and the facts of the call
    and the user of the session, and then asks the gateway for a checkout
    of that quote and premium; the product's active flag is not consulted. *)
Theorem payment_link_creates_quote (env : Env) (user : User)
    (call : FunctionCall) (product : InsuranceProduct) (w : World)
    (url : option string) :
  call_name call = "generate_payment_link" ->
  serves env [UserUpdate; ProductFindUnique; QuoteCreate] ->
  existsb (isUser (user_id user)) (users w) = true ->
  find (ofType (args_insuranceType call)) (insuranceProducts w)
    = Some product ->
  stripeCheckout env = Some url ->
  exists w',
    dispatch' env user call w = (Returned (CheckoutTool url), w') /\
    quotes w' = (quotes w ++ [quoteFor env user product call])%list /\
    trace w' = (trace w ++
                [CheckoutSessionCreate (newId env QuoteCreate)
                   (args_premium call) (args_customerName call)])%list.
Proof.
  intros Hname Hs Hex Hprod Hurl.
  destruct (payment_link_run env user call product w Hname Hs Hex Hprod)
    as (w' & Hrun & Hq & Ht).
  rewrite Hurl in Hrun. eauto.
Qed.

(** When the gateway fails after the quote was created, the branch throws
    and the quote is not rolled back: it stays in the table in status
    quoted. *)
Theorem checkout_failure_keeps_quote (env : Env) (user : User)
    (call : FunctionCall) (product : InsuranceProduct) (w : World) :
  call_name call = "generate_payment_link" ->
  serves env [UserUpdate; ProductFindUnique; QuoteCreate] ->
  existsb (isUser (user_id user)) (users w) = true ->
  find (ofType (args_insuranceType call)) (insuranceProducts w)
    = Some product ->
  stripeCheckout env = None ->
  exists w',
    dispatch' env user call w
    = (Thrown "Could not create payment session.", w') /\
    quotes w' = (quotes w ++ [quoteFor env user product call])%list /\
    status (quoteFor env user product call) = "quoted".
Proof.
  intros Hname Hs Hex Hprod Hnone.
  destruct (payment_link_run env user call product w Hname Hs Hex Hprod)
    as (w' & Hrun & Hq & Ht).
  rewrite Hnone in Hrun. eauto.
Qed.

Lemma textPosts_app (a b : list Event) :
  textPosts (a ++ b) = (textPosts a ++ textPosts b)%list.
Proof.
  induction a as [|e a IH]; [reflexivity|].
  destruct e; cbn [textPosts app]; now rewrite ?IH.
Qed.

(** The tool branch posts no text message, whatever it does. *)
Lemma dispatch_posts_nothing (env : Env) (user : User) (call : FunctionCall)
    (w : World) :
  exists o w' es,
    dispatch' env user call w = (o, w') /\
    trace w' = (trace w ++ es)%list /\ textPosts es = [].
Proof.
  unfold dispatchTool.
  destruct (decide (call_name call = "calculate_premium")) as [Hc|Hc].
  { destruct (calculatePremium_total StringToNumber env
                {| insuranceType := args_insuranceType call;
                   details := args_details call |} w) as [r Hr].
    async_unfold. rewrite Hr. exists (Returned (PremiumTool r)), w, [].
    rewrite app_nil_r. auto. }
  destruct (decide (call_name call = "generate_payment_link")) as [Hg|Hg].
  2: { async_unfold. eexists. exists w, []. rewrite app_nil_r. auto. }
  unfold updateUserFullName, createStripeCheckoutSession. async_unfold.
  destruct (dbThrows env UserUpdate).
  { eexists. exists w, []. rewrite app_nil_r. auto. }
  destruct (existsb _ _).
  2: { eexists. exists w, []. rewrite app_nil_r. auto. }
  destruct (dbThrows env ProductFindUnique).
  { eexists. eexists. exists []. rewrite app_nil_r. cbn. auto. }
  cbn [insuranceProducts setUsers].
  destruct (find (ofType _) _).
  2: { eexists. eexists. exists []. rewrite app_nil_r. cbn. auto. }
  destruct (dbThrows env QuoteCreate).
  { eexists. eexists. exists []. rewrite app_nil_r. cbn. auto. }
  async_step.
  destruct (stripeCheckout env); async_step;
    (eexists; eexists; eexists; split; [reflexivity|]; split; reflexivity).
Qed.

(** One run of [processMessage] in terms of its trace. *)
Lemma process_replies_once (env : Env) (wid userMessage : string)
    (w : World) :
  exists w' es body,
    process' env wid userMessage w = (Returned tt, w') /\
    trace w' = (trace w ++ es)%list /\
    textPosts es = [(wid, body)].
Proof.
  unfold processMessage, chatSendMessage, chatSendFunctionResponse,
    updateConversationHistory, sendMessage.
  async_unfold.
  destruct (findOrCreate_frame env wid w) as (o1 & w1 & -> & _ & Ht1 & _).
  assert (Hdone : forall (w2 : World) (es2 : list Event) (body : TextBody),
    trace w2 = (trace w ++ es2)%list -> textPosts es2 = [] ->
    exists w' es body',
      (Returned tt, extend w2 [WhatsAppTextPost wid body])
      = (Returned tt, w') /\
      trace w' = (trace w ++ es)%list /\ textPosts es = [(wid, body')]).
  { intros w2 es2 body Ht Hn.
    exists (extend w2 [WhatsAppTextPost wid body]),
      (es2 ++ [WhatsAppTextPost wid body])%list, body.
    split; [reflexivity|]. cbn [trace extend]. rewrite Ht, app_assoc.
    split; [reflexivity|]. rewrite textPosts_app, Hn. reflexivity. }
  destruct o1 as [[user conversation]|m1]; async_step.
  2: { apply (Hdone w1 []); [now rewrite app_nil_r|reflexivity]. }
  destruct (injectDynamicInstructions_frame env (history conversation)
              userMessage w1) as [[o2 ->] _].
  destruct o2 as [dynamicHistory|m2]; async_step.
  2: { apply (Hdone w1 []); [now rewrite app_nil_r|reflexivity]. }
  destruct (firstTurn env) as [response|]; async_step.
  2: { eapply (Hdone _ [_]);
         [cbn [trace extend]; now rewrite Ht1|reflexivity]. }
  destruct (functionCalls response) as [|call calls]; async_step.
  - destruct (dbThrows env ConversationUpdate); async_step.
    { eapply (Hdone _ [_]);
        [cbn [trace extend]; now rewrite Ht1|reflexivity]. }
    destruct (existsb (isConversation _) _); async_step;
      (eapply (Hdone _ [_]);
       [cbn [trace extend setConversations]; now rewrite Ht1|reflexivity]).
  - match goal with
    | |- context [dispatchTool StringToNumber env user call ?w0] =>
        destruct (dispatch_posts_nothing env user call w0)
          as (o3 & w3 & es3 & -> & Ht3 & Hn3)
    end.
    cbn [trace extend] in Ht3. rewrite Ht1 in Ht3.
    rewrite <- app_assoc in Ht3.
    destruct o3 as [toolResult|m3]; async_step.
    2: { eapply (Hdone _ _ _ Ht3). rewrite textPosts_app, Hn3. reflexivity. }
    assert (Ht4 : forall e, textPosts [e] = [] ->
      exists es4, trace (extend w3 [e]) = (trace w ++ es4)%list /\
                  textPosts es4 = []).
    { intros e He. eexists. cbn [trace extend]. rewrite Ht3, <- app_assoc.
      split; [reflexivity|]. rewrite !textPosts_app, Hn3, He. reflexivity. }
    destruct (Ht4 (ModelFunctionResponse (call_name call) toolResult)
                eq_refl) as (es4 & Ht4' & Hn4).
    destruct (secondTurn env) as [text|]; async_step.
    2: { exact (Hdone _ _ _ Ht4' Hn4). }
    destruct (dbThrows env ConversationUpdate); async_step.
    { exact (Hdone _ _ _ Ht4' Hn4). }
    destruct (existsb (isConversation _) _); async_step.
    + eapply Hdone; [|exact Hn4]. cbn [trace setConversations]. exact Ht4'.
    + exact (Hdone _ _ _ Ht4' Hn4).
Qed.

(** Every inbound message is answered exactly once: [processMessage] never
    throws to its caller, and among the events of one run there is exactly
    one text message, addressed to the sender, whatever the store, the
    dialogue model and the gateway do. *)
Theorem one_reply_per_message (env : Env) (wid userMessage : string)
    (w : World) :
  exists w' es body,
    process' env wid userMessage w = (Returned tt, w') /\
    trace w' = (trace w ++ es)%list /\
    textPosts es = [(wid, body)].
Proof.
  destruct (process_replies_once env wid userMessage w)
    as (w' & es & body & Hrun & Htrace & Hposts).
  exists w', es, body. split; [exact Hrun|]. split; assumption.
Qed.

(** A served load leaves the conversation it returns in the table. *)
Lemma loaded_conversation_exists (env : Env) (wid : string) (w : World) :
  serves env [UserFindUnique; UserCreate; ConversationFindUnique;
              ConversationCreate] ->
  exists conversation w1,
    findOrCreateUserAndConversation env wid w
    = (Returned (sessionUser env wid w, conversation), w1) /\
    (exists c0, find (isConversation (conversation_id conversation))
                  (conversations w1) = Some c0) /\
    quotes w1 = quotes w /\ trace w1 = trace w.
Proof.
  intros Hs.
  destruct (findOrCreate_rows env wid w Hs)
    as (c & w1 & Hrun & _ & Hc & Hq & _ & Ht).
  exists c, w1. split; [exact Hrun|]. split; [|auto].
  apply existsb_find. apply (find_existsb_other _ _ _ c Hc).
  unfold isConversation. now apply bool_decide_eq_true.
Qed.

(** Where the conversation of a served load comes from: it is the stored
    one when the user has one, and a new one with an empty history
    otherwise; in both cases its row is in the table afterwards. *)
Lemma loaded_conversation_origin (env : Env) (wid : string) (w : World) :
  serves env [UserFindUnique; UserCreate; ConversationFindUnique;
              ConversationCreate] ->
  exists conversation w1,
    findOrCreateUserAndConversation env wid w
    = (Returned (sessionUser env wid w, conversation), w1) /\
    existsb (isConversation (conversation_id conversation))
      (conversations w1) = true /\
    history conversation
    = from_option history []
        (find (ofUser (user_id (sessionUser env wid w))) (conversations w)) /\
    quotes w1 = quotes w /\ trace w1 = trace w.
Proof.
  intros Hs.
  destruct (findOrCreate_rows env wid w Hs)
    as (c & w1 & Hrun & _ & Hc & Hq & _ & Ht).
  exists c, w1. split; [exact Hrun|].
  split.
  { apply (find_existsb_other _ _ _ c Hc). unfold isConversation.
    now apply bool_decide_eq_true. }
  split; [|auto].
  destruct (findOrCreate_append_only env wid w w1 _ Hrun)
    as (us & cs & _ & Hcs & _ & _ & _).
  destruct (find (ofUser (user_id (sessionUser env wid w))) (conversations w))
    as [c'|] eqn:Hstored; cbn [from_option].
  - rewrite Hcs in Hc. rewrite (find_app_l _ _ cs c' Hstored) in Hc.
    now injection Hc as ->.
  - repeat (apply serves_cons in Hs as [? Hs]).
    revert Hrun. unfold findOrCreateUserAndConversation. async_unfold.
    repeat match goal with
           | H : dbThrows env _ = false |- _ => rewrite H; clear H
           end.
    unfold sessionUser in Hstored |- *.
    destruct (find (hasWhatsappId wid) (users w)) as [u|]; cbn;
      cbn in Hstored; rewrite Hstored; cbn; now intros [= <- _].
Qed.

(** A turn without instruction injection and without a tool call.  For a
    message that mentions neither "motor" nor "car" the history handed to
    [model.startChat] is the stored history of the sender's conversation
    (empty for a new sender or a new conversation), and it has no hole when
    the stored one has none.  When the dialogue model then answers without
    a function call, it was sent the user message once on that history, its
    text goes to the user through [applyBusinessLogic], no quote is written
    and no user row other than the one of the load. *)
Theorem plain_turn (env : Env) (wid userMessage : string) (w : World)
    (response : ModelResponse) :
  let stored :=
    find (ofUser (user_id (sessionUser env wid w))) (conversations w) in
  let sent := from_option history [] stored in
  serves env [UserFindUnique; UserCreate; ConversationFindUnique;
              ConversationCreate; ConversationUpdate] ->
  includes (toLowerCase userMessage) "motor" = false ->
  includes (toLowerCase userMessage) "car" = false ->
  (forall c, stored = Some c -> Forall is_Some (history c)) ->
  firstTurn env = Some response ->
  functionCalls response = [] ->
  Forall is_Some sent /\
  exists w',
    process' env wid userMessage w = (Returned tt, w') /\
    trace w' =
      (trace w ++
       [ ModelMessage sent userMessage;
         WhatsAppTextPost wid
           (PlainText (applyBusinessLogic (response_text response))) ])%list /\
    quotes w' = quotes w /\ users w' = users (snd
      (findOrCreateUserAndConversation env wid w)).
Proof.
  intros stored sent Hs Hmotor Hcar Hholes Hfirst Hcalls.
  split.
  { subst sent. destruct stored as [c|] eqn:Hstored; cbn [from_option].
    - now apply Hholes.
    - constructor. }
  assert (Hs4 : serves env [UserFindUnique; UserCreate;
                            ConversationFindUnique; ConversationCreate]).
  { repeat (apply serves_cons in Hs as [? Hs]).
    repeat (apply serves_cons; split; [assumption|]). exact Hs. }
  assert (Hupd : dbThrows env ConversationUpdate = false).
  { repeat (apply serves_cons in Hs as [? Hs]). assumption. }
  unfold processMessage, chatSendMessage, updateConversationHistory,
    sendMessage.
  async_unfold.
  destruct (loaded_conversation_origin env wid w Hs4)
    as (c & w1 & -> & Hex & Hhist & Hq1 & Ht1).
  async_step.
  rewrite (injection_skipped env (history c) userMessage w1)
    by (right; left; split; assumption).
  async_step.
  rewrite Hfirst. async_step. rewrite Hcalls. async_step. rewrite Hupd.
  cbn [conversations extend]. rewrite Hex. cbn.
  eexists. split; [reflexivity|].
  cbn [trace quotes users extend setConversations].
  rewrite Ht1, Hq1, Hhist, <- ?app_assoc. auto.
Qed.

(** A call of a tool that is not declared does not fail the turn: the
    dialogue model is handed [{ error: 'Unknown function' }] and its second
    reply is what the user receives; no quote is written. *)
Theorem unknown_tool_turn (env : Env) (wid userMessage text : string)
    (w : World) (response : ModelResponse) (call : FunctionCall)
    (calls : list FunctionCall) :
  serves env [UserFindUnique; UserCreate; ConversationFindUnique;
              ConversationCreate; ProductFindUnique; ConversationUpdate] ->
  firstTurn env = Some response ->
  functionCalls response = call :: calls ->
  call_name call <> "calculate_premium" ->
  call_name call <> "generate_payment_link" ->
  secondTurn env = Some text ->
  exists sent w',
    process' env wid userMessage w = (Returned tt, w') /\
    trace w' =
      (trace w ++
       [ ModelMessage sent userMessage;
         ModelFunctionResponse (call_name call) (ErrorTool "Unknown function");
         WhatsAppTextPost wid (PlainText (applyBusinessLogic text)) ])%list /\
    quotes w' = quotes w.
Proof.
  intros Hs Hfirst Hcalls Hn1 Hn2 Hsecond.
  assert (Hs4 : serves env [UserFindUnique; UserCreate;
                            ConversationFindUnique; ConversationCreate]).
  { repeat (apply serves_cons in Hs as [? Hs]).
    repeat (apply serves_cons; split; [assumption|]). exact Hs. }
  assert (Hprod : dbThrows env ProductFindUnique = false).
  { repeat (apply serves_cons in Hs as [? Hs]). assumption. }
  assert (Hupd : dbThrows env ConversationUpdate = false).
  { repeat (apply serves_cons in Hs as [? Hs]). assumption. }
  unfold processMessage, chatSendMessage, chatSendFunctionResponse,
    updateConversationHistory, sendMessage.
  async_unfold.
  destruct (loaded_conversation_exists env wid w Hs4)
    as (c & w1 & -> & [c0 Hc0] & Hq1 & Ht1).
  async_step.
  destruct (injectDynamicInstructions_frame env (history c) userMessage w1)
    as [_ Hinj].
  destruct (Hinj Hprod) as [sent ->]. async_step.
  rewrite Hfirst. async_step. rewrite Hcalls. async_step.
  rewrite (unknown_tool_is_reported env _ call _ Hn1 Hn2). async_step.
  rewrite Hsecond. async_step. rewrite Hupd.
  assert (Hex : existsb (isConversation (conversation_id c))
                  (conversations w1) = true) by (apply existsb_find; eauto).
  cbn [conversations extend]. rewrite Hex. cbn.
  exists sent. eexists. split; [reflexivity|].
  cbn [trace quotes extend setConversations].
  rewrite Ht1, Hq1, <- ?app_assoc. auto.
Qed.

End AgentMore.

(** ** The messaging webhook *)

(** The verification handshake succeeds exactly for the mode "subscribe"
    with the configured token, and then echoes the challenge; with both
    values present but wrong the answer is 403, with one of them absent or
    empty it is 400.  Without a configured token nothing is ever accepted. *)
Theorem verification_handshake (verifyToken mode token challenge : option string) :
  let r := verifyWebhook verifyToken mode token challenge in
  (verify_status r = 200 <->
   mode = Some "subscribe" /\
   exists t, token = Some t /\ t <> "" /\ verifyToken = Some t) /\
  (verify_status r = 200 -> echoed r = challenge) /\
  (verify_status r = 400 <-> truthy mode = None \/ truthy token = None) /\
  (verify_status r = 200 \/ verify_status r = 403 \/ verify_status r = 400) /\
  (verifyToken = None -> verify_status r <> 200).
Proof.
  cbn zeta. unfold verifyWebhook.
  destruct mode as [[|c m]|], token as [[|c' t]|]; cbn [truthy];
    repeat case_bool_decide; cbn;
    intuition (try discriminate; try congruence; eauto);
    repeat match goal with
           | H : exists _, _ |- _ => destruct H as (? & ? & ? & ?)
           end; congruence.
Qed.

Lemma forEach_app {A} (xs ys : list A) (body : A -> Async unit) (w : World) :
  forEach (xs ++ ys) body w = (forEach xs body ;; forEach ys body) w.
Proof.
  revert w. induction xs as [|x xs IH]; intros w; cbn [forEach app].
  - reflexivity.
  - unfold await. destruct (body x w) as [[[]|m] w1]; [|reflexivity].
    rewrite IH. reflexivity.
Qed.

(** Nested [for ... of] loops visit the elements of the inner lists in
    order, as one loop over their concatenation does. *)
Lemma forEach_concat {A B} (xs : list A) (inner : A -> list B)
    (step : B -> Async unit) (w : World) :
  forEach xs (fun x => forEach (inner x) step) w
  = forEach (concat (map inner xs)) step w.
Proof.
  revert w. induction xs as [|x xs IH]; intros w; cbn [forEach map concat].
  - reflexivity.
  - rewrite forEach_app. unfold await.
    destruct (forEach (inner x) step w) as [[[]|m] w1]; [|reflexivity].
    apply IH.
Qed.

Lemma forEach_ext {A} (xs : list A) (f g : A -> Async unit) (w : World) :
  (forall x w, f x w = g x w) -> forEach xs f w = forEach xs g w.
Proof.
  intros Hfg. revert w. induction xs as [|x xs IH]; intros w; cbn [forEach].
  - reflexivity.
  - unfold await. rewrite Hfg. destruct (g x w) as [[[]|m] w1]; auto.
Qed.

Lemma concat_nested {A B C} (g : A -> list B) (f : B -> list C)
    (l : list A) :
  concat (map (fun e => concat (map f (g e))) l)
  = concat (map f (concat (map g l))).
Proof.
  induction l as [|x l IH]; [reflexivity|].
  cbn [map concat]. now rewrite map_app, concat_app, IH.
Qed.

Lemma answered_all (ms : list WhatsAppMessage) :
  Forall (fun m => message_text m <> None) (List.filter isText ms) ->
  answered ms = List.filter isText ms.
Proof.
  induction ms as [|m ms IH]; [reflexivity|].
  cbn [answered List.filter]. destruct (isText m).
  - intros Hall. apply Forall_cons in Hall as [Hm Hall].
    destruct (message_text m); [|contradiction]. f_equal. now apply IH.
  - exact IH.
Qed.

Section WhatsAppControllerFacts.

Variable StringToNumber : string -> float.

Local Abbreviation perMessage' := (perMessage StringToNumber).

Lemma perMessage_loop (envOf : WhatsAppMessage -> Env)
    (ms : list WhatsAppMessage) (w : World) :
  exists o w' es,
    forEach ms (perMessage' envOf) w = (o, w') /\
    trace w' = (trace w ++ es)%list /\
    map fst (textPosts es) = map message_from (answered ms).
Proof.
  revert w. induction ms as [|m ms IH]; intros w; cbn [forEach answered].
  - exists (Returned tt), w, []. rewrite app_nil_r. auto.
  - unfold await, isText.
    destruct (decide (message_type m = "text")) as [Ht|Ht].
    + rewrite bool_decide_eq_true_2 by exact Ht.
      destruct (message_text m) as [text|] eqn:Htext.
      * destruct (process_replies_once StringToNumber (envOf m)
                    (message_from m) text w)
          as (w1 & es1 & body & Hrun & Ht1 & Hn1).
        assert (Hm : perMessage' envOf m w = (Returned tt, w1)).
        { unfold perMessage. rewrite decide_True by exact Ht.
          now rewrite Htext. }
        rewrite Hm.
        destruct (IH w1) as (o & w2 & es2 & -> & Ht2 & Hn2).
        exists o, w2, (es1 ++ es2)%list. split; [reflexivity|].
        rewrite Ht2, Ht1, <- app_assoc. split; [reflexivity|].
        rewrite textPosts_app, map_app, Hn1, Hn2. reflexivity.
      * assert (Hm : perMessage' envOf m w = (Thrown "TypeError", w)).
        { unfold perMessage. rewrite decide_True by exact Ht.
          now rewrite Htext. }
        rewrite Hm. eexists. exists w, []. rewrite app_nil_r. auto.
    + rewrite bool_decide_eq_false_2 by exact Ht.
      assert (Hm : perMessage' envOf m w = (Returned tt, w)).
      { unfold perMessage. now rewrite decide_False by exact Ht. }
      rewrite Hm. apply IH.
Qed.

Lemma handleIncomingMessage_loop (envOf : WhatsAppMessage -> Env)
    (body : WhatsAppPayload) (w : World) :
  payload_object body = "whatsapp_business_account" ->
  handleIncomingMessage StringToNumber envOf body w
  = (200,
     snd (tryCatch (forEach (allMessages body) (perMessage' envOf))
            (fun _ => resolve tt) w)).
Proof.
  intros Hobj.
  pose (msgs := fun c : WhatsAppChange =>
                  match value_messages c with Some ms => ms | None => [] end).
  assert (H1 : forall c w0,
    match value_messages c with
    | Some messages => forEach messages (perMessage' envOf)
    | None => resolve tt
    end w0 = forEach (msgs c) (perMessage' envOf) w0).
  { intros c w0. unfold msgs. destruct (value_messages c); reflexivity. }
  assert (H2 : forall e w0,
    forEach (changes e) (fun change =>
      match value_messages change with
      | Some messages => forEach messages (perMessage' envOf)
      | None => resolve tt
      end) w0
    = forEach (concat (map msgs (changes e))) (perMessage' envOf) w0).
  { intros e w0.
    rewrite (forEach_ext _ _ (fun c => forEach (msgs c) (perMessage' envOf))
               _ H1).
    apply forEach_concat. }
  assert (H3 :
    forEach (entry body) (fun e =>
      forEach (changes e) (fun change =>
        match value_messages change with
        | Some messages => forEach messages (perMessage' envOf)
        | None => resolve tt
        end)) w
    = forEach (allMessages body) (perMessage' envOf) w).
  { rewrite (forEach_ext _ _
               (fun e => forEach (concat (map msgs (changes e)))
                           (perMessage' envOf)) _ H2).
    rewrite (forEach_concat (entry body)
               (fun e => concat (map msgs (changes e)))).
    unfold allMessages. now rewrite concat_nested. }
  unfold handleIncomingMessage. rewrite decide_True by exact Hobj.
  unfold tryCatch. unfold perMessage in H3. rewrite H3. reflexivity.
Qed.

(** Replies follow the text messages of the payload: the handler answers
    200, and the text messages it posts are addressed, in order, to the
    senders of the text messages of the payload, one each, up to the first
    text message that lacks its text (which ends the processing); messages
    of other types get no answer. *)
Theorem replies_follow_messages (envOf : WhatsAppMessage -> Env)
    (body : WhatsAppPayload) (w : World) :
  payload_object body = "whatsapp_business_account" ->
  exists w' es,
    handleIncomingMessage StringToNumber envOf body w = (200, w') /\
    trace w' = (trace w ++ es)%list /\
    map fst (textPosts es) = map message_from (answered (allMessages body)) /\
    (Forall (fun m => message_text m <> None) (textMessages body) ->
     map fst (textPosts es) = map message_from (textMessages body)).
Proof.
  intros Hobj. rewrite (handleIncomingMessage_loop envOf body w Hobj).
  destruct (perMessage_loop envOf (allMessages body) w)
    as (o & w' & es & Hrun & Ht & Hn).
  exists w', es. unfold tryCatch, resolve. rewrite Hrun.
  split; [destruct o; reflexivity|]. split; [exact Ht|].
  split; [exact Hn|].
  intros Hall. rewrite Hn. f_equal. now apply answered_all.
Qed.

(** A payload whose object is not "whatsapp_business_account" is
    acknowledged with 200 and ignored: nothing is read, written or sent. *)
Theorem other_payload_ignored (envOf : WhatsAppMessage -> Env)
    (body : WhatsAppPayload) (w : World) :
  payload_object body <> "whatsapp_business_account" ->
  handleIncomingMessage StringToNumber envOf body w = (200, w).
Proof.
  intros Hobj. unfold handleIncomingMessage.
  now rewrite decide_False by exact Hobj.
Qed.

End WhatsAppControllerFacts.

(** ** The certificate's detail keys *)

(** The example of the docstring, and a snake_case key. *)
Example formatDetailKey_examples :
  formatDetailKey "driverFullName" = "Driver Full Name" /\
  formatDetailKey "driver_age" = "Driver_age" /\
  formatDetailKey "VIN" = " V I N" /\
  formatDetailKey "" = "".
Proof. repeat split. Qed.

Lemma length_spaceCapitals (key : string) :
  String.length (spaceCapitals key) = (String.length key + capitals key)%nat.
Proof.
  induction key as [|c key IH]; [reflexivity|].
  cbn [spaceCapitals capitals String.length].
  destruct (isUpperAscii c); cbn [String.length]; lia.
Qed.

(** One space is inserted per capital letter and nothing is removed: the
    formatted key is as long as the key plus the number of its capitals. *)
Theorem formatDetailKey_length (key : string) :
  String.length (formatDetailKey key)
  = (String.length key + capitals key)%nat.
Proof.
  rewrite <- length_spaceCapitals. unfold formatDetailKey.
  destruct (spaceCapitals key); reflexivity.
Qed.

Lemma spaceCapitals_none (key : string) :
  capitals key = 0%nat -> spaceCapitals key = key.
Proof.
  induction key as [|c key IH]; [reflexivity|].
  cbn [spaceCapitals capitals]. destruct (isUpperAscii c); [discriminate|].
  intros H. now rewrite IH.
Qed.

(** A key that begins with an ASCII character and has no capital letter
    A-Z is not split into words: only its first character changes (to its
    capital when it is a letter a-z), so the underscores of a snake_case
    key stay. *)
Theorem formatDetailKey_without_capitals (c : ascii) (rest : string) :
  isAsciiChar c = true ->
  capitals (String c rest) = 0%nat ->
  formatDetailKey (String c rest) = String (upperAscii c) rest /\
  isAsciiChar (upperAscii c) = true.
Proof.
  intros Hc H. unfold formatDetailKey. rewrite (spaceCapitals_none _ H).
  split; [reflexivity|].
  unfold upperAscii, isAsciiChar in *.
  destruct (_ && _) eqn:E; [|exact Hc].
  apply andb_true_iff in E as [_ E]. apply Nat.leb_le in E.
  apply Nat.ltb_lt. rewrite nat_ascii_embedding by lia. lia.
Qed.

(** A key that begins with a capital letter is formatted with a leading
    space, which the capitalisation of the first character leaves alone. *)
Theorem formatDetailKey_leading_capital (c : ascii) (rest : string) :
  isUpperAscii c = true ->
  formatDetailKey (String c rest)
  = String " " (String c (spaceCapitals rest)).
Proof.
  intros H. unfold formatDetailKey. cbn [spaceCapitals]. now rewrite H.
Qed.

(** ** The administrator accounts *)

Lemma untilSpace_id (s : string) : hasSpace s = false -> untilSpace s = s.
Proof.
  induction s as [|c s IH]; [reflexivity|]. cbn [hasSpace untilSpace].
  destruct (Ascii.eqb c " "); [discriminate|]. cbn [orb]. intros H.
  now rewrite IH.
Qed.

Lemma bearer_header (token : string) :
  truthy (Some ("Bearer " ++ token)) = Some ("Bearer " ++ token) /\
  String.prefix "Bearer " ("Bearer " ++ token) = true /\
  splitSecond ("Bearer " ++ token) = Some (untilSpace token).
Proof.
  split; [reflexivity|]. split; [|reflexivity].
  cbn. now destruct token.
Qed.

Section AuthFacts.

Variable bcryptHash : string -> string.
Variable bcryptCompare : string -> string -> bool.
Variable signToken : string -> UserRole -> string.
Variable jwtVerify : string -> option string.

Local Abbreviation register := (registerAdminUser bcryptHash).
Local Abbreviation login := (loginAdminUser bcryptCompare signToken).
Local Abbreviation guard := (requireAuth jwtVerify).

(** Registering an e-mail address that is already in the table is refused
    with "User already exists" (409 at the controller) and creates
    nothing. *)
Theorem duplicate_email_rejected (env : Env) (input : RegisterInput)
    (accounts : list Account) (existing : Account) :
  dbThrows env UserFindUnique = false ->
  find (hasEmail (register_email input)) accounts = Some existing ->
  register env input accounts = (Thrown "User already exists", accounts) /\
  registerAdmin bcryptHash env input accounts
  = ({| auth_status := 409;
        auth_json := MessageJson "User already exists" |}, accounts).
Proof.
  intros Hdb Hfind. unfold registerAdmin, registerAdminUser.
  rewrite Hdb, Hfind. split; reflexivity.
Qed.

(** A served registration of a new address appends one account with the
    role ADMIN whose stored password is the hash, answers 201 with the
    account without its password, and the account is the one found for the
    address afterwards. *)
Theorem registration_creates_admin (env : Env) (input : RegisterInput)
    (accounts : list Account) :
  serves env [UserFindUnique; UserCreate] ->
  find (hasEmail (register_email input)) accounts = None ->
  exists user,
    registerAdmin bcryptHash env input accounts
    = ({| auth_status := 201; auth_json := AccountJson (withoutPassword user) |},
       (accounts ++ [user])%list) /\
    account_role user = ADMIN /\
    account_email user = Some (register_email input) /\
    account_password user = Some (bcryptHash (register_password input)) /\
    find (hasEmail (register_email input)) (accounts ++ [user]) = Some user.
Proof.
  intros Hs Hnone. repeat (apply serves_cons in Hs as [? Hs]).
  unfold registerAdmin, registerAdminUser.
  repeat match goal with
         | H : dbThrows env _ = false |- _ => rewrite H; clear H
         end.
  rewrite Hnone. eexists. split; [reflexivity|]. cbn.
  repeat split. rewrite (find_app_none _ _ _ Hnone). unfold hasEmail. cbn.
  now rewrite bool_decide_eq_true_2.
Qed.

(** The login that follows a served registration. *)
Lemma login_after_register (env env' : Env) (input : RegisterInput)
    (accounts accounts' : list Account) (o : Outcome PublicAccount) :
  serves env [UserFindUnique; UserCreate] ->
  dbThrows env' UserFindUnique = false ->
  find (hasEmail (register_email input)) accounts = None ->
  bcryptHash (register_password input) <> "" ->
  bcryptCompare (register_password input)
    (bcryptHash (register_password input)) = true ->
  register env input accounts = (o, accounts') ->
  loginAdmin bcryptCompare signToken env'
    {| login_email := register_email input;
       login_password := register_password input |} accounts'
  = {| auth_status := 200;
       auth_json := TokenJson (signToken (newId env UserCreate) ADMIN) |}.
Proof.
  intros Hs Hdb Hnone Hne Hcmp Hreg.
  repeat (apply serves_cons in Hs as [? Hs]).
  unfold registerAdminUser in Hreg.
  repeat match goal with
         | H : dbThrows env _ = false |- _ => rewrite H in Hreg; clear H
         end.
  rewrite Hnone in Hreg. injection Hreg as <- <-.
  unfold loginAdmin, loginAdminUser. cbn [login_email login_password].
  rewrite Hdb, (find_app_none _ _ _ Hnone). unfold hasEmail.
  cbn [account_email]. rewrite bool_decide_eq_true_2 by reflexivity.
  cbn [account_password account_role account_id].
  destruct (bcryptHash (register_password input)) as [|c h] eqn:Hh;
    [contradiction|].
  cbn [truthy]. rewrite Hcmp. reflexivity.
Qed.

(** Round trip: after a served registration, logging in with the same
    address and password yields a token for the new account and the role
    ADMIN, provided [bcrypt.compare] accepts the password against its hash
    (and the hash is not empty). *)
Theorem register_then_login (env env' : Env) (input : RegisterInput)
    (accounts accounts' : list Account) (o : Outcome PublicAccount) :
  serves env [UserFindUnique; UserCreate] ->
  dbThrows env' UserFindUnique = false ->
  find (hasEmail (register_email input)) accounts = None ->
  bcryptHash (register_password input) <> "" ->
  bcryptCompare (register_password input)
    (bcryptHash (register_password input)) = true ->
  register env input accounts = (o, accounts') ->
  loginAdmin bcryptCompare signToken env'
    {| login_email := register_email input;
       login_password := register_password input |} accounts'
  = {| auth_status := 200;
       auth_json := TokenJson (signToken (newId env UserCreate) ADMIN) |}.
Proof.
  intros Hs Hdb Hnone Hne Hcmp Hreg.
  exact (login_after_register env env' input accounts accounts' o
           Hs Hdb Hnone Hne Hcmp Hreg).
Qed.

(** A token is only issued to an administrator who presents the password
    that [bcrypt.compare] accepts against the stored hash; the token is
    signed for that account. *)
Theorem token_only_for_admin (env : Env) (input : LoginInput)
    (accounts : list Account) (token : string) :
  login env input accounts = Returned token ->
  exists user hashed,
    find (hasEmail (login_email input)) accounts = Some user /\
    account_password user = Some hashed /\
    bcryptCompare (login_password input) hashed = true /\
    account_role user = ADMIN /\
    token = signToken (account_id user) ADMIN.
Proof.
  unfold loginAdminUser.
  destruct (dbThrows env UserFindUnique); [discriminate|].
  destruct (find _ _) as [user|]; [|discriminate].
  destruct (truthy (account_password user)) as [h|] eqn:Hp; [|discriminate].
  apply truthy_Some in Hp as [Hp _].
  destruct (bcryptCompare _ h) eqn:Hc; [|discriminate]. cbn [negb].
  case_bool_decide as Hrole; [|discriminate]. cbn [negb].
  intros [= <-]. exists user, h. rewrite Hrole. auto.
Qed.

(** An unknown address, an account without password and a wrong password
    are answered alike, with 401 "Invalid credentials"; a right password of
    an account that is not an administrator is answered with 401 "Access
    denied. Not an administrator." *)
Theorem login_refusals (env : Env) (input : LoginInput)
    (accounts : list Account) :
  dbThrows env UserFindUnique = false ->
  (find (hasEmail (login_email input)) accounts = None \/
   (exists user,
      find (hasEmail (login_email input)) accounts = Some user /\
      (truthy (account_password user) = None \/
       exists hashed, truthy (account_password user) = Some hashed /\
         bcryptCompare (login_password input) hashed = false)) ->
   loginAdmin bcryptCompare signToken env input accounts
   = {| auth_status := 401; auth_json := MessageJson "Invalid credentials" |}) /\
  (forall user hashed,
     find (hasEmail (login_email input)) accounts = Some user ->
     truthy (account_password user) = Some hashed ->
     bcryptCompare (login_password input) hashed = true ->
     account_role user = USER ->
     loginAdmin bcryptCompare signToken env input accounts
     = {| auth_status := 401;
          auth_json := MessageJson "Access denied. Not an administrator." |}).
Proof.
  intros Hdb. unfold loginAdmin, loginAdminUser. rewrite Hdb. split.
  - intros [-> | (user & -> & [-> | (h & -> & ->)])]; reflexivity.
  - intros user h -> -> -> Hrole. rewrite Hrole. reflexivity.
Qed.

(** The guard lets a request through only with a header "Bearer <token>"
    whose token verifies to the identifier of an account that has the
    required role; every other request is answered with 401 or 403, and 403
    only for a verified token of an existing account with another role. *)
Theorem guard_admits_only_role (requiredRole : UserRole) (env : Env)
    (authHeader : option string) (accounts : list Account) :
  (forall id role,
     guard requiredRole env authHeader accounts = Next id role ->
     role = requiredRole /\
     exists header token user,
       authHeader = Some header /\
       String.prefix "Bearer " header = true /\
       splitSecond header = Some token /\
       jwtVerify token = Some id /\
       find (isAccount id) accounts = Some user /\
       account_role user = requiredRole) /\
  (forall response,
     guard requiredRole env authHeader accounts = Reject response ->
     (auth_status response = 401 \/ auth_status response = 403) /\
     (auth_status response = 403 ->
      exists header token id user,
        authHeader = Some header /\ splitSecond header = Some token /\
        jwtVerify token = Some id /\
        find (isAccount id) accounts = Some user /\
        account_role user <> requiredRole)).
Proof.
  unfold requireAuth.
  destruct (truthy authHeader) as [header|] eqn:Hh.
  2: { split; [discriminate|]. intros r [= <-]. cbn. split; [auto|discriminate]. }
  apply truthy_Some in Hh as [-> _].
  destruct (String.prefix "Bearer " header) eqn:Hp; cbn [negb].
  2: { split; [discriminate|]. intros r [= <-]. cbn. split; [auto|discriminate]. }
  destruct (splitSecond header) as [token|] eqn:Ht; cbn [mbind option_bind].
  2: { split; [discriminate|]. intros r [= <-]. cbn. split; [auto|discriminate]. }
  destruct (jwtVerify token) as [id|] eqn:Hv.
  2: { split; [discriminate|]. intros r [= <-]. cbn. split; [auto|discriminate]. }
  destruct (dbThrows env UserFindUnique).
  { split; [discriminate|]. intros r [= <-]. cbn. split; [auto|discriminate]. }
  destruct (find (isAccount id) accounts) as [user|] eqn:Hu.
  2: { split; [discriminate|]. intros r [= <-]. cbn. split; [auto|discriminate]. }
  assert (Hid : account_id user = id).
  { apply find_some in Hu as [_ Hu]. unfold isAccount in Hu.
    now apply bool_decide_eq_true in Hu. }
  case_bool_decide as Hrole; cbn [negb].
  - split; [|discriminate]. intros id' role [= <- <-].
    split; [exact Hrole|]. rewrite Hid. eauto 10.
  - split; [discriminate|]. intros r [= <-]. cbn. split; [auto|].
    intros _. eauto 10.
Qed.

(** From registration to an admitted request: the token that a login
    after a served registration returns, sent as "Bearer <token>", passes
    the guard of the administrator routes, provided the token verifies to
    the signed identifier and contains no space, and the identifier given
    to the new account is not in use. *)
Theorem registered_admin_is_admitted (env env' env'' : Env)
    (input : RegisterInput) (accounts accounts' : list Account)
    (o : Outcome PublicAccount) (token : string) :
  serves env [UserFindUnique; UserCreate] ->
  dbThrows env' UserFindUnique = false ->
  dbThrows env'' UserFindUnique = false ->
  find (hasEmail (register_email input)) accounts = None ->
  find (isAccount (newId env UserCreate)) accounts = None ->
  bcryptHash (register_password input) <> "" ->
  bcryptCompare (register_password input)
    (bcryptHash (register_password input)) = true ->
  token = signToken (newId env UserCreate) ADMIN ->
  jwtVerify token = Some (newId env UserCreate) ->
  hasSpace token = false ->
  register env input accounts = (o, accounts') ->
  login env'
    {| login_email := register_email input;
       login_password := register_password input |} accounts'
  = Returned token /\
  guard ADMIN env'' (Some ("Bearer " ++ token)) accounts'
  = Next (newId env UserCreate) ADMIN.
Proof.
  intros Hs Hdb' Hdb'' Hnone Hfresh Hne Hcmp Htok Hver Hsp Hreg.
  pose proof (login_after_register env env' input accounts accounts' o
                Hs Hdb' Hnone Hne Hcmp Hreg) as Hlogin.
  unfold loginAdmin in Hlogin.
  destruct (login env' _ accounts') as [t|m] eqn:Hl; [|discriminate Hlogin].
  injection Hlogin as ->. split; [now rewrite Htok|].
  repeat (apply serves_cons in Hs as [? Hs]).
  unfold registerAdminUser in Hreg.
  repeat match goal with
         | H : dbThrows env _ = false |- _ => rewrite H in Hreg; clear H
         end.
  rewrite Hnone in Hreg. injection Hreg as <- <-.
  unfold requireAuth.
  destruct (bearer_header token) as (-> & -> & ->).
  cbn [negb]. rewrite (untilSpace_id _ Hsp).
  cbn [mbind option_bind]. rewrite Hver, Hdb''.
  rewrite (find_app_none _ _ _ Hfresh). unfold isAccount. cbn [account_id].
  rewrite bool_decide_eq_true_2 by reflexivity. reflexivity.
Qed.

End AuthFacts.

(** ** The further properties at concrete inputs *)

Lemma no_fact_no_surcharge_witness :
  evaluate nanOnStrings 60000%float [youngDriver; oldCar] ∅
  = JS.Math_round 60000%float.
Proof.
  apply (no_fact_no_surcharge nanOnStrings 60000%float [youngDriver; oldCar] ∅).
  repeat constructor.
Defined.

Lemma unreferenced_fact_ignored_witness :
  evaluate nanOnStrings 60000%float [youngDriver; oldCar]
    (<["carMake" := JS.Str "Toyota"]> scenarioAFacts)
  = evaluate nanOnStrings 60000%float [youngDriver; oldCar] scenarioAFacts.
Proof.
  apply (unreferenced_fact_ignored nanOnStrings 60000%float
           [youngDriver; oldCar] scenarioAFacts "carMake" (JS.Str "Toyota")).
  repeat constructor; discriminate.
Defined.

Lemma unrelated_event_acknowledged_witness :
  handleStripeWebhook
    (fun _ _ => Some {| event_type := "payment_intent.created";
                        metadata_quoteId := None |})
    healthyEnv "{}" "t=1,v1=5257a869" (worldWithQuote "quoted")
  = (Returned tt, worldWithQuote "quoted").
Proof.
  refine (proj1 (unrelated_event_acknowledged
    (fun _ _ => Some {| event_type := "payment_intent.created";
                        metadata_quoteId := None |})
    healthyEnv "{}" "t=1,v1=5257a869"
    {| event_type := "payment_intent.created"; metadata_quoteId := None |}
    (worldWithQuote "quoted") _ _)).
  - reflexivity.
  - left. discriminate.
Defined.

Lemma storage_fault_is_reported_witness :
  handleStripeWebhook stripeSignedBy storeDownEnv "quote-1-abcdef"
    "t=1,v1=5257a869" (worldWithQuote "quoted")
  = (Thrown ("Processing error for quote " ++ "quote-1-abcdef" ++ "."),
     worldWithQuote "quoted").
Proof.
  refine (proj1 (storage_fault_is_reported stripeSignedBy storeDownEnv
    "quote-1-abcdef" "t=1,v1=5257a869" "quote-1-abcdef"
    (worldWithQuote "quoted") (quoteInStatus "quoted") alice
    confirms_quote1 _ quoted_not_paid _ _)).
  - reflexivity.
  - left. reflexivity.
  - discriminate.
Defined.

Lemma confirms_quote2 :
  confirms stripeSignedBy "quote-2-abcdef" "t=1,v1=5257a869" "quote-2-abcdef".
Proof. eexists. repeat split. Defined.

Lemma paid_without_address_witness :
  exists w',
    handleStripeWebhook stripeSignedBy healthyEnv "quote-2-abcdef"
      "t=1,v1=5257a869" bobWorld = (Returned tt, w') /\
    statusOf "quote-2-abcdef" w' = Some "paid" /\
    trace w' = (trace bobWorld ++ [QuoteMarkedPaid "quote-2-abcdef"])%list.
Proof.
  refine (paid_without_address stripeSignedBy healthyEnv "quote-2-abcdef"
    "t=1,v1=5257a869" "quote-2-abcdef" bobWorld bobQuote bob
    confirms_quote2 _ quoted_not_paid _ _ _); reflexivity.
Defined.

Lemma handler_preserves_quotes_witness :
  length (quotes paidWorld) = length (quotes (worldWithQuote "quoted")) /\
  (forall qid,
     statusOf qid (worldWithQuote "quoted") = Some "paid" ->
     statusOf qid paidWorld = Some "paid") /\
  (forall qid,
     ~ confirms stripeSignedBy "quote-1-abcdef" "t=1,v1=5257a869" qid ->
     find (hasId qid) (quotes paidWorld)
     = find (hasId qid) (quotes (worldWithQuote "quoted"))).
Proof.
  apply (handler_preserves_quotes stripeSignedBy healthyEnv "quote-1-abcdef"
           "t=1,v1=5257a869" (worldWithQuote "quoted") paidWorld
           (Returned tt)).
  vm_compute. reflexivity.
Defined.

Lemma controller_status_witness :
  exists s b event,
    Some "t=1,v1=5257a869" = Some s /\ Some "quote-1-abcdef" = Some b /\
    stripeSignedBy b s = Some event.
Proof.
  refine (proj1 (proj2 (controller_status stripeSignedBy healthyEnv
    (Some "t=1,v1=5257a869") (Some "quote-1-abcdef")
    (worldWithQuote "quoted") paidWorld
    {| statusCode := 200; sent := JsonReceived |} _)) _).
  - vm_compute. reflexivity.
  - reflexivity.
Defined.

Lemma certificate_is_delivered_witness :
  exists w',
    handleStripeWebhook stripeSignedBy downloadFailsEnv "quote-1-abcdef"
      "t=1,v1=5257a869" (worldWithQuote "quoted") = (Returned tt, w') /\
    statusOf "quote-1-abcdef" w' = Some "paid" /\
    trace w' =
      [ QuoteMarkedPaid "quote-1-abcdef";
        WhatsAppTextPost "250788000001"
          (PaymentSuccessText "Alice" 94000%float "quote-1-");
        CertificateGenerationStarted "quote-1-abcdef";
        WhatsAppDocumentPost "250788000001" "https://pdf.example/tmp.pdf"
          "Here is your official Insurance Certificate."
          "Insurance-Certificate-quote-1-.pdf" ].
Proof.
  refine (certificate_is_delivered stripeSignedBy downloadFailsEnv
    "quote-1-abcdef" "t=1,v1=5257a869" "quote-1-abcdef" "250788000001"
    "https://pdf.example/tmp.pdf" (worldWithQuote "quoted")
    (quoteInStatus "quoted") alice
    confirms_quote1 _ quoted_not_paid _ _ _ _ _ _);
    try reflexivity.
  discriminate.
Defined.

Lemma findOrCreate_appends_witness :
  exists newUsers newConversations,
    users (snd (findOrCreateUserAndConversation healthyEnv "250788000009"
                  catalogWorld))
    = (users catalogWorld ++ newUsers)%list /\
    conversations (snd (findOrCreateUserAndConversation healthyEnv
                          "250788000009" catalogWorld))
    = (conversations catalogWorld ++ newConversations)%list /\
    (length newUsers <= 1)%nat /\ (length newConversations <= 1)%nat.
Proof.
  destruct (findOrCreate_appends healthyEnv "250788000009" catalogWorld
              (snd (findOrCreateUserAndConversation healthyEnv "250788000009"
                      catalogWorld))
              (fst (findOrCreateUserAndConversation healthyEnv "250788000009"
                      catalogWorld)) eq_refl)
    as (us & cs & Hu & Hc & Hlu & Hlc & _).
  exists us, cs. auto.
Defined.

Lemma serves_healthy (ops : list StorageOp) : serves healthyEnv ops.
Proof. induction ops; constructor; [reflexivity|assumption]. Defined.

Lemma findOrCreate_idempotent_witness :
  findOrCreateUserAndConversation pdfDownEnv "250788000009"
    (snd (findOrCreateUserAndConversation healthyEnv "250788000009"
            catalogWorld))
  = findOrCreateUserAndConversation healthyEnv "250788000009" catalogWorld.
Proof.
  apply (findOrCreate_idempotent healthyEnv pdfDownEnv "250788000009"
           catalogWorld).
  - apply serves_healthy.
  - repeat constructor.
  - reflexivity.
Defined.

Lemma system_note_is_appended_witness :
  exists conversation w',
    addSystemMessageToConversation healthyEnv "250788000001"
      "Payment received." (worldWithQuote "quoted") = (Returned tt, w') /\
    history <$> find (isConversation (conversation_id conversation))
                  (conversations w')
    = Some (history conversation ++
            [Some {| content_role := "model";
                     parts := [TextPart "(System Note: Payment received.)"]
                  |}])%list.
Proof.
  destruct (system_note_is_appended healthyEnv "250788000001"
              "Payment received." (worldWithQuote "quoted")
              (serves_healthy _))
    as (c & w' & Hrun & Hh & _).
  exists c, w'. auto.
Defined.

Lemma injection_shape_witness :
  exists injected,
    injectDynamicInstructions healthyEnv [] "I need car insurance" catalogWorld
    = (Returned injected, catalogWorld) /\
    injected
    = [ None;
        Some {| content_role := "model";
                parts := [InstructionPart
                            (requiredInputs (motorProduct 2010%float))] |} ].
Proof.
  destruct (injection_shape healthyEnv [] "I need car insurance" catalogWorld
              (motorProduct 2010%float))
    as (injected & Hrun & _ & Hempty & _).
  - cbn. lia.
  - right. reflexivity.
  - reflexivity.
  - reflexivity.
  - exists injected. split; [exact Hrun|]. now apply Hempty.
Defined.

Lemma premium_tool_is_pure_witness :
  exists r,
    dispatchTool nanOnStrings healthyEnv alice premiumCall catalogWorld
    = (Returned (PremiumTool r), catalogWorld).
Proof.
  destruct (premium_tool_is_pure nanOnStrings healthyEnv alice premiumCall
              catalogWorld eq_refl) as (r & _ & Hrun).
  exists r. exact Hrun.
Defined.

Lemma payment_link_creates_quote_witness :
  exists w',
    dispatchTool nanOnStrings (motorLinkEnv (Some (Some "https://pay.example/1")))
      alice motorLinkCall (worldWithQuote "paid")
    = (Returned (CheckoutTool (Some "https://pay.example/1")), w') /\
    quotes w'
    = (quotes (worldWithQuote "paid") ++
       [quoteFor (motorLinkEnv (Some (Some "https://pay.example/1"))) alice
          (motorProduct 2010%float) motorLinkCall])%list.
Proof.
  destruct (payment_link_creates_quote nanOnStrings
              (motorLinkEnv (Some (Some "https://pay.example/1"))) alice
              motorLinkCall (motorProduct 2010%float) (worldWithQuote "paid")
              (Some "https://pay.example/1"))
    as (w' & Hrun & Hq & _); try reflexivity.
  - repeat constructor.
  - exists w'. auto.
Defined.

Lemma checkout_failure_keeps_quote_witness :
  exists w',
    dispatchTool nanOnStrings (motorLinkEnv None) alice motorLinkCall
      (worldWithQuote "paid")
    = (Thrown "Could not create payment session.", w') /\
    quotes w'
    = (quotes (worldWithQuote "paid") ++
       [quoteFor (motorLinkEnv None) alice (motorProduct 2010%float)
          motorLinkCall])%list.
Proof.
  destruct (checkout_failure_keeps_quote nanOnStrings (motorLinkEnv None)
              alice motorLinkCall (motorProduct 2010%float)
              (worldWithQuote "paid"))
    as (w' & Hrun & Hq & _); try reflexivity.
  - repeat constructor.
  - exists w'. auto.
Defined.

Lemma serves_noFault (env : Env) (ops : list StorageOp) :
  dbThrows env = noFault -> serves env ops.
Proof.
  intros H. induction ops; constructor; [now rewrite H|assumption].
Defined.

Lemma plain_turn_witness :
  exists w',
    processMessage nanOnStrings greetingEnv "250788000001" "Hello"
      (worldWithQuote "quoted") = (Returned tt, w') /\
    trace w' =
      [ ModelMessage [] "Hello";
        WhatsAppTextPost "250788000001"
          (PlainText "Hello! Which insurance do you need?") ].
Proof.
  destruct (plain_turn nanOnStrings greetingEnv "250788000001" "Hello"
              (worldWithQuote "quoted")
              {| response_text := "Hello! Which insurance do you need?";
                 functionCalls := [] |}
              (serves_noFault greetingEnv _ eq_refl) eq_refl eq_refl
              (fun c (H : None = Some c) =>
                 match H in _ = o
                       return match o with
                              | Some c => Forall is_Some (history c)
                              | None => True
                              end
                 with eq_refl => I end)
              eq_refl eq_refl)
    as (_ & w' & Hrun & Ht & _).
  exists w'. split; [exact Hrun|exact Ht].
Defined.

Lemma unknown_tool_turn_witness :
  exists sent w',
    processMessage nanOnStrings strayToolEnv "250788000001" "Hello"
      (worldWithQuote "quoted") = (Returned tt, w') /\
    trace w' =
      [ ModelMessage sent "Hello";
        ModelFunctionResponse "lookup_weather" (ErrorTool "Unknown function");
        WhatsAppTextPost "250788000001"
          (PlainText "Sorry, let us continue with your quote.") ].
Proof.
  destruct (unknown_tool_turn nanOnStrings strayToolEnv "250788000001" "Hello"
              "Sorry, let us continue with your quote."
              (worldWithQuote "quoted")
              {| response_text := ""; functionCalls := [strayCall] |}
              strayCall [] (serves_noFault strayToolEnv _ eq_refl)
              eq_refl eq_refl)
    as (sent & w' & Hrun & Ht & _); try discriminate; try reflexivity.
  exists sent, w'. split; [exact Hrun|exact Ht].
Defined.

Lemma verification_handshake_witness :
  verify_status (verifyWebhook (Some "s3cret") (Some "subscribe")
                   (Some "s3cret") (Some "1158201444")) = 200 /\
  echoed (verifyWebhook (Some "s3cret") (Some "subscribe")
            (Some "s3cret") (Some "1158201444")) = Some "1158201444".
Proof.
  destruct (verification_handshake (Some "s3cret") (Some "subscribe")
              (Some "s3cret") (Some "1158201444")) as (H200 & Hecho & _).
  assert (H : verify_status (verifyWebhook (Some "s3cret") (Some "subscribe")
                (Some "s3cret") (Some "1158201444")) = 200).
  { apply H200. split; [reflexivity|]. exists "s3cret".
    repeat split. discriminate. }
  split; [exact H|exact (Hecho H)].
Defined.

Lemma replies_follow_messages_witness :
  exists w' es,
    handleIncomingMessage nanOnStrings (fun _ => greetingEnv) twoTextsPayload
      catalogWorld = (200, w') /\
    trace w' = (trace catalogWorld ++ es)%list /\
    map fst (textPosts es) = ["250788000001"; "250788000003"].
Proof.
  destruct (replies_follow_messages nanOnStrings (fun _ => greetingEnv)
              twoTextsPayload catalogWorld eq_refl)
    as (w' & es & Hrun & Ht & _ & Hall).
  exists w', es. split; [exact Hrun|]. split; [exact Ht|].
  apply Hall. repeat constructor; discriminate.
Defined.

Lemma formatDetailKey_without_capitals_witness :
  formatDetailKey "driver_age" = "Driver_age".
Proof.
  apply (formatDetailKey_without_capitals "d" "river_age"); reflexivity.
Defined.

Lemma formatDetailKey_leading_capital_witness :
  formatDetailKey "VIN" = " V I N".
Proof.
  apply (formatDetailKey_leading_capital "V" "IN"). reflexivity.
Defined.

Lemma duplicate_email_rejected_witness :
  registerAdmin toyHash healthyEnv
    {| register_fullName := "Mallory"; register_email := "alice@example.com";
       register_password := "12345678" |} [customerAccount]
  = ({| auth_status := 409; auth_json := MessageJson "User already exists" |},
     [customerAccount]).
Proof.
  refine (proj2 (duplicate_email_rejected toyHash healthyEnv
    {| register_fullName := "Mallory"; register_email := "alice@example.com";
       register_password := "12345678" |} [customerAccount] customerAccount
    _ _)); reflexivity.
Defined.

Lemma registration_creates_admin_witness :
  exists user,
    registerAdmin toyHash healthyEnv adaInput [customerAccount]
    = ({| auth_status := 201; auth_json := AccountJson (withoutPassword user) |},
       [customerAccount; user]) /\
    account_role user = ADMIN /\
    account_password user = Some (toyHash "correct horse").
Proof.
  destruct (registration_creates_admin toyHash healthyEnv adaInput
              [customerAccount] (serves_healthy _) eq_refl)
    as (user & Hrun & Hrole & _ & Hpw & _).
  exists user. auto.
Defined.

Lemma register_then_login_witness :
  loginAdmin toyCompare toySign healthyEnv
    {| login_email := "ada@example.com"; login_password := "correct horse" |}
    (snd (registerAdminUser toyHash healthyEnv adaInput [customerAccount]))
  = {| auth_status := 200; auth_json := TokenJson "jwt.user-new" |}.
Proof.
  apply (register_then_login toyHash toyCompare toySign healthyEnv healthyEnv
           adaInput [customerAccount]
           (snd (registerAdminUser toyHash healthyEnv adaInput
                   [customerAccount]))
           (fst (registerAdminUser toyHash healthyEnv adaInput
                   [customerAccount]))); try reflexivity.
  - apply serves_healthy.
  - discriminate.
Defined.

Lemma token_only_for_admin_witness :
  exists user hashed,
    find (hasEmail "ada@example.com")
      (snd (registerAdminUser toyHash healthyEnv adaInput [customerAccount]))
    = Some user /\
    account_password user = Some hashed /\
    toyCompare "correct horse" hashed = true /\
    account_role user = ADMIN.
Proof.
  destruct (token_only_for_admin toyCompare toySign healthyEnv
              {| login_email := "ada@example.com";
                 login_password := "correct horse" |}
              (snd (registerAdminUser toyHash healthyEnv adaInput
                      [customerAccount]))
              "jwt.user-new" eq_refl)
    as (user & h & Hf & Hp & Hc & Hr & _).
  exists user, h. auto.
Defined.

Lemma login_refusals_witness :
  loginAdmin toyCompare toySign healthyEnv
    {| login_email := "alice@example.com"; login_password := "alice-secret" |}
    [customerAccount]
  = {| auth_status := 401;
       auth_json := MessageJson "Access denied. Not an administrator." |}.
Proof.
  refine (proj2 (login_refusals toyCompare toySign healthyEnv
    {| login_email := "alice@example.com"; login_password := "alice-secret" |}
    [customerAccount] _) customerAccount (toyHash "alice-secret") _ _ _ _);
    reflexivity.
Defined.

Lemma guard_admits_only_role_witness :
  exists header token user,
    Some "Bearer jwt.user-new" = Some header /\
    String.prefix "Bearer " header = true /\
    splitSecond header = Some token /\
    toyVerify token = Some "user-new" /\
    find (isAccount "user-new")
      (snd (registerAdminUser toyHash healthyEnv adaInput [customerAccount]))
    = Some user /\
    account_role user = ADMIN.
Proof.
  refine (proj2 (proj1 (guard_admits_only_role toyVerify ADMIN healthyEnv
    (Some "Bearer jwt.user-new")
    (snd (registerAdminUser toyHash healthyEnv adaInput [customerAccount])))
    "user-new" ADMIN _)).
  reflexivity.
Defined.

Lemma registered_admin_is_admitted_witness :
  requireAuth toyVerify ADMIN healthyEnv (Some ("Bearer " ++ "jwt.user-new"))
    (snd (registerAdminUser toyHash healthyEnv adaInput [customerAccount]))
  = Next "user-new" ADMIN.
Proof.
  refine (proj2 (registered_admin_is_admitted toyHash toyCompare toySign
    toyVerify healthyEnv healthyEnv healthyEnv adaInput [customerAccount]
    (snd (registerAdminUser toyHash healthyEnv adaInput [customerAccount]))
    (fst (registerAdminUser toyHash healthyEnv adaInput [customerAccount]))
    "jwt.user-new" (serves_healthy _) _ _ _ _ _ _ _ _ _ _));
    try reflexivity.
  discriminate.
Defined.
